(** * DataVizPro: the data analysis engine

    A shallow embedding of the analysis functions of the repository
    (excel-parser: [detectColumnType], [analyzeColumn], [parseExcelFile],
    [generateChartSuggestions], [aggregateData]; data-profiling:
    [calculatePearsonCorrelation], [getCorrelationStrength], [profileColumn],
    [generateDataProfile]; data-quality: [detectOutliers], [detectMixedTypes],
    [findDuplicates], [analyzeDataQuality]; sample-data: [createColumn],
    [createParsedData]; file-validation: [validateFileSize],
    [validateFileType], [validateDataSize], [formatFileSize],
    [combineValidationResults]; format-utils: [formatColumnName],
    [formatChartTitle], [truncateText]; FileUpload: [processFile]) together
    with the properties the specification states about them and further
    properties of the code.

    Conventions of the embedding.
    - A JavaScript number is a [JSNum]: [NaN], the two infinities, or a finite
      value carried as an exact rational.  Arithmetic follows IEEE 754 on the
      special values and is exact on finite ones: binary64 rounding, overflow
      and the sign of zero are not modelled.
    - A cell is a [Value]: the scalars the spreadsheet reader produces
      (null, undefined, boolean, number, string, Date).  Every Date cell is an
      object of its own: no two cells hold the same Date instance.
    - A string is the sequence of its code units, each held in one [ascii]:
      code units above 255 are not modelled, and [String.length] is the
      [length] of the sources.
    - What the host provides and the sources only call (string to number
      conversion, [Date.parse], number formatting, [JSON.stringify],
      [Math.sqrt]) is the class [Host]; every definition and theorem is
      parametric in it, and [refHost] is one instance used to evaluate closed
      examples.  The class [Builtins] does the same for what file-validation
      calls ([toLocaleString], [toLowerCase], [Math.log], [Math.pow],
      [parseFloat]), with the instance [refBuiltins].
    - A call that raises [TypeError] or [RangeError] is a [Throw]; functions
      that can raise return a [result].  Limits of the engine (the stack, the
      number of arguments of a call) are not modelled.
    - An object used as a dictionary is its own properties: a [gmap] where
      the order of enumeration is not observed, a list in creation order where
      it is ([Object.entries], [Object.keys]).  Names inherited from
      [Object.prototype] are not modelled.
    - [Array.prototype.sort] is the stable sort of the standard, built by
      insertion.
    - [parseExcelFile] is modelled from the point where the file has been
      read: it takes the sheet names of the workbook with the rows
      [sheet_to_json] gives for each, and the time [new Date()] reads.  The
      [FileReader] and its [onerror] are not modelled.
    - A component is the state its handlers write: [processFile] maps the
      state of the upload component to its state when the handler has ended,
      with the toasts it has shown. *)

From Stdlib Require Import QArith Qround Qabs Qreduction Lqa.
From Stdlib Require Qcanon.
From Stdlib Require Import Sorting.Sorted Sorting.Permutation.
From stdpp Require Import gmap strings list pretty.

Local Open Scope Q_scope.

(* ================================================================== *)
(** ** Numbers *)

Module Num.

Inductive JSNum : Type :=
| NaN
| PInf
| NInf
| Fin (q : Q).

Definition fin (q : Q) : JSNum := Fin (Qred q).
Definition of_Z (z : Z) : JSNum := Fin (inject_Z z).
Definition of_nat (n : nat) : JSNum := of_Z (Z.of_nat n).

Definition zero : JSNum := of_Z 0.

Definition isNaN (a : JSNum) : bool :=
  match a with NaN => true | _ => false end.


Definition Qltb (a b : Q) : bool := negb (Qle_bool b a).

(** Unary minus. *)
Definition neg (a : JSNum) : JSNum :=
  match a with
  | NaN => NaN
  | PInf => NInf
  | NInf => PInf
  | Fin q => fin (- q)
  end.

(** [a + b]. *)
Definition add (a b : JSNum) : JSNum :=
  match a, b with
  | NaN, _ | _, NaN => NaN
  | PInf, NInf | NInf, PInf => NaN
  | PInf, _ | _, PInf => PInf
  | NInf, _ | _, NInf => NInf
  | Fin x, Fin y => fin (x + y)
  end.

(** [a - b]. *)
Definition sub (a b : JSNum) : JSNum :=
  match a, b with
  | NaN, _ | _, NaN => NaN
  | PInf, PInf | NInf, NInf => NaN
  | PInf, _ | _, NInf => PInf
  | NInf, _ | _, PInf => NInf
  | Fin x, Fin y => fin (x - y)
  end.

(** The sign of a finite value: [Lt], [Eq] or [Gt] against zero. *)
Definition sgn (q : Q) : comparison := Qcompare q 0.

Definition inf_of (c : comparison) : JSNum :=
  match c with Gt => PInf | Lt => NInf | Eq => NaN end.

(** [a * b]; an infinity times zero is [NaN]. *)
Definition mul (a b : JSNum) : JSNum :=
  match a, b with
  | NaN, _ | _, NaN => NaN
  | PInf, PInf | NInf, NInf => PInf
  | PInf, NInf | NInf, PInf => NInf
  | PInf, Fin y | Fin y, PInf => inf_of (sgn y)
  | NInf, Fin y | Fin y, NInf => inf_of (CompOpp (sgn y))
  | Fin x, Fin y => fin (x * y)
  end.

(** [a / b]; a finite non-zero value over zero is an infinity of the sign of
    the numerator, zero over zero is [NaN]. *)
Definition div (a b : JSNum) : JSNum :=
  match a, b with
  | NaN, _ | _, NaN => NaN
  | (PInf | NInf), (PInf | NInf) => NaN
  | PInf, Fin y => match sgn y with Lt => NInf | _ => PInf end
  | NInf, Fin y => match sgn y with Lt => PInf | _ => NInf end
  | Fin _, (PInf | NInf) => zero
  | Fin x, Fin y =>
      match sgn y with
      | Eq => inf_of (sgn x)
      | _ => fin (x / y)
      end
  end.

(** [a < b]; false as soon as one side is [NaN]. *)
Definition lt (a b : JSNum) : bool :=
  match a, b with
  | NaN, _ | _, NaN => false
  | _, NInf => false
  | PInf, _ => false
  | NInf, _ => true
  | _, PInf => true
  | Fin x, Fin y => Qltb x y
  end.

Definition gt (a b : JSNum) : bool := lt b a.

(** [a <= b]. *)
Definition le (a b : JSNum) : bool :=
  match a, b with
  | NaN, _ | _, NaN => false
  | NInf, _ => true
  | _, PInf => true
  | _, NInf => false
  | PInf, _ => false
  | Fin x, Fin y => Qle_bool x y
  end.

Definition ge (a b : JSNum) : bool := le b a.

(** [a === b] on numbers: [NaN] differs from everything. *)
Definition eqb (a b : JSNum) : bool :=
  match a, b with
  | PInf, PInf | NInf, NInf => true
  | Fin x, Fin y => Qeq_bool x y
  | _, _ => false
  end.

(** [Math.min(a, b)] and [Math.max(a, b)]: [NaN] when an argument is. *)
Definition min (a b : JSNum) : JSNum :=
  match a, b with
  | NaN, _ | _, NaN => NaN
  | _, _ => if lt b a then b else a
  end.

Definition max (a b : JSNum) : JSNum :=
  match a, b with
  | NaN, _ | _, NaN => NaN
  | _, _ => if lt a b then b else a
  end.

(** [Math.min(...l)] and [Math.max(...l)]: the infinities on no argument. *)
Definition min_list (l : list JSNum) : JSNum := fold_left min l PInf.
Definition max_list (l : list JSNum) : JSNum := fold_left max l NInf.

Definition abs (a : JSNum) : JSNum :=
  match a with
  | NaN => NaN
  | PInf | NInf => PInf
  | Fin q => fin (Qabs q)
  end.

Definition floor (a : JSNum) : JSNum :=
  match a with
  | Fin q => of_Z (Qfloor q)
  | _ => a
  end.

Definition ceil (a : JSNum) : JSNum :=
  match a with
  | Fin q => of_Z (Qceiling q)
  | _ => a
  end.

(** [Math.round]: the nearest integer, a half goes up. *)
Definition round (a : JSNum) : JSNum :=
  match a with
  | Fin q => of_Z (Qfloor (q + (1 # 2)))
  | _ => a
  end.

(** [l.reduce((a, b) => a + b, 0)]. *)
Definition sum (l : list JSNum) : JSNum := fold_left add l zero.

(** Truthiness of a number: zero and [NaN] are falsy. *)
Definition truthy (a : JSNum) : bool :=
  match a with
  | NaN => false
  | Fin q => negb (Qeq_bool q 0)
  | _ => true
  end.

(** The element of an array of numbers at a numeric index; a read outside the
    array gives [undefined], which every arithmetic use turns into [NaN]. *)
Definition at_index (l : list JSNum) (i : JSNum) : JSNum :=
  match i with
  | Fin q =>
      if Qeq_bool (inject_Z (Qfloor q)) q && (0 <=? Qfloor q)%Z
      then nth (Z.to_nat (Qfloor q)) l NaN
      else NaN
  | _ => NaN
  end.

End Num.

Export Num.

Declare Scope js_scope.
Delimit Scope js_scope with js.
Bind Scope js_scope with JSNum.
Infix "+" := Num.add : js_scope.
Infix "-" := Num.sub : js_scope.
Infix "*" := Num.mul : js_scope.
Infix "/" := Num.div : js_scope.
Infix "<?" := Num.lt : js_scope.
Infix ">?" := Num.gt : js_scope.
Infix "<=?" := Num.le : js_scope.
Infix ">=?" := Num.ge : js_scope.
Infix "=?" := Num.eqb : js_scope.

(** Decimal literals of the sources. *)
Definition num (n : Z) : JSNum := Num.of_Z n.
Definition dec (n : Z) (d : positive) : JSNum := Num.fin (n # d).

(* ================================================================== *)
(** ** Exceptions *)

Inductive error : Type :=
| TypeError
| RangeError.

Inductive result (A : Type) : Type :=
| Ok (a : A)
| Throw (e : error).

Arguments Ok {A} a.
Arguments Throw {A} e.

Definition bind {A B : Type} (r : result A) (k : A -> result B) : result B :=
  match r with
  | Ok a => k a
  | Throw e => Throw e
  end.

Notation "'let!' x ':=' r 'in' k" := (bind r (fun x => k))
  (at level 10, x name, r at level 100, k at level 200).

(** [l.filter(p)] for a callback that can raise: the first exception ends
    the traversal. *)
Fixpoint filterM {A : Type} (p : A -> result bool) (l : list A) : result (list A) :=
  match l with
  | [] => Ok []
  | x :: l' =>
      let! b := p x in
      let! r := filterM p l' in
      Ok (if b then x :: r else r)
  end.

(** [l.forEach(x => { st = f(x, st) })] for a body that can raise. *)
Fixpoint foldM {A S : Type} (f : A -> S -> result S) (l : list A) (st : S) : result S :=
  match l with
  | [] => Ok st
  | x :: l' => let! st' := f x st in foldM f l' st'
  end.

(* ================================================================== *)
(** ** Cells, rows and the host *)

Inductive Value : Type :=
| VNull
| VUndefined
| VBool (b : bool)
| VNum (n : JSNum)
| VStr (s : string)
| VDate (t : JSNum).   (* a Date instance and its time value; NaN: Invalid Date *)

(** [Record<string, any>]: the own properties in insertion order. *)
Definition Row : Type := list (string * Value).

(** [row[k]]: the own property, [undefined] when there is none. *)
Fixpoint row_get (row : Row) (k : string) : Value :=
  match row with
  | [] => VUndefined
  | (k', v) :: row' => if String.eqb k' k then v else row_get row' k
  end.

Class Host : Type := {
  (** [Number(s)] for a string [s]. *)
  StringToNumber : string -> JSNum;
  (** [Date.parse(s)] for a string [s]. *)
  Date_parse : string -> JSNum;
  (** [String(x)] for a finite number [x]. *)
  NumberToString : Q -> string;
  (** [String(d)] for a Date of time value [t]. *)
  DateToString : JSNum -> string;
  (** [x.toFixed(digits)]. *)
  toFixed : JSNum -> nat -> string;
  (** [JSON.stringify(row)]. *)
  JSON_stringify : Row -> string;
  (** [Math.sqrt(x)]. *)
  Math_sqrt : JSNum -> JSNum
}.

(** [s.includes(t)]. *)
Fixpoint includes (s t : string) : bool :=
  String.prefix t s ||
  match s with
  | EmptyString => false
  | String _ s' => includes s' t
  end.

Section Conversions.
Context `{Host}.

(** [Number(v)]. *)
Definition Number (v : Value) : JSNum :=
  match v with
  | VNull => Num.zero
  | VUndefined => NaN
  | VBool true => num 1
  | VBool false => num 0
  | VNum n => n
  | VStr s => StringToNumber s
  | VDate t => t
  end.

(** [String(x)] for a number. *)
Definition ToString_num (x : JSNum) : string :=
  match x with
  | NaN => "NaN"
  | PInf => "Infinity"
  | NInf => "-Infinity"
  | Fin q => NumberToString q
  end.

(** [String(v)]. *)
Definition ToString (v : Value) : string :=
  match v with
  | VNull => "null"
  | VUndefined => "undefined"
  | VBool true => "true"
  | VBool false => "false"
  | VNum n => ToString_num n
  | VStr s => s
  | VDate t => DateToString t
  end.

(** [Date.parse(v)]: the argument is converted to a string first. *)
Definition Date_parse_value (v : Value) : JSNum := Date_parse (ToString v).

(** Truthiness, as [||] and [!] read it. *)
Definition truthy (v : Value) : bool :=
  match v with
  | VNull | VUndefined => false
  | VBool b => b
  | VNum n => Num.truthy n
  | VStr s => negb (String.eqb s "")
  | VDate _ => true
  end.

(** [v.includes(t)]: a method of strings only; numbers and booleans have no
    such property, and calling it raises. *)
Definition Value_includes (v : Value) (t : string) : result bool :=
  match v with
  | VStr s => Ok (includes s t)
  | _ => Throw TypeError
  end.

End Conversions.

(** [v !== null && v !== undefined && v !== ''] *)
Definition nonNull (v : Value) : bool :=
  match v with
  | VNull | VUndefined => false
  | VStr s => negb (String.eqb s "")
  | _ => true
  end.

Definition is_boolean (v : Value) : bool :=
  match v with VBool _ => true | _ => false end.

Definition is_string (v : Value) : bool :=
  match v with VStr _ => true | _ => false end.

Definition is_Date (v : Value) : bool :=
  match v with VDate _ => true | _ => false end.

(** [v === s] for a string literal [s]. *)
Definition is_str (v : Value) (s : string) : bool :=
  match v with VStr s' => String.eqb s' s | _ => false end.

(* ================================================================== *)
(** ** excel-parser: type inference *)

Inductive ColumnType : Type :=
| TNumber
| TString
| TDate
| TBoolean.

Section TypeInference.
Context `{Host}.

(** [typeof v === 'boolean' || v === 'true' || v === 'false'] *)
Definition boolean_like (v : Value) : bool :=
  is_boolean v || is_str v "true" || is_str v "false".

(** [!isNaN(Number(v)) && v !== ''] *)
Definition number_like (v : Value) : bool :=
  negb (isNaN (Number v)) && negb (is_str v "").

(** The callback of the date count:
    [if (v instanceof Date) return true;
     const parsed = Date.parse(v);
     return !isNaN(parsed) && typeof v === 'string' && v.includes('/') || v.includes('-');]
    The [&&] chain binds tighter than [||]. *)
Definition date_like (v : Value) : result bool :=
  if is_Date v then Ok true
  else
    let parsed := Date_parse_value v in
    let! l := (if negb (isNaN parsed) && is_string v
               then Value_includes v "/" else Ok false) in
    if l then Ok true else Value_includes v "-".

Definition detectColumnType (values : list Value) : result ColumnType :=
  let nonNullValues := filter (fun v => nonNull v = true) values in
  if (length nonNullValues =? 0)%nat then Ok TString
  else
    let booleanCount := length (filter (fun v => boolean_like v = true) nonNullValues) in
    if (Num.of_nat booleanCount / Num.of_nat (length nonNullValues) >? dec 8 10)%js
    then Ok TBoolean
    else
      let numberCount := length (filter (fun v => number_like v = true) nonNullValues) in
      if (Num.of_nat numberCount / Num.of_nat (length nonNullValues) >? dec 8 10)%js
      then Ok TNumber
      else
        let! dates := filterM date_like nonNullValues in
        let dateCount := length dates in
        if (Num.of_nat dateCount / Num.of_nat (length nonNullValues) >? dec 8 10)%js
        then Ok TDate
        else Ok TString.

End TypeInference.

(* ================================================================== *)
(** ** Arrays and dictionaries *)

(** [l.sort(cmp)]: the stable order of a consistent comparator, built by
    insertion.  [x] goes after [y] exactly when [cmp x y > 0]; a [NaN] from
    the comparator counts as zero. *)
Fixpoint sort_insert {A : Type} (cmp : A -> A -> JSNum) (x : A) (l : list A) : list A :=
  match l with
  | [] => [x]
  | y :: l' => if (cmp x y >? num 0)%js then y :: sort_insert cmp x l' else x :: l
  end.

Definition Array_sort {A : Type} (cmp : A -> A -> JSNum) (l : list A) : list A :=
  foldr (sort_insert cmp) [] l.

(** [l.slice(0, n)]. *)
Definition slice0 {A : Type} (n : nat) (l : list A) : list A := firstn n l.

(** An object used as a dictionary whose enumeration order is observed: its
    own properties in creation order. *)
Abbreviation Dict A := (list (string * A)) (only parsing).

Fixpoint dict_get {A : Type} (d : Dict A) (k : string) : option A :=
  match d with
  | [] => None
  | (k', a) :: d' => if String.eqb k' k then Some a else dict_get d' k
  end.

(** [d[k] = a]: an existing property keeps its place. *)
Fixpoint dict_set {A : Type} (d : Dict A) (k : string) (a : A) : Dict A :=
  match d with
  | [] => [(k, a)]
  | (k', a') :: d' =>
      if String.eqb k' k then (k', a) :: d' else (k', a') :: dict_set d' k a
  end.

Definition is_digit (c : Ascii.ascii) : bool :=
  let n := Ascii.N_of_ascii c in (48 <=? n)%N && (n <=? 57)%N.

Fixpoint digits_value (s : string) (acc : N) : N :=
  match s with
  | EmptyString => acc
  | String c s' => digits_value s' (acc * 10 + (Ascii.N_of_ascii c - 48))%N
  end.

Fixpoint all_digits (s : string) : bool :=
  match s with
  | EmptyString => true
  | String c s' => is_digit c && all_digits s'
  end.

(** A property name that is an array index: the canonical decimal form of an
    integer from 0 to 2^32 - 2. *)
Definition array_index (s : string) : option N :=
  match s with
  | EmptyString => None
  | String c s' =>
      if all_digits s
         && (negb (Ascii.N_of_ascii c =? 48)%N || String.eqb s' "")
         && (String.length s <=? 10)%nat
         && (digits_value s 0 <=? 4294967294)%N
      then Some (digits_value s 0)
      else None
  end.

Fixpoint index_insert {A : Type} (e : N * (string * A)) (l : list (N * (string * A)))
  : list (N * (string * A)) :=
  match l with
  | [] => [e]
  | e' :: l' => if (e'.1 <? e.1)%N then e' :: index_insert e l' else e :: l
  end.

(** [Object.entries(d)]: array-index names first, in ascending numeric order,
    then the other names in creation order. *)
Definition Object_entries {A : Type} (d : Dict A) : list (string * A) :=
  let indexed :=
    omap (fun e => match array_index e.1 with Some i => Some (i, e) | None => None end) d in
  let named :=
    filter (fun e : string * A => array_index e.1 = None) d in
  (foldr index_insert [] indexed).*2 ++ named.

(* ================================================================== *)
(** ** excel-parser: the data model and the aggregation engine *)

Module ColumnInfo.
Record t : Type := {
  name : string;
  type : ColumnType;
  uniqueValues : nat;
  nullCount : nat;
  min : option JSNum;
  max : option JSNum;
  sum : option JSNum;
  avg : option JSNum
}.
End ColumnInfo.

Module ParsedData.
Record t : Type := {
  sheetName : string;
  headers : list string;
  rows : list Row;
  columns : list ColumnInfo.t;
  rowCount : nat;
  columnCount : nat
}.
End ParsedData.

Inductive AggregationType : Type :=
| AggSum
| AggAvg
| AggCount
| AggMin
| AggMax.

Module Point.
Record t : Type := { name : string; value : JSNum }.
End Point.

Section Aggregation.
Context `{Host}.

(** [x || y] on cells. *)
Definition or_else (x y : Value) : Value := if truthy x then x else y.

(** The body of [data.forEach(row => ...)]. *)
Definition group_row (groupBy aggregateColumn : string) (grouped : Dict (list JSNum))
    (row : Row) : Dict (list JSNum) :=
  let key := ToString (or_else (row_get row groupBy) (VStr "Unknown")) in
  let value := Number (row_get row aggregateColumn) in
  let grouped :=
    match dict_get grouped key with
    | None => dict_set grouped key []
    | Some _ => grouped
    end in
  if negb (isNaN value)
  then match dict_get grouped key with
       | Some values => dict_set grouped key (values ++ [value])
       | None => grouped
       end
  else grouped.

(** The [switch] on the aggregation type. *)
Definition reduce_values (aggregationType : AggregationType) (values : list JSNum) : JSNum :=
  match aggregationType with
  | AggSum => Num.sum values
  | AggAvg => (Num.sum values / Num.of_nat (length values))%js
  | AggCount => Num.of_nat (length values)
  | AggMin => Num.min_list values
  | AggMax => Num.max_list values
  end.

(** [Math.round(value * 100) / 100] *)
Definition round2 (value : JSNum) : JSNum := (Num.round (value * num 100) / num 100)%js.

Definition aggregateData (data : list Row) (groupBy aggregateColumn : string)
    (aggregationType : AggregationType) : list Point.t :=
  let grouped := fold_left (group_row groupBy aggregateColumn) data [] in
  slice0 10
    (Array_sort (fun a b => (Point.value b - Point.value a)%js)
       (map (fun e : string * list JSNum =>
               {| Point.name := e.1;
                  Point.value := round2 (reduce_values aggregationType e.2) |})
            (Object_entries grouped))).

End Aggregation.

(* ================================================================== *)
(** ** data-profiling *)

Inductive Cardinality : Type :=
| CardLow
| CardMedium
| CardHigh
| CardUnique.

Inductive Skewness : Type :=
| SkewLeft
| SkewSymmetric
| SkewRight.

Inductive Strength : Type :=
| StrNone
| StrWeak
| StrModerate
| StrStrong
| StrVeryStrong.

Module DistEntry.
Record t : Type := { value : string; count : nat; percentage : JSNum }.
End DistEntry.

Module Quartiles.
Record t : Type := { q1 : JSNum; q2 : JSNum; q3 : JSNum }.
End Quartiles.

Module Bin.
Record t : Type := { bin : string; count : JSNum }.
End Bin.

Module ColumnProfile.
Record t : Type := {
  name : string;
  type : ColumnType;
  totalCount : nat;
  uniqueCount : nat;
  nullCount : nat;
  nullPercentage : JSNum;
  cardinality : Cardinality;
  distribution : list DistEntry.t;
  mean : option JSNum;
  median : option JSNum;
  stdDev : option JSNum;
  min : option JSNum;
  max : option JSNum;
  range : option JSNum;
  quartiles : option Quartiles.t;
  skewness : option Skewness;
  histogram : option (list Bin.t)
}.
End ColumnProfile.

Module CorrelationPair.
Record t : Type := {
  column1 : string;
  column2 : string;
  correlation : JSNum;
  strength : Strength
}.
End CorrelationPair.

Module DataProfile.
Record t : Type := {
  columns : list ColumnProfile.t;
  correlations : list CorrelationPair.t
}.
End DataProfile.

Section Profiling.
Context `{Host}.

Definition calculateMedian (sorted : list JSNum) : JSNum :=
  let mid := (length sorted / 2)%nat in
  if negb (length sorted mod 2 =? 0)%nat
  then nth mid sorted NaN
  else if (mid =? 0)%nat then NaN   (* sorted[-1] + sorted[0] on an empty array *)
  else ((nth (mid - 1) sorted NaN + nth mid sorted NaN) / num 2)%js.

Definition calculateStdDev (values : list JSNum) (mean : JSNum) : JSNum :=
  let squareDiffs := map (fun value => ((value - mean) * (value - mean))%js) values in
  Math_sqrt (Num.sum squareDiffs / Num.of_nat (length values))%js.

(** The body of the [for] loop of [calculatePearsonCorrelation], on the
    accumulators [(numerator, denomX, denomY)]. *)
Definition pearson_step (x y : list JSNum) (meanX meanY : JSNum)
    (acc : JSNum * JSNum * JSNum) (i : nat) : JSNum * JSNum * JSNum :=
  let '(numerator, denomX, denomY) := acc in
  let diffX := (nth i x NaN - meanX)%js in
  let diffY := (nth i y NaN - meanY)%js in
  ((numerator + diffX * diffY)%js, (denomX + diffX * diffX)%js, (denomY + diffY * diffY)%js).

Definition calculatePearsonCorrelation (x y : list JSNum) : JSNum :=
  let n := Nat.min (length x) (length y) in
  if (n <? 3)%nat then num 0
  else
    let meanX := (Num.sum (slice0 n x) / Num.of_nat n)%js in
    let meanY := (Num.sum (slice0 n y) / Num.of_nat n)%js in
    let '(numerator, denomX, denomY) :=
      fold_left (pearson_step x y meanX meanY) (seq 0 n) (num 0, num 0, num 0) in
    let denominator := Math_sqrt (denomX * denomY)%js in
    if (denominator =? num 0)%js then num 0 else (numerator / denominator)%js.

Definition getCorrelationStrength (r : JSNum) : Strength :=
  let abs := Num.abs r in
  if (abs <? dec 1 10)%js then StrNone
  else if (abs <? dec 3 10)%js then StrWeak
  else if (abs <? dec 5 10)%js then StrModerate
  else if (abs <? dec 7 10)%js then StrStrong
  else StrVeryStrong.

Definition getCardinality (uniqueCount totalCount : nat) : Cardinality :=
  let ratio := (Num.of_nat uniqueCount / Num.of_nat totalCount)%js in
  if (ratio =? num 1)%js then CardUnique
  else if (ratio >? dec 5 10)%js then CardHigh
  else if (ratio >? dec 1 10)%js then CardMedium
  else CardLow.

(** [valueCounts.set(key, (valueCounts.get(key) || 0) + 1)] on a [Map], whose
    entries keep their insertion order. *)
Definition count_value (valueCounts : Dict nat) (key : string) : Dict nat :=
  dict_set valueCounts key (default 0%nat (dict_get valueCounts key) + 1)%nat.

(** [opt || 0] on an optional number. *)
Definition or_zero (opt : option JSNum) : JSNum :=
  match opt with
  | Some a => if Num.truthy a then a else num 0
  | None => num 0
  end.

(** [new Array(n).fill(0)]: [n] has to be an integer from 0 to 2^32 - 1. *)
Definition Array_zeros (n : JSNum) : result (list JSNum) :=
  match n with
  | Fin q =>
      if Qeq_bool (inject_Z (Qfloor q)) q && (0 <=? Qfloor q)%Z && (Qfloor q <=? 4294967295)%Z
      then Ok (repeat (num 0) (Z.to_nat (Qfloor q)))
      else Throw RangeError
  | _ => Throw RangeError
  end.

(** [bins[i]++]: the element at [i] when [i] is an index of the array.  For
    [NaN], a negative or a fractional [i] the statement writes a property
    that is no element, and the elements stay as they are.  (An index past the
    end would grow the array; the caller never passes one, its index being at
    most [binCount - 1].) *)
Definition bin_increment (bins : list JSNum) (i : JSNum) : list JSNum :=
  match i with
  | Fin q =>
      if Qeq_bool (inject_Z (Qfloor q)) q && (0 <=? Qfloor q)%Z
         && (Z.to_nat (Qfloor q) <? length bins)%nat
      then alter (fun c => (c + num 1)%js) (Z.to_nat (Qfloor q)) bins
      else bins
  | _ => bins
  end.

(** The histogram block of [profileColumn]. *)
Definition histogram_of (col : ColumnInfo.t) (range : JSNum) (numericValues : list JSNum)
  : result (list Bin.t) :=
  let binCount :=
    Num.min (num 10) (Num.ceil (Math_sqrt (Num.of_nat (length numericValues)))) in
  let binWidth := (range / binCount)%js in
  let! bins := Array_zeros binCount in
  let bins :=
    fold_left
      (fun bins v =>
         let binIndex :=
           Num.min (binCount - num 1)%js
                   (Num.floor ((v - or_zero (ColumnInfo.min col)) / binWidth)%js) in
         bin_increment bins binIndex)
      numericValues bins in
  Ok (imap
        (fun i count =>
           {| Bin.bin :=
                toFixed (or_zero (ColumnInfo.min col) + Num.of_nat i * binWidth)%js 1
                +:+ "-" +:+
                toFixed (or_zero (ColumnInfo.min col) + (Num.of_nat i + num 1) * binWidth)%js 1;
              Bin.count := count |})
        bins).

Definition display_value (value : string) : string :=
  if (30 <? String.length value)%nat then String.substring 0 30 value +:+ "..." else value.

Definition profileColumn (col : ColumnInfo.t) (values : list Value)
  : result ColumnProfile.t :=
  let nonNullValues := filter (fun v => nonNull v = true) values in
  let nullPercentage :=
    (Num.of_nat (length values - length nonNullValues)
     / Num.of_nat (length values) * num 100)%js in
  let valueCounts := fold_left (fun m v => count_value m (ToString v)) nonNullValues [] in
  let distribution :=
    slice0 10
      (Array_sort
         (fun a b => (Num.of_nat (DistEntry.count b) - Num.of_nat (DistEntry.count a))%js)
         (map (fun e : string * nat =>
                 {| DistEntry.value := display_value e.1;
                    DistEntry.count := e.2;
                    DistEntry.percentage :=
                      (Num.of_nat e.2 / Num.of_nat (length values) * num 100)%js |})
              valueCounts)) in
  let profile (mean median stdDev min max range : option JSNum) quartiles skewness histogram :=
    {| ColumnProfile.name := ColumnInfo.name col;
       ColumnProfile.type := ColumnInfo.type col;
       ColumnProfile.totalCount := length values;
       ColumnProfile.uniqueCount := ColumnInfo.uniqueValues col;
       ColumnProfile.nullCount := ColumnInfo.nullCount col;
       ColumnProfile.nullPercentage := nullPercentage;
       ColumnProfile.cardinality := getCardinality (ColumnInfo.uniqueValues col) (length values);
       ColumnProfile.distribution := distribution;
       ColumnProfile.mean := mean;
       ColumnProfile.median := median;
       ColumnProfile.stdDev := stdDev;
       ColumnProfile.min := min;
       ColumnProfile.max := max;
       ColumnProfile.range := range;
       ColumnProfile.quartiles := quartiles;
       ColumnProfile.skewness := skewness;
       ColumnProfile.histogram := histogram |} in
  let numericValues :=
    filter (fun n => isNaN n = false) (map Number nonNullValues) in
  match ColumnInfo.type col with
  | TNumber =>
      if (0 <? length numericValues)%nat then
        let sorted := Array_sort (fun a b => (a - b)%js) numericValues in
        let mean := (Num.sum numericValues / Num.of_nat (length numericValues))%js in
        let median := calculateMedian sorted in
        let stdDev := calculateStdDev numericValues mean in
        let range := (or_zero (ColumnInfo.max col) - or_zero (ColumnInfo.min col))%js in
        let quartiles :=
          {| Quartiles.q1 :=
               Num.at_index sorted (Num.floor (Num.of_nat (length sorted) * dec 25 100)%js);
             Quartiles.q2 := median;
             Quartiles.q3 :=
               Num.at_index sorted (Num.floor (Num.of_nat (length sorted) * dec 75 100)%js) |} in
        let skewness :=
          if (mean <? median - stdDev * dec 2 10)%js then SkewLeft
          else if (mean >? median + stdDev * dec 2 10)%js then SkewRight
          else SkewSymmetric in
        let! histogram := histogram_of col range numericValues in
        Ok (profile (Some mean) (Some median) (Some stdDev)
              (ColumnInfo.min col) (ColumnInfo.max col) (Some range)
              (Some quartiles) (Some skewness) (Some histogram))
      else Ok (profile None None None None None None None None None)
  | _ => Ok (profile None None None None None None None None None)
  end.

(** [sheet.rows.map(row => Number(row[name])).filter(v => !isNaN(v))] *)
Definition numeric_values (sheet : ParsedData.t) (name : string) : list JSNum :=
  filter (fun v => isNaN v = false)
         (map (fun row => Number (row_get row name)) (ParsedData.rows sheet)).

(** The body of the inner loop of the correlation pass: the pair it pushes,
    if any. *)
Definition correlate (sheet : ParsedData.t) (col1 col2 : ColumnInfo.t)
  : list CorrelationPair.t :=
  let values1 := numeric_values sheet (ColumnInfo.name col1) in
  let values2 := numeric_values sheet (ColumnInfo.name col2) in
  if (3 <=? length values1)%nat && (3 <=? length values2)%nat then
    let correlation := calculatePearsonCorrelation values1 values2 in
    [ {| CorrelationPair.column1 := ColumnInfo.name col1;
         CorrelationPair.column2 := ColumnInfo.name col2;
         CorrelationPair.correlation := (Num.round (correlation * num 1000) / num 1000)%js;
         CorrelationPair.strength := getCorrelationStrength correlation |} ]
  else [].

(** [for (i = 0; i < n; i++) for (j = i + 1; j < n; j++)] over the numeric
    columns, in the order the pairs are pushed. *)
Definition correlation_loop (sheet : ParsedData.t) (numericColumns : list ColumnInfo.t)
  : list CorrelationPair.t :=
  let n := length numericColumns in
  flat_map
    (fun i =>
       flat_map
         (fun j =>
            match numericColumns !! i, numericColumns !! j with
            | Some col1, Some col2 => correlate sheet col1 col2
            | _, _ => []
            end)
         (seq (i + 1) (n - (i + 1))))
    (seq 0 n).

Definition is_number_type (t : ColumnType) : bool :=
  match t with TNumber => true | _ => false end.

(** The correlation part of [generateDataProfile]. *)
Definition correlations_of (sheet : ParsedData.t) : list CorrelationPair.t :=
  let numericColumns :=
    filter (fun c => is_number_type (ColumnInfo.type c) = true) (ParsedData.columns sheet) in
  Array_sort
    (fun a b => (Num.abs (CorrelationPair.correlation b)
                 - Num.abs (CorrelationPair.correlation a))%js)
    (correlation_loop sheet numericColumns).

(** [generateDataProfile], without the recommendation texts. *)
Definition generateDataProfile (sheet : ParsedData.t) : result DataProfile.t :=
  let! columns :=
    foldM (fun col columns =>
             let values := map (fun row => row_get row (ColumnInfo.name col))
                               (ParsedData.rows sheet) in
             let! p := profileColumn col values in
             Ok (columns ++ [p]))
          (ParsedData.columns sheet) [] in
  Ok {| DataProfile.columns := columns;
        DataProfile.correlations := correlations_of sheet |}.

End Profiling.

(* ================================================================== *)
(** ** data-quality *)

Inductive SeverityLevel : Type :=
| Low
| Medium
| High
| Critical.

Inductive IssueType : Type :=
| Missing
| Outlier
| Duplicate
| MixedType
| Inconsistent.

#[global] Instance IssueType_eq_dec : EqDecision IssueType.
Proof. solve_decision. Defined.

Module Issue.
Record t : Type := {
  id : string;
  type : IssueType;
  column : option string;
  severity : SeverityLevel;
  message : string;
  details : string;
  affectedRows : nat;
  percentage : JSNum;
  suggestion : string
}.
End Issue.

Module Summary.
Record t : Type := {
  totalIssues : nat;
  criticalCount : nat;
  highCount : nat;
  mediumCount : nat;
  lowCount : nat
}.
End Summary.

Module DataQualityReport.
Record t : Type := {
  overallScore : JSNum;
  issues : list Issue.t;
  summary : Summary.t;
  columnHealth : gmap string JSNum
}.
End DataQualityReport.

(** What the loop over the columns updates: [issues], [columnHealth] and
    [issueId]. *)
Module QState.
Record t : Type := {
  issues : list Issue.t;
  columnHealth : gmap string JSNum;
  issueId : nat
}.
End QState.

(** What one iteration updates while it runs: [issues], [issueId] and its own
    [columnScore]. *)
Module Acc.
Record t : Type := {
  issues : list Issue.t;
  issueId : nat;
  columnScore : JSNum
}.
End Acc.

(** The double quote character of the message templates. *)
Definition dq : string := String (Ascii.ascii_of_nat 34) EmptyString.

Definition severity_eqb (a b : SeverityLevel) : bool :=
  match a, b with
  | Low, Low | Medium, Medium | High, High | Critical, Critical => true
  | _, _ => false
  end.

Definition type_name (t : ColumnType) : string :=
  match t with
  | TNumber => "number"
  | TString => "string"
  | TDate => "date"
  | TBoolean => "boolean"
  end.

Definition ColumnType_eqb (a b : ColumnType) : bool :=
  match a, b with
  | TNumber, TNumber | TString, TString | TDate, TDate | TBoolean, TBoolean => true
  | _, _ => false
  end.

(** [types.add(t)] on a [Set], whose elements keep their insertion order. *)
Definition set_add (types : list ColumnType) (t : ColumnType) : list ColumnType :=
  if existsb (ColumnType_eqb t) types then types else types ++ [t].

(** [l.join(', ')] *)
Fixpoint join (sep : string) (l : list string) : string :=
  match l with
  | [] => ""
  | [s] => s
  | s :: l' => s +:+ sep +:+ join sep l'
  end.

Section Quality.
Context `{Host}.

Definition detectOutliers (values : list JSNum) : list JSNum * nat :=
  if (length values <? 4)%nat then ([], 0%nat)
  else
    let sorted := Array_sort (fun a b => (a - b)%js) values in
    let q1 := Num.at_index sorted (Num.floor (Num.of_nat (length sorted) * dec 25 100)%js) in
    let q3 := Num.at_index sorted (Num.floor (Num.of_nat (length sorted) * dec 75 100)%js) in
    let iqr := (q3 - q1)%js in
    let lowerBound := (q1 - dec 15 10 * iqr)%js in
    let upperBound := (q3 + dec 15 10 * iqr)%js in
    let outliers :=
      filter (fun v => (v <? lowerBound)%js || (v >? upperBound)%js = true) values in
    (outliers, length outliers).

(** The body of [values.forEach(v => ...)] in [detectMixedTypes]. *)
Definition classify_value (types : list ColumnType) (v : Value) : result (list ColumnType) :=
  if negb (nonNull v) then Ok types
  else if negb (isNaN (Number v)) && negb (is_boolean v) then Ok (set_add types TNumber)
  else if boolean_like v then Ok (set_add types TBoolean)
  else
    let! date :=
      (if is_Date v then Ok true
       else if negb (isNaN (Date_parse_value v))
            then (let! slash := Value_includes v "/" in
                  if slash then Ok true else Value_includes v "-")
            else Ok false) in
    Ok (set_add types (if date then TDate else TString)).

Definition detectMixedTypes (values : list Value) : result (bool * list ColumnType) :=
  let! types := foldM (fun v types => classify_value types v) values [] in
  Ok ((1 <? length types)%nat, types).

(** The body of [rows.forEach(row => ...)] in [findDuplicates], on
    [(seen, duplicateRows)]. *)
Definition see_row (st : gmap string nat * nat) (row : Row) : gmap string nat * nat :=
  let '(seen, duplicateRows) := st in
  let key := JSON_stringify row in
  let count := default 0%nat (seen !! key) in
  (<[key := (count + 1)%nat]> seen,
   if (0 <? count)%nat then (duplicateRows + 1)%nat else duplicateRows).

(** [findDuplicates]: the pair [(duplicateRows, duplicateGroups)]. *)
Definition findDuplicates (rows : list Row) : nat * nat :=
  let '(seen, duplicateRows) := fold_left see_row rows (∅, 0%nat) in
  let duplicateGroups :=
    length (filter (fun c => (1 < c)%nat) (map_to_list seen).*2) in
  (duplicateRows, duplicateGroups).

Definition issue_id (issueId : nat) : string :=
  "issue-" +:+ ToString_num (Num.of_nat issueId).

Definition toFixed_opt (x : option JSNum) (digits : nat) : string :=
  match x with
  | Some a => toFixed a digits
  | None => "undefined"
  end.

(** The block [// Check for missing values]. *)
Definition check_missing (sheet : ParsedData.t) (col : ColumnInfo.t) (acc : Acc.t) : Acc.t :=
  let missingPercentage :=
    (Num.of_nat (ColumnInfo.nullCount col) / Num.of_nat (ParsedData.rowCount sheet)
     * num 100)%js in
  if (missingPercentage >? num 0)%js then
    let severity :=
      if (missingPercentage >? num 50)%js then Critical
      else if (missingPercentage >? num 25)%js then High
      else if (missingPercentage >? num 10)%js then Medium
      else Low in
    if (missingPercentage >? num 5)%js then
      {| Acc.issues :=
           Acc.issues acc ++
           [ {| Issue.id := issue_id (Acc.issueId acc);
                Issue.type := Missing;
                Issue.column := Some (ColumnInfo.name col);
                Issue.severity := severity;
                Issue.message :=
                  toFixed missingPercentage 1 +:+ "% missing values in "
                  +:+ dq +:+ ColumnInfo.name col +:+ dq;
                Issue.details :=
                  ToString_num (Num.of_nat (ColumnInfo.nullCount col)) +:+ " out of "
                  +:+ ToString_num (Num.of_nat (ParsedData.rowCount sheet))
                  +:+ " rows have missing values in this column.";
                Issue.affectedRows := ColumnInfo.nullCount col;
                Issue.percentage := missingPercentage;
                Issue.suggestion :=
                  if severity_eqb severity Critical
                  then "Consider removing this column or imputing values"
                  else "Fill missing values with mean/median or forward-fill" |} ];
         Acc.issueId := S (Acc.issueId acc);
         Acc.columnScore := (Acc.columnScore acc - Num.min missingPercentage (num 50))%js |}
    else acc
  else acc.

(** [values.filter(v => v !== null && !isNaN(Number(v))).map(Number)] *)
Definition quality_numeric_values (values : list Value) : list JSNum :=
  map Number
      (filter (fun v => negb (match v with VNull => true | _ => false end)
                        && negb (isNaN (Number v)) = true) values).

(** The block [// Check for outliers in numeric columns]. *)
Definition check_outliers (col : ColumnInfo.t) (values : list Value) (acc : Acc.t) : Acc.t :=
  if is_number_type (ColumnInfo.type col) then
    let numericValues := quality_numeric_values values in
    let outlierCount := (detectOutliers numericValues).2 in
    let outlierPercentage :=
      (Num.of_nat outlierCount / Num.of_nat (length numericValues) * num 100)%js in
    if (outlierPercentage >? num 1)%js then
      let severity :=
        if (outlierPercentage >? num 15)%js then High
        else if (outlierPercentage >? num 5)%js then Medium
        else Low in
      {| Acc.issues :=
           Acc.issues acc ++
           [ {| Issue.id := issue_id (Acc.issueId acc);
                Issue.type := Outlier;
                Issue.column := Some (ColumnInfo.name col);
                Issue.severity := severity;
                Issue.message :=
                  toFixed outlierPercentage 1 +:+ "% outliers detected in "
                  +:+ dq +:+ ColumnInfo.name col +:+ dq;
                Issue.details :=
                  ToString_num (Num.of_nat outlierCount)
                  +:+ " values fall outside the interquartile range (IQR). Range: "
                  +:+ toFixed_opt (ColumnInfo.min col) 2 +:+ " - "
                  +:+ toFixed_opt (ColumnInfo.max col) 2;
                Issue.affectedRows := outlierCount;
                Issue.percentage := outlierPercentage;
                Issue.suggestion :=
                  "Review outliers for data entry errors or consider capping/transforming values" |} ];
         Acc.issueId := S (Acc.issueId acc);
         Acc.columnScore :=
           (Acc.columnScore acc - Num.min (outlierPercentage * num 2) (num 30))%js |}
    else acc
  else acc.

(** The block [// Check for mixed types]. *)
Definition check_mixed (sheet : ParsedData.t) (col : ColumnInfo.t) (values : list Value)
    (acc : Acc.t) : result Acc.t :=
  let! mixed := detectMixedTypes values in
  let '(hasMixed, types) := mixed in
  if hasMixed then
    Ok {| Acc.issues :=
            Acc.issues acc ++
            [ {| Issue.id := issue_id (Acc.issueId acc);
                 Issue.type := MixedType;
                 Issue.column := Some (ColumnInfo.name col);
                 Issue.severity := Medium;
                 Issue.message :=
                   "Mixed data types in " +:+ dq +:+ ColumnInfo.name col +:+ dq;
                 Issue.details :=
                   "Column contains multiple types: " +:+ join ", " (map type_name types)
                   +:+ ". This may cause analysis issues.";
                 Issue.affectedRows := ParsedData.rowCount sheet;
                 Issue.percentage := num 100;
                 Issue.suggestion :=
                   "Convert to a consistent type or split into separate columns" |} ];
          Acc.issueId := S (Acc.issueId acc);
          Acc.columnScore := (Acc.columnScore acc - num 20)%js |}
  else Ok acc.

(** The body of [sheet.columns.forEach((col, colIndex) => ...)]. *)
Definition analyze_column (sheet : ParsedData.t) (col : ColumnInfo.t) (st : QState.t)
  : result QState.t :=
  let values := map (fun row => row_get row (ColumnInfo.name col)) (ParsedData.rows sheet) in
  let acc :=
    {| Acc.issues := QState.issues st;
       Acc.issueId := QState.issueId st;
       Acc.columnScore := num 100 |} in
  let acc := check_missing sheet col acc in
  let acc := check_outliers col values acc in
  let! acc := check_mixed sheet col values acc in
  Ok {| QState.issues := Acc.issues acc;
        QState.columnHealth :=
          <[ColumnInfo.name col := Num.max (num 0) (Num.round (Acc.columnScore acc))]>
            (QState.columnHealth st);
        QState.issueId := Acc.issueId acc |}.

(** The block [// Check for duplicate rows]: the issue it pushes, if any. *)
Definition check_duplicates (sheet : ParsedData.t) (issueId : nat) : list Issue.t :=
  let '(duplicateRows, duplicateGroups) := findDuplicates (ParsedData.rows sheet) in
  if (0 <? duplicateRows)%nat then
    let duplicatePercentage :=
      (Num.of_nat duplicateRows / Num.of_nat (ParsedData.rowCount sheet) * num 100)%js in
    let severity :=
      if (duplicatePercentage >? num 20)%js then High
      else if (duplicatePercentage >? num 10)%js then Medium
      else Low in
    [ {| Issue.id := issue_id issueId;
         Issue.type := Duplicate;
         Issue.column := None;
         Issue.severity := severity;
         Issue.message :=
           ToString_num (Num.of_nat duplicateRows) +:+ " duplicate rows detected";
         Issue.details :=
           "Found " +:+ ToString_num (Num.of_nat duplicateGroups)
           +:+ " groups of duplicate rows (" +:+ toFixed duplicatePercentage 1
           +:+ "% of data).";
         Issue.affectedRows := duplicateRows;
         Issue.percentage := duplicatePercentage;
         Issue.suggestion := "Remove duplicate rows to ensure data integrity" |} ]
  else [].

Definition severityOrder (s : SeverityLevel) : JSNum :=
  match s with
  | Critical => num 0
  | High => num 1
  | Medium => num 2
  | Low => num 3
  end.

Definition count_severity (s : SeverityLevel) (issues : list Issue.t) : nat :=
  length (filter (fun i => severity_eqb (Issue.severity i) s = true) issues).

Definition analyzeDataQuality (sheet : ParsedData.t) : result DataQualityReport.t :=
  let! st :=
    foldM (analyze_column sheet) (ParsedData.columns sheet)
          {| QState.issues := []; QState.columnHealth := ∅; QState.issueId := 0 |} in
  let issues := QState.issues st ++ check_duplicates sheet (QState.issueId st) in
  let issues :=
    Array_sort
      (fun a b => (severityOrder (Issue.severity a) - severityOrder (Issue.severity b))%js)
      issues in
  let columnHealth := QState.columnHealth st in
  let avgColumnHealth :=
    (Num.sum (map_to_list columnHealth).*2 / Num.of_nat (size columnHealth))%js in
  let issuesPenalty := Num.min (Num.of_nat (length issues) * num 5)%js (num 30) in
  let overallScore := Num.max (num 0) (Num.round (avgColumnHealth - issuesPenalty)%js) in
  Ok {| DataQualityReport.overallScore := overallScore;
        DataQualityReport.issues := issues;
        DataQualityReport.summary :=
          {| Summary.totalIssues := length issues;
             Summary.criticalCount := count_severity Critical issues;
             Summary.highCount := count_severity High issues;
             Summary.mediumCount := count_severity Medium issues;
             Summary.lowCount := count_severity Low issues |};
        DataQualityReport.columnHealth := columnHealth |}.

End Quality.

(* ================================================================== *)
(** ** excel-parser: column statistics, sheets and chart suggestions *)

(** [SameValueZero], the equality of the elements of a [Set]: a primitive
    equals the primitives of its type and value, [NaN] included; a Date is an
    object, equal to itself only, and every Date cell is an object of its
    own. *)
Definition same_value_zero (a b : Value) : bool :=
  match a, b with
  | VNull, VNull | VUndefined, VUndefined => true
  | VBool x, VBool y => Bool.eqb x y
  | VNum NaN, VNum NaN => true
  | VNum x, VNum y => (x =? y)%js
  | VStr s, VStr t => String.eqb s t
  | _, _ => false
  end.

(** [set.add(v)] on a [Set], whose elements keep their insertion order. *)
Definition Set_add (set : list Value) (v : Value) : list Value :=
  if existsb (same_value_zero v) set then set else set ++ [v].

(** [new Set(values).size] *)
Definition Set_size (values : list Value) : nat := length (fold_left Set_add values []).

(** [l.map(f)] for a callback that can raise: the first exception ends the
    traversal. *)
Fixpoint mapM {A B : Type} (f : A -> result B) (l : list A) : result (list B) :=
  match l with
  | [] => Ok []
  | x :: l' =>
      let! y := f x in
      let! r := mapM f l' in
      Ok (y :: r)
  end.

(** [Object.keys(d)] *)
Definition Object_keys {A : Type} (d : Dict A) : list string := (Object_entries d).*1.

Module ExcelFile.
Record t : Type := {
  fileName : string;
  sheets : list ParsedData.t;
  uploadedAt : JSNum          (* the time value of the Date *)
}.
End ExcelFile.

(** How a promise settles: [resolve(a)] or [reject(new Error(message))]. *)
Inductive Settled (A : Type) : Type :=
| Resolved (a : A)
| Rejected (message : string).

Arguments Resolved {A} a.
Arguments Rejected {A} message.

Inductive ChartType : Type :=
| Bar
| Line
| Pie
| Area
| Scatter.

#[global] Instance ChartType_eq_dec : EqDecision ChartType.
Proof. solve_decision. Defined.

#[global] Instance ColumnType_eq_dec : EqDecision ColumnType.
Proof. solve_decision. Defined.

Module Suggestion.
Record t : Type := {
  type : ChartType;
  xAxis : string;
  yAxis : string;
  title : string
}.
End Suggestion.

Section ExcelParser.
Context `{Host}.

Definition analyzeColumn (name : string) (values : list Value) : result ColumnInfo.t :=
  let! type := detectColumnType values in
  let nonNullValues := filter (fun v => nonNull v = true) values in
  let uniqueValues := Set_size nonNullValues in
  let nullCount := (length values - length nonNullValues)%nat in
  let info (min max sum avg : option JSNum) :=
    {| ColumnInfo.name := name;
       ColumnInfo.type := type;
       ColumnInfo.uniqueValues := uniqueValues;
       ColumnInfo.nullCount := nullCount;
       ColumnInfo.min := min;
       ColumnInfo.max := max;
       ColumnInfo.sum := sum;
       ColumnInfo.avg := avg |} in
  match type with
  | TNumber =>
      let numbers := filter (fun n => isNaN n = false) (map Number nonNullValues) in
      if (0 <? length numbers)%nat then
        let sum := Num.sum numbers in
        Ok (info (Some (Num.min_list numbers)) (Some (Num.max_list numbers))
                 (Some sum) (Some (sum / Num.of_nat (length numbers))%js))
      else Ok (info None None None None)
  | _ => Ok (info None None None None)
  end.

(** The callback of [workbook.SheetNames.map] in [parseExcelFile]; [jsonData]
    is what [sheet_to_json] returned for the sheet. *)
Definition parse_sheet (sheetName : string) (jsonData : list Row) : result ParsedData.t :=
  match jsonData with
  | [] =>
      Ok {| ParsedData.sheetName := sheetName;
            ParsedData.headers := [];
            ParsedData.rows := [];
            ParsedData.columns := [];
            ParsedData.rowCount := 0;
            ParsedData.columnCount := 0 |}
  | first :: _ =>
      let headers := Object_keys first in
      let! columns :=
        mapM (fun header =>
                let values := map (fun row => row_get row header) jsonData in
                analyzeColumn header values)
             headers in
      Ok {| ParsedData.sheetName := sheetName;
            ParsedData.headers := headers;
            ParsedData.rows := jsonData;
            ParsedData.columns := columns;
            ParsedData.rowCount := length jsonData;
            ParsedData.columnCount := length headers |}
  end.

(** [parseExcelFile]: how the promise settles once the file is read.
    [workbook] lists the sheet names with the rows [sheet_to_json] gives for
    them, and [now] is the time [new Date()] reads.  Whatever is raised inside
    the [try] block rejects with the one message. *)
Definition parseExcelFile (fileName : string) (workbook : list (string * list Row))
    (now : JSNum) : Settled ExcelFile.t :=
  match mapM (fun sheet : string * list Row => parse_sheet sheet.1 sheet.2) workbook with
  | Ok sheets =>
      Resolved
        {| ExcelFile.fileName := fileName;
           ExcelFile.sheets := filter (fun s => (0 < ParsedData.rowCount s)%nat) sheets;
           ExcelFile.uploadedAt := now |}
  | Throw _ =>
      Rejected "Failed to parse Excel file. Please ensure it is a valid .xlsx or .xls file."
  end.

End ExcelParser.

Definition generateChartSuggestions (columns : list ColumnInfo.t) : list Suggestion.t :=
  let numericColumns := filter (fun c => ColumnInfo.type c = TNumber) columns in
  let categoryColumns :=
    filter (fun c => ColumnInfo.type c = TString /\ (ColumnInfo.uniqueValues c <= 20)%nat)
           columns in
  let dateColumns := filter (fun c => ColumnInfo.type c = TDate) columns in
  (* Bar charts: category vs numeric *)
  let bars :=
    flat_map
      (fun cat =>
         map (fun num =>
                {| Suggestion.type := Bar;
                   Suggestion.xAxis := ColumnInfo.name cat;
                   Suggestion.yAxis := ColumnInfo.name num;
                   Suggestion.title := ColumnInfo.name num +:+ " by " +:+ ColumnInfo.name cat |})
             (slice0 2 numericColumns))
      categoryColumns in
  (* Line charts: date vs numeric *)
  let lines :=
    flat_map
      (fun date =>
         map (fun num =>
                {| Suggestion.type := Line;
                   Suggestion.xAxis := ColumnInfo.name date;
                   Suggestion.yAxis := ColumnInfo.name num;
                   Suggestion.title := ColumnInfo.name num +:+ " over Time" |})
             (slice0 2 numericColumns))
      dateColumns in
  (* Pie charts: category distribution *)
  let pies :=
    flat_map
      (fun cat =>
         match numericColumns with
         | num0 :: _ =>
             [ {| Suggestion.type := Pie;
                  Suggestion.xAxis := ColumnInfo.name cat;
                  Suggestion.yAxis := ColumnInfo.name num0;
                  Suggestion.title :=
                    ColumnInfo.name num0 +:+ " Distribution by " +:+ ColumnInfo.name cat |} ]
         | [] => []
         end)
      (slice0 2 categoryColumns) in
  (* Area charts *)
  let areas :=
    match dateColumns, numericColumns with
    | date0 :: _, num0 :: _ =>
        [ {| Suggestion.type := Area;
             Suggestion.xAxis := ColumnInfo.name date0;
             Suggestion.yAxis := ColumnInfo.name num0;
             Suggestion.title := ColumnInfo.name num0 +:+ " Trend" |} ]
    | _, _ => []
    end in
  (* Scatter plots: numeric vs numeric *)
  let scatters :=
    match numericColumns with
    | num0 :: num1 :: _ =>
        [ {| Suggestion.type := Scatter;
             Suggestion.xAxis := ColumnInfo.name num0;
             Suggestion.yAxis := ColumnInfo.name num1;
             Suggestion.title := ColumnInfo.name num0 +:+ " vs " +:+ ColumnInfo.name num1 |} ]
    | _ => []
    end in
  slice0 6 (bars ++ lines ++ pies ++ areas ++ scatters).

(* ================================================================== *)
(** ** sample-data: building a sheet from literal rows *)

(** [typeof v === 'number'], with the number. *)
Definition as_number (v : Value) : option JSNum :=
  match v with VNum n => Some n | _ => None end.

Definition createColumn (name : string) (type : ColumnType) (values : list Value)
  : ColumnInfo.t :=
  let numericValues := omap as_number values in
  {| ColumnInfo.name := name;
     ColumnInfo.type := type;
     ColumnInfo.nullCount := length (filter (fun v => nonNull v = false) values);
     ColumnInfo.uniqueValues := Set_size values;
     ColumnInfo.min :=
       if is_number_type type then Some (Num.min_list numericValues) else None;
     ColumnInfo.max :=
       if is_number_type type then Some (Num.max_list numericValues) else None;
     ColumnInfo.sum :=
       if is_number_type type then Some (Num.sum numericValues) else None;
     ColumnInfo.avg :=
       if is_number_type type
       then Some (Num.sum numericValues / Num.of_nat (length numericValues))%js
       else None |}.

(** [v !== null && v !== undefined] *)
Definition defined (v : Value) : bool :=
  match v with VNull | VUndefined => false | _ => true end.

(** [createParsedData]; on no rows [Object.keys(rows[0])] is applied to
    [undefined] and raises. *)
Definition createParsedData (name : string) (rows : list Row) : result ParsedData.t :=
  match rows with
  | [] => Throw TypeError
  | first :: _ =>
      let headers := Object_keys first in
      let columns :=
        map (fun header =>
               let values := map (fun row => row_get row header) rows in
               let firstValue := find (fun v => defined v) values in
               let type :=
                 match firstValue with
                 | Some (VNum _) => TNumber
                 | _ => TString
                 end in
               createColumn header type values)
            headers in
      Ok {| ParsedData.sheetName := name;
            ParsedData.headers := headers;
            ParsedData.rows := rows;
            ParsedData.columns := columns;
            ParsedData.rowCount := length rows;
            ParsedData.columnCount := length headers |}
  end.

(* ================================================================== *)
(** ** file-validation *)

(** What the sources call of the host besides [Host]. *)
Class Builtins : Type := {
  (** [x.toLocaleString()] for a number [x]. *)
  toLocaleString : JSNum -> string;
  (** [s.toLowerCase()] *)
  toLowerCase : string -> string;
  (** [Math.log(x)] *)
  Math_log : JSNum -> JSNum;
  (** [Math.pow(x, y)] *)
  Math_pow : JSNum -> JSNum -> JSNum;
  (** [parseFloat(s)] *)
  parseFloat : string -> JSNum
}.

Module FILE_LIMITS.
Definition MAX_FILE_SIZE_MB : JSNum := num 10.
Definition MAX_FILE_SIZE_BYTES : JSNum := (num 10 * num 1024 * num 1024)%js.
Definition MAX_ROW_COUNT : JSNum := num 100000.
Definition RECOMMENDED_ROW_COUNT : JSNum := num 50000.
Definition MAX_COLUMN_COUNT : JSNum := num 100.
Definition SUPPORTED_EXTENSIONS : list string := [".xlsx"; ".xls"; ".csv"].
Definition SUPPORTED_MIME_TYPES : list string :=
  [ "application/vnd.openxmlformats-officedocument.spreadsheetml.sheet";
    "application/vnd.ms-excel";
    "text/csv" ].
End FILE_LIMITS.

Module FileValidationResult.
Record t : Type := {
  isValid : bool;
  errors : list string;
  warnings : list string
}.
End FileValidationResult.

(** What the validators read of a [File]: its name, its size in bytes (an
    unsigned integer) and its MIME type. *)
Module File.
Record t : Type := {
  name : string;
  size : N;
  type : string
}.
End File.

(** [s.split(c)] for a separator of one character. *)
Fixpoint String_split (sep : Ascii.ascii) (s : string) : list string :=
  match s with
  | EmptyString => [EmptyString]
  | String a s' =>
      if Ascii.eqb a sep then EmptyString :: String_split sep s'
      else match String_split sep s' with
           | segment :: segments => String a segment :: segments
           | [] => [String a EmptyString]
           end
  end.

(** The character of the separator ['.']. *)
Definition dot : Ascii.ascii := Ascii.ascii_of_nat 46.

(** [l.includes(s)] on an array of strings. *)
Definition Array_includes (l : list string) (s : string) : bool := existsb (String.eqb s) l.

(** The element of an array of strings at a numeric index, converted to a
    string: a read outside the array gives [undefined]. *)
Definition string_at (l : list string) (i : JSNum) : string :=
  match i with
  | Fin q =>
      if Qeq_bool (inject_Z (Qfloor q)) q && (0 <=? Qfloor q)%Z
      then nth (Z.to_nat (Qfloor q)) l "undefined"
      else "undefined"
  | _ => "undefined"
  end.

Section FileValidation.
Context `{Host} `{Builtins}.

Definition formatFileSize (bytes : JSNum) : string :=
  if (bytes =? num 0)%js then "0 Bytes"
  else
    let k := num 1024 in
    let sizes := ["Bytes"; "KB"; "MB"; "GB"] in
    let i := Num.floor (Math_log bytes / Math_log k)%js in
    ToString_num (parseFloat (toFixed (bytes / Math_pow k i)%js 2))
    +:+ " " +:+ string_at sizes i.

Definition validateFileSize (file : File.t) : FileValidationResult.t :=
  let size := Num.of_Z (Z.of_N (File.size file)) in
  let '(errors, warnings) :=
    if (size >? FILE_LIMITS.MAX_FILE_SIZE_BYTES)%js then
      ([ "File size (" +:+ formatFileSize size
         +:+ ") exceeds maximum allowed size of "
         +:+ ToString_num FILE_LIMITS.MAX_FILE_SIZE_MB +:+ "MB" ],
       [])
    else if (size >? FILE_LIMITS.MAX_FILE_SIZE_BYTES * dec 7 10)%js then
      ([],
       [ "Large file (" +:+ formatFileSize size +:+ "). Processing may take longer." ])
    else ([], []) in
  {| FileValidationResult.isValid := (length errors =? 0)%nat;
     FileValidationResult.errors := errors;
     FileValidationResult.warnings := warnings |}.

Definition validateFileType (file : File.t) : FileValidationResult.t :=
  let extension := "." +:+ toLowerCase (List.last (String_split dot (File.name file)) "") in
  let isValidExtension := Array_includes FILE_LIMITS.SUPPORTED_EXTENSIONS extension in
  let isValidMimeType := Array_includes FILE_LIMITS.SUPPORTED_MIME_TYPES (File.type file) in
  let errors :=
    if negb isValidExtension && negb isValidMimeType
    then [ "Invalid file type. Supported formats: "
           +:+ join ", " FILE_LIMITS.SUPPORTED_EXTENSIONS ]
    else [] in
  {| FileValidationResult.isValid := (length errors =? 0)%nat;
     FileValidationResult.errors := errors;
     FileValidationResult.warnings := [] |}.

Definition validateDataSize (rowCount columnCount : JSNum) : FileValidationResult.t :=
  let '(errors, warnings) :=
    if (rowCount >? FILE_LIMITS.MAX_ROW_COUNT)%js then
      ([ "Dataset has " +:+ toLocaleString rowCount +:+ " rows, exceeding maximum of "
         +:+ toLocaleString FILE_LIMITS.MAX_ROW_COUNT ],
       [])
    else if (rowCount >? FILE_LIMITS.RECOMMENDED_ROW_COUNT)%js then
      ([],
       [ "Large dataset (" +:+ toLocaleString rowCount
         +:+ " rows). Some features may be slower." ])
    else ([], []) in
  let errors :=
    if (columnCount >? FILE_LIMITS.MAX_COLUMN_COUNT)%js then
      errors ++ [ "Dataset has " +:+ ToString_num columnCount
                  +:+ " columns, exceeding maximum of "
                  +:+ ToString_num FILE_LIMITS.MAX_COLUMN_COUNT ]
    else errors in
  {| FileValidationResult.isValid := (length errors =? 0)%nat;
     FileValidationResult.errors := errors;
     FileValidationResult.warnings := warnings |}.

End FileValidation.

Definition combineValidationResults (results : list FileValidationResult.t)
  : FileValidationResult.t :=
  {| FileValidationResult.isValid := forallb FileValidationResult.isValid results;
     FileValidationResult.errors := flat_map FileValidationResult.errors results;
     FileValidationResult.warnings := flat_map FileValidationResult.warnings results |}.

(* ================================================================== *)
(** ** format-utils *)

(** [ToIntegerOrInfinity] of a finite number: truncation towards zero. *)
Definition truncate (q : Q) : Z := if Qle_bool 0 q then Qfloor q else Qceiling q.

(** [s.slice(0, end)] *)
Definition String_slice0 (s : string) (end_ : JSNum) : string :=
  let len := Z.of_nat (String.length s) in
  let final :=
    match end_ with
    | NaN => 0%Z
    | NInf => 0%Z
    | PInf => len
    | Fin q =>
        let relativeEnd := truncate q in
        if (relativeEnd <? 0)%Z then Z.max (len + relativeEnd) 0 else Z.min relativeEnd len
    end in
  String.substring 0 (Z.to_nat final) s.

(** [truncateText(text, maxLength = 40)]; [None] stands for an argument left
    out. *)
Definition truncateText (text : string) (maxLength : option JSNum) : string :=
  let maxLength := default (num 40) maxLength in
  if String.eqb text "" || (Num.of_nat (String.length text) <=? maxLength)%js then text
  else String_slice0 text (maxLength - num 3)%js +:+ "...".

(* ================================================================== *)
(** ** format-utils: column names *)

(** The character classes of the patterns: [[a-z]], [[A-Z]], [\w], and the
    white space [trim] removes (tab to carriage return, space, no-break
    space). *)
Definition is_lower (c : Ascii.ascii) : bool :=
  let n := Ascii.N_of_ascii c in (97 <=? n)%N && (n <=? 122)%N.

Definition is_upper (c : Ascii.ascii) : bool :=
  let n := Ascii.N_of_ascii c in (65 <=? n)%N && (n <=? 90)%N.

Definition is_word (c : Ascii.ascii) : bool :=
  is_lower c || is_upper c || is_digit c || (Ascii.N_of_ascii c =? 95)%N.

Definition is_space (c : Ascii.ascii) : bool :=
  let n := Ascii.N_of_ascii c in
  (9 <=? n)%N && (n <=? 13)%N || (n =? 32)%N || (n =? 160)%N.

(** [c.toUpperCase()] for a character of [\w], the only ones the callbacks
    of [formatColumnName] receive. *)
Definition to_upper (c : Ascii.ascii) : Ascii.ascii :=
  if is_lower c then Ascii.ascii_of_N (Ascii.N_of_ascii c - 32) else c.

(** The character [' ']. *)
Definition space : Ascii.ascii := Ascii.ascii_of_nat 32.

(** [.replace(/_/g, ' ')] *)
Fixpoint snake_to_spaces (s : string) : string :=
  match s with
  | EmptyString => EmptyString
  | String c s' =>
      String (if (Ascii.N_of_ascii c =? 95)%N then space else c) (snake_to_spaces s')
  end.

(** [.replace(/([a-z])([A-Z])/g, '$1 $2')]: a match takes two characters and
    the search goes on behind them. *)
Fixpoint split_camel (s : string) : string :=
  match s with
  | EmptyString => EmptyString
  | String a s' =>
      match s' with
      | String b s'' =>
          if is_lower a && is_upper b
          then String a (String space (String b (split_camel s'')))
          else String a (split_camel s')
      | EmptyString => String a EmptyString
      end
  end.

(** The word [p] stands at the head of [s], letters compared without their
    case, and a word boundary follows it: one alternative of
    [(id|url|api|ui|ux)\b] under the flag [i]. *)
Fixpoint matches_word (p s : string) : bool :=
  match p with
  | EmptyString =>
      match s with
      | EmptyString => true
      | String c _ => negb (is_word c)
      end
  | String a p' =>
      match s with
      | String b s' => Ascii.eqb (to_upper a) (to_upper b) && matches_word p' s'
      | EmptyString => false
      end
  end.

(** The length of what [(id|url|api|ui|ux)\b] matches at the head of [s]:
    the alternatives are tried in their order. *)
Definition abbreviation_at (s : string) : option nat :=
  String.length <$> find (fun p => matches_word p s) ["id"; "url"; "api"; "ui"; "ux"].

(** [.replace(/\b(id|url|api|ui|ux)\b/gi, match => match.toUpperCase())],
    read from left to right: [prev] tells whether the character before is one
    of [\w], and [pending] counts the characters of the current match that are
    still to come.  A match starts at a word boundary, which is where [prev] is
    false, its first character being a letter. *)
Fixpoint upper_abbreviations (prev : bool) (pending : nat) (s : string) : string :=
  match s with
  | EmptyString => EmptyString
  | String c s' =>
      match pending with
      | S k => String (to_upper c) (upper_abbreviations true k s')
      | O =>
          match (if prev then None else abbreviation_at s) with
          | Some (S k) => String (to_upper c) (upper_abbreviations true k s')
          | _ => String c (upper_abbreviations (is_word c) 0 s')
          end
      end
  end.

(** [.replace(/\b\w/g, char => char.toUpperCase())]: the characters of [\w]
    that follow none. *)
Fixpoint capitalize_words (prev : bool) (s : string) : string :=
  match s with
  | EmptyString => EmptyString
  | String c s' =>
      String (if negb prev && is_word c then to_upper c else c)
             (capitalize_words (is_word c) s')
  end.

(** [s.trim()] *)
Fixpoint trim_start (s : string) : string :=
  match s with
  | EmptyString => EmptyString
  | String c s' => if is_space c then trim_start s' else s
  end.

Fixpoint trim_end (s : string) : string :=
  match s with
  | EmptyString => EmptyString
  | String c s' =>
      match trim_end s' with
      | EmptyString => if is_space c then EmptyString else String c EmptyString
      | t => String c t
      end
  end.

Definition String_trim (s : string) : string := trim_end (trim_start s).

Definition formatColumnName (name : string) : string :=
  if String.eqb name "" then ""
  else
    String_trim
      (capitalize_words false
         (upper_abbreviations false 0
            (split_camel (snake_to_spaces name)))).

(** [formatChartTitle(yAxis, xAxis, type)]; [None] stands for a type left
    out. *)
Definition formatChartTitle (yAxis xAxis : string) (type : option string) : string :=
  let formattedY := formatColumnName yAxis in
  let formattedX := formatColumnName xAxis in
  if default false (String.eqb "scatter" <$> type)
  then formattedY +:+ " vs " +:+ formattedX
  else formattedY +:+ " by " +:+ formattedX.

(* ================================================================== *)
(** ** FileUpload: processing a file *)

(** A call of [toast]. *)
Module Toast.
Record t : Type := {
  title : string;
  description : string;
  destructive : bool       (* [variant: 'destructive'] *)
}.
End Toast.

(** The state of the component that [processFile] writes. *)
Module Upload.
Record t : Type := {
  warnings : list string;
  selectedFile : option File.t;
  isProcessing : bool
}.
End Upload.

Section FileUpload.
Context `{Host} `{Builtins}.

(** [processFile(file)], from its call to the end of its [finally] block.
    [parsed] is how the promise of [parseExcelFile(file)] settles, a rejection
    carrying the message of its [Error].  The result is the state of the
    component, the toasts shown in order, and the argument of
    [onFileProcessed] when it is called; the callback is taken not to raise. *)
Definition processFile (st : Upload.t) (file : File.t) (parsed : Settled ExcelFile.t)
  : Upload.t * list Toast.t * option ExcelFile.t :=
  let sizeValidation := validateFileSize file in
  let typeValidation := validateFileType file in
  let preValidation := combineValidationResults [sizeValidation; typeValidation] in
  if negb (FileValidationResult.isValid preValidation) then
    ({| Upload.warnings := [];
        Upload.selectedFile := Upload.selectedFile st;
        Upload.isProcessing := Upload.isProcessing st |},
     map (fun error =>
            {| Toast.title := "Invalid file";
               Toast.description := error;
               Toast.destructive := true |})
         (FileValidationResult.errors preValidation),
     None)
  else
    let warnings :=
      if (0 <? length (FileValidationResult.warnings preValidation))%nat
      then FileValidationResult.warnings preValidation else [] in
    let failed (message : string) :=
      ({| Upload.warnings := warnings;
          Upload.selectedFile := None;
          Upload.isProcessing := false |},
       [ {| Toast.title := "Error processing file";
            Toast.description := message;
            Toast.destructive := true |} ],
       None) in
    match parsed with
    | Rejected message => failed message
    | Resolved parsedData =>
        match ExcelFile.sheets parsedData with
        | [] => failed "No data found in the file"
        | sheet :: _ =>
            let dataValidation :=
              validateDataSize (Num.of_nat (ParsedData.rowCount sheet))
                               (Num.of_nat (ParsedData.columnCount sheet)) in
            if negb (FileValidationResult.isValid dataValidation) then
              ({| Upload.warnings := warnings;
                  Upload.selectedFile := None;
                  Upload.isProcessing := false |},
               map (fun error =>
                      {| Toast.title := "Dataset too large";
                         Toast.description := error;
                         Toast.destructive := true |})
                   (FileValidationResult.errors dataValidation),
               None)
            else
              let allWarnings :=
                FileValidationResult.warnings preValidation
                ++ FileValidationResult.warnings dataValidation in
              ({| Upload.warnings := allWarnings;
                  Upload.selectedFile := Some file;
                  Upload.isProcessing := false |},
               [ {| Toast.title := "File processed successfully!";
                    Toast.description :=
                      "Found "
                      +:+ ToString_num (Num.of_nat (length (ExcelFile.sheets parsedData)))
                      +:+ " sheet(s) with "
                      +:+ toLocaleString (Num.of_nat (ParsedData.rowCount sheet))
                      +:+ " rows.";
                    Toast.destructive := false |} ],
               Some parsedData)
        end
    end.

End FileUpload.

(* ================================================================== *)
(** ** A reference host

    One implementation of [Host], for evaluating the model on closed inputs.
    It agrees with ECMAScript on the inputs it handles and is deliberately
    small:
    - [Number(s)] reads an optional minus sign, decimal digits and an optional
      fraction; the empty string is 0 and every other string is [NaN];
    - [Date.parse(s)] reads the ISO date form YYYY-MM-DD (midnight UTC), and
      nothing else;
    - [String(x)] prints integers in decimal, other values as their decimal
      expansion cut after 16 fraction digits;
    - [toFixed] rounds a half up on the exact value;
    - [JSON.stringify] escapes the double quote and the backslash only;
    - [Math.sqrt] is exact on squares of rationals and is otherwise rounded
      down to a multiple of 2^-60. *)

Module RefHost.

Definition digit_string (d : N) : string :=
  String (Ascii.ascii_of_N (48 + d)) EmptyString.

Fixpoint N_digits (fuel : nat) (n : N) (acc : string) : string :=
  match fuel with
  | O => acc
  | S fuel' =>
      let acc' := digit_string (n mod 10) +:+ acc in
      if (n <? 10)%N then acc' else N_digits fuel' (n / 10) acc'
  end.

Definition N_to_string (n : N) : string := N_digits (S (N.to_nat (N.log2 n))) n "".

Definition Z_to_string (z : Z) : string :=
  if (z <? 0)%Z then "-" +:+ N_to_string (Z.abs_N z) else N_to_string (Z.abs_N z).

(** [digits] decimal digits of the fraction [n / d], [0 <= n < d]. *)
Fixpoint fraction_digits (digits : nat) (n : N) (d : N) : string :=
  match digits with
  | O => ""
  | S digits' =>
      if (n =? 0)%N then ""
      else digit_string (n * 10 / d) +:+ fraction_digits digits' ((n * 10) mod d) d
  end.

Definition number_to_string (q : Q) : string :=
  let q := Qred q in
  let a := Z.abs_N (Qnum q) in
  let d := Npos (Qden q) in
  let sign := if (Qnum q <? 0)%Z then "-" else "" in
  let frac := fraction_digits 16 (a mod d) d in
  sign +:+ N_to_string (a / d) +:+ (if String.eqb frac "" then "" else "." +:+ frac).

Fixpoint pad_zeros (n : nat) (s : string) : string :=
  match n with
  | O => s
  | S n' => if (String.length s <? S n')%nat then pad_zeros n' ("0" +:+ s) else s
  end.

Definition to_fixed (x : JSNum) (digits : nat) : string :=
  match x with
  | NaN => "NaN"
  | PInf => "Infinity"
  | NInf => "-Infinity"
  | Fin q =>
      let scale := (10 ^ Z.of_nat digits)%Z in
      let n := Qfloor (Qabs q * inject_Z scale + (1 # 2)) in
      let sign := if Qle_bool 0 q || (n =? 0)%Z then "" else "-" in
      let int := N_to_string (Z.abs_N (n / scale)) in
      let frac := pad_zeros digits (N_to_string (Z.abs_N (n mod scale))) in
      sign +:+ int +:+ (if (digits =? 0)%nat then "" else "." +:+ frac)
  end.

(** Splits at the first occurrence of the character code [c]. *)
Fixpoint split_at (c : N) (s : string) : option (string * string) :=
  match s with
  | EmptyString => None
  | String a s' =>
      if (Ascii.N_of_ascii a =? c)%N then Some ("", s')
      else match split_at c s' with
           | Some (l, r) => Some (String a l, r)
           | None => None
           end
  end.

Definition unsigned_decimal (s : string) : option Q :=
  match split_at 46 s with
  | None =>
      if all_digits s && negb (String.eqb s "")
      then Some (inject_Z (Z.of_N (digits_value s 0))) else None
  | Some (int, frac) =>
      if all_digits int && all_digits frac && negb (String.eqb (int +:+ frac) "")
      then Some (Z.of_N (digits_value (int +:+ frac) 0)
                 # Z.to_pos (10 ^ Z.of_nat (String.length frac)))
      else None
  end.

Definition string_to_number (s : string) : JSNum :=
  match s with
  | EmptyString => num 0
  | String a s' =>
      if (Ascii.N_of_ascii a =? 45)%N
      then match unsigned_decimal s' with
           | Some q => Num.fin (- q)
           | None => NaN
           end
      else match unsigned_decimal s with
           | Some q => Num.fin q
           | None => NaN
           end
  end.

Definition days_in_month (y m : Z) : Z :=
  if (m =? 2)%Z then
    if ((y mod 4 =? 0) && (negb (y mod 100 =? 0) || (y mod 400 =? 0)))%Z then 29 else 28
  else if ((m =? 4) || (m =? 6) || (m =? 9) || (m =? 11))%Z then 30
  else 31.

(** Days from 1970-01-01 to the civil date [y]-[m]-[d]. *)
Definition days_from_civil (y m d : Z) : Z :=
  let y := (if m <=? 2 then y - 1 else y)%Z in
  let era := (y / 400)%Z in
  let yoe := (y - era * 400)%Z in
  let doy := ((153 * (if 2 <? m then m - 3 else m + 9) + 2) / 5 + d - 1)%Z in
  let doe := (yoe * 365 + yoe / 4 - yoe / 100 + doy)%Z in
  (era * 146097 + doe - 719468)%Z.

Definition date_parse (s : string) : JSNum :=
  match split_at 45 s with
  | Some (ys, rest) =>
      match split_at 45 rest with
      | Some (ms, ds) =>
          if all_digits ys && all_digits ms && all_digits ds
             && (String.length ys =? 4)%nat && (String.length ms =? 2)%nat
             && (String.length ds =? 2)%nat
          then
            let y := Z.of_N (digits_value ys 0) in
            let m := Z.of_N (digits_value ms 0) in
            let d := Z.of_N (digits_value ds 0) in
            if ((1 <=? m) && (m <=? 12) && (1 <=? d) && (d <=? days_in_month y m))%Z
            then Num.of_Z (days_from_civil y m d * 86400000)
            else NaN
          else NaN
      | None => NaN
      end
  | None => NaN
  end.

Definition num_string (x : JSNum) : string :=
  match x with
  | NaN => "NaN"
  | PInf => "Infinity"
  | NInf => "-Infinity"
  | Fin q => number_to_string q
  end.

Fixpoint json_escape (s : string) : string :=
  match s with
  | EmptyString => ""
  | String a s' =>
      let n := Ascii.N_of_ascii a in
      if ((n =? 34) || (n =? 92))%N
      then String (Ascii.ascii_of_N 92) (String a (json_escape s'))
      else String a (json_escape s')
  end.

Definition json_quote (s : string) : string := dq +:+ json_escape s +:+ dq.

(** The serialisation of a property value; [None]: the property is left out. *)
Definition json_value (v : Value) : option string :=
  match v with
  | VUndefined => None
  | VNull => Some "null"
  | VBool true => Some "true"
  | VBool false => Some "false"
  | VNum (Fin q) => Some (number_to_string q)
  | VNum _ => Some "null"
  | VStr s => Some (json_quote s)
  | VDate (Fin q) => Some (json_quote ("Date " +:+ number_to_string q))
  | VDate _ => Some "null"
  end.

Definition json_stringify (row : Row) : string :=
  "{" +:+
  join ","
    (omap (fun e : string * Value =>
             match json_value e.2 with
             | Some s => Some (json_quote e.1 +:+ ":" +:+ s)
             | None => None
             end) row)
  +:+ "}".

Definition is_square (z : Z) : bool := (Z.sqrt z * Z.sqrt z =? z)%Z.

Definition sqrt (x : JSNum) : JSNum :=
  match x with
  | NaN | NInf => NaN
  | PInf => PInf
  | Fin q =>
      let q := Qred q in
      if (Qnum q <? 0)%Z then NaN
      else if is_square (Qnum q) && is_square (Zpos (Qden q))
      then Num.fin (Z.sqrt (Qnum q) # Z.to_pos (Z.sqrt (Zpos (Qden q))))
      else Num.fin (Z.sqrt (Qnum q * 2 ^ 120 / Zpos (Qden q)) # 2 ^ 60)
  end.

End RefHost.

#[global] Instance refHost : Host := {|
  StringToNumber := RefHost.string_to_number;
  Date_parse := RefHost.date_parse;
  NumberToString := RefHost.number_to_string;
  DateToString := fun t => "Date " +:+ RefHost.num_string t;
  toFixed := RefHost.to_fixed;
  JSON_stringify := RefHost.json_stringify;
  Math_sqrt := RefHost.sqrt
|}.

(* ================================================================== *)
(** ** A reference for the further builtins

    One implementation of [Builtins], for evaluating the model on closed
    inputs; like [refHost] it is deliberately small:
    - [toLocaleString] groups the digits of an integer by three with commas
      (the en-US form) and prints every other number as [String] does;
    - [toLowerCase] maps the letters A to Z and leaves every other character;
    - [Math.log] is the binary logarithm, cut after 40 binary places, times
      ln 2 to 16 decimal places; it is exact on the powers of two up to that
      factor, so that a quotient of two such logarithms is exact;
    - [Math.pow] handles integer exponents, exactly; every other exponent
      gives [NaN];
    - [parseFloat] reads what [Number] reads of the reference host, and the
      words Infinity and -Infinity. *)

Module RefBuiltins.

Definition group_digits (s : string) : string :=
  let l := String.list_ascii_of_string s in
  let n := length l in
  String.string_of_list_ascii
    (concat (imap (fun i c =>
                     if (0 <? i)%nat && ((n - i) mod 3 =? 0)%nat
                     then [Ascii.ascii_of_nat 44; c] else [c])
                  l)).

Definition to_locale_string (x : JSNum) : string :=
  match x with
  | Fin q =>
      if Qeq_bool (inject_Z (Qfloor q)) q
      then (if Qle_bool 0 q then "" else "-")
           +:+ group_digits (RefHost.N_to_string (Z.abs_N (Qfloor q)))
      else RefHost.num_string x
  | _ => RefHost.num_string x
  end.

Definition lower (c : Ascii.ascii) : Ascii.ascii :=
  let n := Ascii.N_of_ascii c in
  if (65 <=? n)%N && (n <=? 90)%N then Ascii.ascii_of_N (n + 32) else c.

Fixpoint to_lower_case (s : string) : string :=
  match s with
  | EmptyString => EmptyString
  | String c s' => String (lower c) (to_lower_case s')
  end.

(** The binary places of the logarithm of [m / 2^64], a value from 1 up to 2,
    most significant first, as the numerator of a fraction over [2^places]. *)
Fixpoint log2_places (places : nat) (m acc : Z) : Z :=
  match places with
  | O => acc
  | S places' =>
      let m2 := (m * m / 2 ^ 64)%Z in
      if (2 ^ 65 <=? m2)%Z
      then log2_places places' (m2 / 2) (2 * acc + 1)
      else log2_places places' m2 (2 * acc)
  end.

(** The binary logarithm of a positive rational, rounded down. *)
Definition log2 (q : Q) : Q :=
  let n := Qnum q in
  let d := Zpos (Qden q) in
  let e0 := (Z.log2 n - Z.log2 d)%Z in
  let above (e : Z) := (* 2^e <= n / d *)
    if (0 <=? e)%Z then (d * 2 ^ e <=? n)%Z else (d <=? n * 2 ^ (- e))%Z in
  let e := if above e0 then e0 else (e0 - 1)%Z in
  let m := (* n / d / 2^e, scaled by 2^64 *)
    if (0 <=? e)%Z then (n * 2 ^ 64 / (d * 2 ^ e))%Z else (n * 2 ^ 64 * 2 ^ (- e) / d)%Z in
  inject_Z e + (log2_places 40 m 0 # 2 ^ 40).

Definition ln2 : Q := 6931471805599453 # 10000000000000000.

Definition log (x : JSNum) : JSNum :=
  match x with
  | NaN | NInf => NaN
  | PInf => PInf
  | Fin q =>
      match Qcompare q 0 with
      | Lt => NaN
      | Eq => NInf
      | Gt => Num.fin (log2 (Qred q) * ln2)
      end
  end.

Definition pow (x y : JSNum) : JSNum :=
  match x, y with
  | Fin b, Fin e =>
      if Qeq_bool (inject_Z (Qfloor e)) e
      then (if Qeq_bool b 0 && (Qfloor e <? 0)%Z then PInf
            else Num.fin (Qpower b (Qfloor e)))
      else NaN
  | _, _ => NaN
  end.

Definition parse_float (s : string) : JSNum :=
  if String.eqb s "Infinity" then PInf
  else if String.eqb s "-Infinity" then NInf
  else if String.eqb s "" then NaN
  else RefHost.string_to_number s.

End RefBuiltins.

#[global] Instance refBuiltins : Builtins := {|
  toLocaleString := RefBuiltins.to_locale_string;
  toLowerCase := RefBuiltins.to_lower_case;
  Math_log := RefBuiltins.log;
  Math_pow := RefBuiltins.pow;
  parseFloat := RefBuiltins.parse_float
|}.

(* ================================================================== *)
(** * The vocabulary of the properties

    What the words of the specification denote on the model, and the data
    of its scenarios.  Nothing here is part of the program. *)

Section Vocabulary.
Context `{Host}.

(** ** Type inference *)

(** What the date callback computes on a string or a Date. *)
Definition date_pred (v : Value) : bool :=
  match v with
  | VDate _ => true
  | VStr s => (negb (isNaN (Date_parse s)) && includes s "/") || includes s "-"
  | _ => false
  end.

Definition string_or_Date (v : Value) : bool := is_string v || is_Date v.

(** The counts the three stages compare with the threshold. *)
Definition nonNullValues (values : list Value) : list Value :=
  filter (fun v => nonNull v = true) values.
Definition booleanCount (values : list Value) : nat :=
  length (filter (fun v => boolean_like v = true) (nonNullValues values)).
Definition numberCount (values : list Value) : nat :=
  length (filter (fun v => number_like v = true) (nonNullValues values)).
Definition dateCount (values : list Value) : nat :=
  length (filter (fun v => date_pred v = true) (nonNullValues values)).

(** A count exceeds 80% of the non-null values: [count / n > 0.8]. *)
Definition exceeds_80 (count n : nat) : Prop := (4 * n < 5 * count)%nat.

(** ** Sorting *)

(** [x] may stand before [y]: the comparator does not put it after. *)
Definition may_precede {A : Type} (cmp : A -> A -> JSNum) (x y : A) : Prop :=
  (cmp x y >? num 0)%js = false.

(** ** Aggregation *)






(** ** Correlation *)

Definition mean (l : list JSNum) : JSNum := (Num.sum l / Num.of_nat (length l))%js.




Definition swap_sums (acc : JSNum * JSNum * JSNum) : JSNum * JSNum * JSNum :=
  let '(numerator, denomX, denomY) := acc in (numerator, denomY, denomX).


Definition numeric_columns (sheet : ParsedData.t) : list ColumnInfo.t :=
  filter (fun c => is_number_type (ColumnInfo.type c) = true) (ParsedData.columns sheet).



(** ** Data quality: the checks of a column *)

(** [(col.nullCount / sheet.rowCount) * 100] *)
Definition missingPercentage (sheet : ParsedData.t) (col : ColumnInfo.t) : JSNum :=
  (Num.of_nat (ColumnInfo.nullCount col) / Num.of_nat (ParsedData.rowCount sheet)
   * num 100)%js.

(** The severity of a missing-values issue, as the specification grades it. *)
Definition missing_grade (pct : JSNum) (s : SeverityLevel) : Prop :=
  ((pct >? num 50)%js = true -> s = Critical)
  /\ ((pct >? num 50)%js = false -> (pct >? num 25)%js = true -> s = High)
  /\ ((pct >? num 25)%js = false -> (pct >? num 10)%js = true -> s = Medium)
  /\ ((pct >? num 10)%js = false -> s = Low).

(** The cell values of a column. *)
Definition column_values (sheet : ParsedData.t) (col : ColumnInfo.t) : list Value :=
  map (fun row => row_get row (ColumnInfo.name col)) (ParsedData.rows sheet).

(** [(outlierCount / numericValues.length) * 100] *)
Definition outlierPercentage (values : list Value) : JSNum :=
  (Num.of_nat (detectOutliers (quality_numeric_values values)).2
   / Num.of_nat (length (quality_numeric_values values)) * num 100)%js.

(** The outlier check reports: the column is numeric and more than 1% of
    its numeric values are outliers. *)
Definition outliers_reported (col : ColumnInfo.t) (values : list Value) : bool :=
  is_number_type (ColumnInfo.type col) && (outlierPercentage values >? num 1)%js.

Definition missing_reported (sheet : ParsedData.t) (col : ColumnInfo.t) : bool :=
  (missingPercentage sheet col >? num 5)%js.

Definition is_missing_issue (sheet : ParsedData.t) (col : ColumnInfo.t) (i : Issue.t) : Prop :=
  Issue.type i = Missing
  /\ Issue.column i = Some (ColumnInfo.name col)
  /\ Issue.affectedRows i = ColumnInfo.nullCount col
  /\ Issue.percentage i = missingPercentage sheet col
  /\ missing_grade (missingPercentage sheet col) (Issue.severity i).

Definition is_outlier_issue (sheet : ParsedData.t) (col : ColumnInfo.t) (i : Issue.t) : Prop :=
  Issue.type i = Outlier
  /\ Issue.column i = Some (ColumnInfo.name col)
  /\ Issue.affectedRows i
     = (detectOutliers (quality_numeric_values (column_values sheet col))).2
  /\ Issue.percentage i = outlierPercentage (column_values sheet col)
  /\ Issue.severity i
     = (if (outlierPercentage (column_values sheet col) >? num 15)%js then High
        else if (outlierPercentage (column_values sheet col) >? num 5)%js then Medium
        else Low).

Definition is_mixed_issue (sheet : ParsedData.t) (col : ColumnInfo.t) (i : Issue.t) : Prop :=
  Issue.type i = MixedType
  /\ Issue.column i = Some (ColumnInfo.name col)
  /\ Issue.severity i = Medium
  /\ Issue.affectedRows i = ParsedData.rowCount sheet
  /\ Issue.percentage i = num 100.

(** A check that reports pushes one issue, and none otherwise. *)
Definition emitted (reports : bool) (P : Issue.t -> Prop) (l : list Issue.t) : Prop :=
  if reports then exists i, l = [i] /\ P i else l = [].

(** The score of a column after its three checks. *)
Definition column_score (sheet : ParsedData.t) (col : ColumnInfo.t) (hasMixed : bool) : JSNum :=
  let s0 := num 100 in
  let s1 :=
    if missing_reported sheet col
    then (s0 - Num.min (missingPercentage sheet col) (num 50))%js else s0 in
  let s2 :=
    if outliers_reported col (column_values sheet col)
    then (s1 - Num.min (outlierPercentage (column_values sheet col) * num 2) (num 30))%js
    else s1 in
  if hasMixed then (s2 - num 20)%js else s2.

(** An issue one of the three checks of [col] reports. *)
Definition column_issue (sheet : ParsedData.t) (col : ColumnInfo.t) (i : Issue.t) : Prop :=
  (missing_reported sheet col = true /\ is_missing_issue sheet col i)
  \/ (outliers_reported col (column_values sheet col) = true /\ is_outlier_issue sheet col i)
  \/ ((exists types, detectMixedTypes (column_values sheet col) = Ok (true, types))
      /\ is_mixed_issue sheet col i).


(** ** Data quality: scores and the report *)

(** A finite value between [lo] and [hi]. *)
Definition between (lo hi : Q) (v : JSNum) : Prop :=
  exists q, v = Fin q /\ lo <= q /\ q <= hi.

(** A number is in the range of a score: [0 <= v <= 100]. *)
Definition in_range (v : JSNum) : Prop :=
  (num 0 <=? v)%js = true /\ (v <=? num 100)%js = true.

Definition initial_state : QState.t :=
  {| QState.issues := []; QState.columnHealth := ∅; QState.issueId := 0 |}.

Definition by_severity (a b : Issue.t) : JSNum :=
  (severityOrder (Issue.severity a) - severityOrder (Issue.severity b))%js.

(** The rows whose serialisation is that of an earlier row, [seen] being the
    serialisations met so far. *)
Fixpoint repeated_rows (seen : gset string) (rows : list Row) : nat :=
  match rows with
  | [] => 0
  | row :: rows' =>
      (if decide (JSON_stringify row ∈ seen) then 1 else 0)
      + repeated_rows ({[JSON_stringify row]} ∪ seen) rows'
  end.

End Vocabulary.

(** ** Scenario data *)

(** Scenario 4 of the specification: ten rows with [y = 2 x]. *)
Definition scenario4_rows : list Row :=
  map (fun k : Z => [("x", VNum (num k)); ("y", VNum (num (2 * k)))])
      [1; 2; 3; 4; 5; 6; 7; 8; 9; 10]%Z.

Definition scenario4_column (name : string) (lo hi total : Z) : ColumnInfo.t :=
  {| ColumnInfo.name := name;
     ColumnInfo.type := TNumber;
     ColumnInfo.uniqueValues := 10;
     ColumnInfo.nullCount := 0;
     ColumnInfo.min := Some (num lo);
     ColumnInfo.max := Some (num hi);
     ColumnInfo.sum := Some (num total);
     ColumnInfo.avg := Some (num total / num 10)%js |}.

Definition scenario4 : ParsedData.t :=
  {| ParsedData.sheetName := "Sheet1";
     ParsedData.headers := ["x"; "y"];
     ParsedData.rows := scenario4_rows;
     ParsedData.columns := [scenario4_column "x" 1 10 55; scenario4_column "y" 2 20 110];
     ParsedData.rowCount := 10;
     ParsedData.columnCount := 2 |}.

(** A sheet with one defect of each kind: column [v] holds an outlier, column
    [m] is mostly empty and mixes a string with a number, and the first three
    rows are equal. *)
Definition defect_rows : list Row :=
  [ [("v", VNum (num 1)); ("m", VNull)];
    [("v", VNum (num 1)); ("m", VNull)];
    [("v", VNum (num 1)); ("m", VNull)];
    [("v", VNum (num 1)); ("m", VStr "x")];
    [("v", VNum (num 100)); ("m", VNum (num 7))] ].

Definition defect_v : ColumnInfo.t :=
  {| ColumnInfo.name := "v";
     ColumnInfo.type := TNumber;
     ColumnInfo.uniqueValues := 2;
     ColumnInfo.nullCount := 0;
     ColumnInfo.min := Some (num 1);
     ColumnInfo.max := Some (num 100);
     ColumnInfo.sum := Some (num 104);
     ColumnInfo.avg := Some (num 104 / num 5)%js |}.

Definition defect_m : ColumnInfo.t :=
  {| ColumnInfo.name := "m";
     ColumnInfo.type := TString;
     ColumnInfo.uniqueValues := 2;
     ColumnInfo.nullCount := 3;
     ColumnInfo.min := None;
     ColumnInfo.max := None;
     ColumnInfo.sum := None;
     ColumnInfo.avg := None |}.

Definition defect_sheet : ParsedData.t :=
  {| ParsedData.sheetName := "Sheet1";
     ParsedData.headers := ["v"; "m"];
     ParsedData.rows := defect_rows;
     ParsedData.columns := [defect_v; defect_m];
     ParsedData.rowCount := 5;
     ParsedData.columnCount := 2 |}.

(** What the claims read of an issue. *)
Definition issue_digest (i : Issue.t)
  : IssueType * option string * SeverityLevel * nat * JSNum :=
  (Issue.type i, Issue.column i, Issue.severity i, Issue.affectedRows i,
   Issue.percentage i).


(** Fifteen distinct rows followed by copies of the first five. *)
Definition duplicated_row (k : Z) : Row := [("id", VNum (num k)); ("label", VStr "item")].

Definition duplicated_sheet : ParsedData.t :=
  {| ParsedData.sheetName := "Sheet1";
     ParsedData.headers := ["id"; "label"];
     ParsedData.rows :=
       map duplicated_row [1; 2; 3; 4; 5; 6; 7; 8; 9; 10; 11; 12; 13; 14; 15]%Z
       ++ map duplicated_row [1; 2; 3; 4; 5]%Z;
     ParsedData.columns :=
       [ {| ColumnInfo.name := "id";
            ColumnInfo.type := TNumber;
            ColumnInfo.uniqueValues := 15;
            ColumnInfo.nullCount := 0;
            ColumnInfo.min := Some (num 1);
            ColumnInfo.max := Some (num 15);
            ColumnInfo.sum := Some (num 135);
            ColumnInfo.avg := Some (num 135 / num 20)%js |};
         {| ColumnInfo.name := "label";
            ColumnInfo.type := TString;
            ColumnInfo.uniqueValues := 1;
            ColumnInfo.nullCount := 0;
            ColumnInfo.min := None;
            ColumnInfo.max := None;
            ColumnInfo.sum := None;
            ColumnInfo.avg := None |} ];
     ParsedData.rowCount := 20;
     ParsedData.columnCount := 2 |}.

(** A column holding the value 5 three times. *)
Definition constant_column : ColumnInfo.t :=
  {| ColumnInfo.name := "c";
     ColumnInfo.type := TNumber;
     ColumnInfo.uniqueValues := 1;
     ColumnInfo.nullCount := 0;
     ColumnInfo.min := Some (num 5);
     ColumnInfo.max := Some (num 5);
     ColumnInfo.sum := Some (num 15);
     ColumnInfo.avg := Some (num 5) |}.

(* ================================================================== *)
(** ** Further vocabulary *)

#[global] Instance SeverityLevel_eq_dec : EqDecision SeverityLevel.
Proof. solve_decision. Defined.

(** The count the summary of a report gives for a severity. *)
Definition summary_count (s : Summary.t) (severity : SeverityLevel) : nat :=
  match severity with
  | Critical => Summary.criticalCount s
  | High => Summary.highCount s
  | Medium => Summary.mediumCount s
  | Low => Summary.lowCount s
  end.

(** [a] is listed before [b] by the severity order: its rank is not larger. *)
Definition severity_precedes (a b : Issue.t) : Prop :=
  (severityOrder (Issue.severity a) <=? severityOrder (Issue.severity b))%js = true.

(** The identifiers the counter [issueId] has given out when it stands at [n]. *)
Definition issue_ids `{Host} (n : nat) : list string := map issue_id (seq 0 n).

(** The issues pushed so far carry the identifiers the counter has given
    out, in order. *)
Definition numbered `{Host} (issues : list Issue.t) (issueId : nat) : Prop :=
  Issue.id <$> issues = issue_ids issueId.

(** The class [detectMixedTypes] puts a cell in, [None] for an empty cell:
    what the body of its loop adds to an empty set. *)
Definition cell_class `{Host} (v : Value) : result (option ColumnType) :=
  let! types := classify_value [] v in
  Ok (head types).

(** The strength classes in increasing order. *)
Definition strength_rank (s : Strength) : nat :=
  match s with
  | StrNone => 0
  | StrWeak => 1
  | StrModerate => 2
  | StrStrong => 3
  | StrVeryStrong => 4
  end.

(** The numeric values [profileColumn] computes its statistics from:
    [nonNullValues.map(Number).filter(n => !isNaN(n))]. *)
Definition profile_numeric_values `{Host} (values : list Value) : list JSNum :=
  filter (fun n => isNaN n = false) (map Number (filter (fun v => nonNull v = true) values)).

(** The headers [parseExcelFile] reads off the rows of a sheet: the keys of
    the first row. *)
Definition sheet_headers (jsonData : list Row) : list string :=
  match jsonData with
  | [] => []
  | first :: _ => Object_keys first
  end.

(** The cells of the column [header] in the rows of a sheet. *)
Definition sheet_column (jsonData : list Row) (header : string) : list Value :=
  map (fun row => row_get row header) jsonData.

(** The message every failure inside [parseExcelFile] is reported with. *)
Definition parse_failure : string :=
  "Failed to parse Excel file. Please ensure it is a valid .xlsx or .xls file.".

(** The three groups of columns the suggestions are drawn from. *)
Definition numericColumns (columns : list ColumnInfo.t) : list ColumnInfo.t :=
  filter (fun c => ColumnInfo.type c = TNumber) columns.
Definition categoryColumns (columns : list ColumnInfo.t) : list ColumnInfo.t :=
  filter (fun c => ColumnInfo.type c = TString /\ (ColumnInfo.uniqueValues c <= 20)%nat)
         columns.
Definition dateColumns (columns : list ColumnInfo.t) : list ColumnInfo.t :=
  filter (fun c => ColumnInfo.type c = TDate) columns.

(** What a suggestion of each chart type puts on its axes. *)
Definition axes_of (columns : list ColumnInfo.t) (s : Suggestion.t) : Prop :=
  exists x y,
    Suggestion.xAxis s = ColumnInfo.name x /\ Suggestion.yAxis s = ColumnInfo.name y
    /\ y ∈ numericColumns columns
    /\ match Suggestion.type s with
       | Bar | Pie => x ∈ categoryColumns columns
       | Line | Area => x ∈ dateColumns columns
       | Scatter => x ∈ numericColumns columns
       end.

(** The part of a file name after its last dot; the whole name when it has
    none. *)
Definition last_segment (name : string) : string := List.last (String_split dot name) "".

(** A validation result is consistent: valid exactly when it has no error. *)
Definition consistent (r : FileValidationResult.t) : Prop :=
  FileValidationResult.isValid r = true <-> FileValidationResult.errors r = [].

(** The first validation of an upload: the size and the type of the file. *)
Definition preValidation `{Host} `{Builtins} (file : File.t) : FileValidationResult.t :=
  combineValidationResults [validateFileSize file; validateFileType file].

(** No character of [s] is an underscore. *)
Fixpoint no_underscore (s : string) : bool :=
  match s with
  | EmptyString => true
  | String c s' => negb (Ascii.N_of_ascii c =? 95)%N && no_underscore s'
  end.

(** The letters of [s] in upper case. *)
Fixpoint upcase (s : string) : string :=
  match s with
  | EmptyString => EmptyString
  | String c s' => String (to_upper c) (upcase s')
  end.

(** No upper-case letter of [s] follows a lower-case one; [prev] tells
    whether the character before [s] is a lower-case letter. *)
Fixpoint no_camel (prev : bool) (s : string) : bool :=
  match s with
  | EmptyString => true
  | String c s' => negb (prev && is_upper c) && no_camel (is_lower c) s'
  end.

(** No word of [s] begins with a lower-case letter; [prev] tells whether the
    character before [s] is one of a word. *)
Fixpoint words_capitalized (prev : bool) (s : string) : bool :=
  match s with
  | EmptyString => true
  | String c s' => negb (negb prev && is_lower c) && words_capitalized (is_word c) s'
  end.

(** The first and the last character of a string, if any. *)
Definition first_char (s : string) : option Ascii.ascii :=
  match s with
  | EmptyString => None
  | String c _ => Some c
  end.

Fixpoint last_char (s : string) : option Ascii.ascii :=
  match s with
  | EmptyString => None
  | String c s' => match last_char s' with None => Some c | r => r end
  end.

(** Neither end of [s] is white space. *)
Definition trimmed (s : string) : Prop :=
  (forall c, first_char s = Some c -> is_space c = false)
  /\ (forall c, last_char s = Some c -> is_space c = false).

(** Case analysis on the 256 characters. *)
Ltac each_char c :=
  destruct c as [[] [] [] [] [] [] [] []]; vm_compute;
  first [reflexivity | intros; discriminate | intros; reflexivity].

(** The empty cells of a list of cells: null, undefined and the empty string. *)
Definition empty_cells (values : list Value) : nat :=
  length (filter (fun v => nonNull v = false) values).

(** The sheet was built from [rows], by the parser or as a sample. *)
Definition built_from `{Host} (sheetName : string) (rows : list Row) (sheet : ParsedData.t)
  : Prop :=
  parse_sheet sheetName rows = Ok sheet \/ createParsedData sheetName rows = Ok sheet.

(** The data check [processFile] makes on a sheet. *)
Definition within_limits `{Host} `{Builtins} (sheet : ParsedData.t) : Prop :=
  FileValidationResult.isValid
    (validateDataSize (Num.of_nat (ParsedData.rowCount sheet))
                      (Num.of_nat (ParsedData.columnCount sheet))) = true.

(** A sheet that has rows and no column. *)
Definition columnless_sheet : ParsedData.t :=
  {| ParsedData.sheetName := "Sheet1";
     ParsedData.headers := [];
     ParsedData.rows := [[]; []];
     ParsedData.columns := [];
     ParsedData.rowCount := 2;
     ParsedData.columnCount := 0 |}.

(** The cells of the two columns of [defect_sheet]. *)
Definition defect_v_cells : list Value := map (fun row => row_get row "v") defect_rows.
Definition defect_m_cells : list Value := map (fun row => row_get row "m") defect_rows.

(* ================================================================== *)
(** * Properties *)

(** ** Arithmetic of [JSNum] *)

Lemma Qltb_lt (x y : Q) : Num.Qltb x y = true <-> x < y.
Proof.
  unfold Num.Qltb. rewrite negb_true_iff, <- not_true_iff_false, Qle_bool_iff.
  split; [apply Qnot_le_lt | apply Qlt_not_le].
Qed.

Lemma Qltb_ge (x y : Q) : Num.Qltb x y = false <-> y <= x.
Proof.
  unfold Num.Qltb. rewrite negb_false_iff. apply Qle_bool_iff.
Qed.

Lemma lt_Fin (x y : Q) : (Fin x <? Fin y)%js = true <-> x < y.
Proof. apply Qltb_lt. Qed.

Lemma gt_Fin (x y : Q) : (Fin x >? Fin y)%js = true <-> y < x.
Proof. apply Qltb_lt. Qed.

Lemma gt_Fin_false (x y : Q) : (Fin x >? Fin y)%js = false <-> x <= y.
Proof. apply Qltb_ge. Qed.

Lemma le_Fin (x y : Q) : (Fin x <=? Fin y)%js = true <-> x <= y.
Proof. apply Qle_bool_iff. Qed.

Lemma sgn_pos (q : Q) : 0 < q -> Num.sgn q = Gt.
Proof. intros Hq. unfold Num.sgn. now apply Qgt_alt. Qed.

Lemma sgn_zero (q : Q) : q == 0 -> Num.sgn q = Eq.
Proof. intros Hq. unfold Num.sgn. now apply Qeq_alt. Qed.

Lemma of_nat_pos (n : nat) : (0 < n)%nat -> 0 < inject_Z (Z.of_nat n).
Proof.
  intros Hn. replace 0 with (inject_Z 0) by reflexivity.
  rewrite <- Zlt_Qlt. lia.
Qed.

(** A ratio of two counts against a literal [a / b]: the comparison of
    [c / n] with [a / b] is the comparison of [c * b] with [a * n]. *)
Lemma ratio_gt (c n : nat) (a : Z) (b : positive) :
  (0 < n)%nat ->
  (Num.of_nat c / Num.of_nat n >? dec a b)%js = true
  <-> (a * Z.of_nat n < Z.of_nat c * Zpos b)%Z.
Proof.
  intros Hn. unfold Num.of_nat, Num.of_Z, Num.div, dec, Num.fin.
  rewrite (sgn_pos _ (of_nat_pos n Hn)). unfold Num.fin.
  rewrite gt_Fin, !Qred_correct.
  pose proof (of_nat_pos n Hn) as Hpos.
  split; intros Hlt.
  - apply (Qmult_lt_compat_r _ _ _ Hpos) in Hlt.
    assert (Hne : ~ inject_Z (Z.of_nat n) == 0) by (intros E; rewrite E in Hpos; lra).
    assert (E : inject_Z (Z.of_nat c) / inject_Z (Z.of_nat n) * inject_Z (Z.of_nat n)
                == inject_Z (Z.of_nat c)) by (field; exact Hne).
    rewrite E in Hlt. unfold Qlt, Qmult, inject_Z in Hlt. simpl in Hlt. lia.
  - apply Qlt_shift_div_l; [exact Hpos|].
    unfold Qlt, Qmult, inject_Z. simpl. lia.
Qed.

Lemma ratio_gt_nat (c n : nat) :
  (0 < n)%nat ->
  (Num.of_nat c / Num.of_nat n >? dec 8 10)%js = (4 * n <? 5 * c)%nat.
Proof.
  intros Hn. apply eq_true_iff_eq. rewrite (ratio_gt c n 8 10 Hn), Nat.ltb_lt. lia.
Qed.

(* ================================================================== *)
(** ** Type inference (C1) *)

Section TypeInferenceFacts.
Context `{Host}.

Lemma date_like_string_or_Date (v : Value) :
  string_or_Date v = true -> date_like v = Ok (date_pred v).
Proof.
  destruct v as [| |b|n|s|t]; try discriminate; intros _; [|reflexivity].
  unfold date_like, Date_parse_value; simpl.
  destruct (isNaN (Date_parse s)); simpl; [reflexivity|].
  destruct (includes s "/"); reflexivity.
Qed.

(** On a number or a boolean the date callback raises: the value has no
    [includes] method. *)
Lemma date_like_throws (v : Value) :
  nonNull v = true -> string_or_Date v = false -> date_like v = Throw TypeError.
Proof.
  destruct v as [| |b|n|s|t]; try discriminate; intros _ _.
  - unfold date_like; simpl. now rewrite andb_false_r.
  - unfold date_like; simpl. now rewrite andb_false_r.
Qed.

Lemma filterM_date_like (l : list Value) :
  Forall (fun v => string_or_Date v = true) l ->
  filterM date_like l = Ok (filter (fun v => date_pred v = true) l).
Proof.
  induction 1 as [|v l Hv _ IH]; [reflexivity|].
  simpl. rewrite (date_like_string_or_Date v Hv). simpl. rewrite IH. simpl.
  rewrite filter_cons. destruct (date_pred v) eqn:E.
  - rewrite decide_True by reflexivity. reflexivity.
  - rewrite decide_False by discriminate. reflexivity.
Qed.

(** C1 (amended): null, undefined and empty-string cells are filtered out; with
    none left the type is string; otherwise the boolean, number and date counts
    are tested in that order and the first that strictly exceeds 80% of the
    non-null cells gives the type, string otherwise.  The date stage is stated
    for columns whose non-null cells are strings or Dates. *)
Theorem detectColumnType_threshold (values : list Value) :
  let n := length (nonNullValues values) in
  (n = 0%nat -> detectColumnType values = Ok TString)
  /\ (exceeds_80 (booleanCount values) n -> detectColumnType values = Ok TBoolean)
  /\ (~ exceeds_80 (booleanCount values) n -> exceeds_80 (numberCount values) n ->
      detectColumnType values = Ok TNumber)
  /\ (Forall (fun v => string_or_Date v = true) (nonNullValues values) ->
      n <> 0%nat ->
      ~ exceeds_80 (booleanCount values) n -> ~ exceeds_80 (numberCount values) n ->
      (exceeds_80 (dateCount values) n -> detectColumnType values = Ok TDate)
      /\ (~ exceeds_80 (dateCount values) n -> detectColumnType values = Ok TString)).
Proof.
  intros n. unfold exceeds_80, detectColumnType.
  fold (nonNullValues values). fold (booleanCount values). fold (numberCount values).
  fold n.
  destruct (Nat.eqb_spec n 0) as [E0|Hn].
  - repeat split; try reflexivity; intros; try lia.
    + unfold booleanCount in *. fold n in E0.
      pose proof (length_filter (fun v => boolean_like v = true) (nonNullValues values)).
      unfold n in *. lia.
    + unfold numberCount in *.
      pose proof (length_filter (fun v => number_like v = true) (nonNullValues values)).
      unfold n in *. lia.
  - assert (Hpos : (0 < n)%nat) by lia.
    rewrite (ratio_gt_nat (booleanCount values) n Hpos).
    rewrite (ratio_gt_nat (numberCount values) n Hpos).
    split; [intros; lia|].
    split; [intros Hb; apply Nat.ltb_lt in Hb; now rewrite Hb|].
    split.
    + intros Hb Hc. apply Nat.ltb_nlt in Hb. apply Nat.ltb_lt in Hc. now rewrite Hb, Hc.
    + intros Hall _ Hb Hc. apply Nat.ltb_nlt in Hb. apply Nat.ltb_nlt in Hc.
      rewrite Hb, Hc, (filterM_date_like _ Hall). cbn [bind].
      fold (dateCount values). rewrite (ratio_gt_nat _ n Hpos).
      split; intros Hd.
      * apply Nat.ltb_lt in Hd. now rewrite Hd.
      * apply Nat.ltb_nlt in Hd. now rewrite Hd.
Qed.

End TypeInferenceFacts.

(** Where neither the boolean nor the number count exceeds 80% and a non-null
    cell is a number or a boolean, the date stage raises. *)
Lemma filterM_date_like_throws `{Host} (l : list Value) :
  Forall (fun v => nonNull v = true) l ->
  Exists (fun v => string_or_Date v = false) l ->
  filterM date_like l = Throw TypeError.
Proof.
  intros Hnn Hex. induction Hex as [v l Hv|v l Hex IH].
  - apply Forall_cons in Hnn as [Hv' _]. cbn [filterM].
    now rewrite (date_like_throws v Hv' Hv).
  - apply Forall_cons in Hnn as [Hv' Hnn]. cbn [filterM].
    destruct (string_or_Date v) eqn:E.
    + rewrite (date_like_string_or_Date v E). cbn [bind]. now rewrite (IH Hnn).
    + now rewrite (date_like_throws v Hv' E).
Qed.

Lemma detectColumnType_raises `{Host} (values : list Value) :
  let n := length (nonNullValues values) in
  n <> 0%nat ->
  ~ exceeds_80 (booleanCount values) n ->
  ~ exceeds_80 (numberCount values) n ->
  Exists (fun v => string_or_Date v = false) (nonNullValues values) ->
  detectColumnType values = Throw TypeError.
Proof.
  intros n Hn Hb Hc Hex. unfold exceeds_80 in *. unfold detectColumnType.
  fold (nonNullValues values). fold (booleanCount values). fold (numberCount values).
  fold n. destruct (Nat.eqb_spec n 0) as [|_]; [contradiction|].
  assert (Hpos : (0 < n)%nat) by lia.
  rewrite (ratio_gt_nat (booleanCount values) n Hpos).
  rewrite (ratio_gt_nat (numberCount values) n Hpos).
  apply Nat.ltb_nlt in Hb. apply Nat.ltb_nlt in Hc. rewrite Hb, Hc.
  rewrite filterM_date_like_throws; [reflexivity| |exact Hex].
  unfold nonNullValues. apply Forall_forall. intros v Hv.
  now apply list_elem_of_filter in Hv as [Hv _].
Qed.

Example detectColumnType_number_among_strings :
  detectColumnType [VNum (num 1); VStr "a"; VStr "b"] = Throw TypeError.
Proof. vm_compute. reflexivity. Qed.

(** The date stage on a column of strings: three of four cells contain a
    dash, which does not exceed 80%. *)
Lemma detectColumnType_threshold_witness :
  detectColumnType [VStr "a-b"; VStr "2024-01-15"; VStr "c-d"; VStr "x"; VNull] = Ok TString.
Proof.
  refine (proj2 (proj2 (proj2 (proj2 (detectColumnType_threshold
            [VStr "a-b"; VStr "2024-01-15"; VStr "c-d"; VStr "x"; VNull]))) _ _ _ _) _).
  - repeat constructor.
  - vm_compute. discriminate.
  - unfold exceeds_80. vm_compute. lia.
  - unfold exceeds_80. vm_compute. lia.
  - unfold exceeds_80. vm_compute. lia.
Defined.

(** C1 as stated fails at exactly 80%: four booleans of five non-null cells
    reach 0.8, and yet the column is typed number, since the test is a strict
    [> 0.8] and [Number(true)] is 1. *)
Lemma detectColumnType_at_80_percent :
  (Num.of_nat (booleanCount [VBool true; VBool true; VBool false; VBool true; VNum (num 7)])
   / Num.of_nat (length (nonNullValues
                   [VBool true; VBool true; VBool false; VBool true; VNum (num 7)]))
   >=? dec 8 10)%js = true
  /\ detectColumnType [VBool true; VBool true; VBool false; VBool true; VNum (num 7)]
     = Ok TNumber.
Proof. split; vm_compute; reflexivity. Qed.

(* ================================================================== *)
(** ** Order on [JSNum] and the sort *)

Lemma sub_gt0 (a b : JSNum) : (a - b >? num 0)%js = (b <? a)%js.
Proof.
  destruct a as [| | |x], b as [| | |y]; try reflexivity.
  apply eq_true_iff_eq. unfold Num.sub, Num.fin, num, Num.of_Z.
  rewrite gt_Fin, lt_Fin, Qred_correct. change (inject_Z 0) with 0.
  split; intros; lra.
Qed.

Lemma lt_asym (a b : JSNum) : (a <? b)%js = true -> (b <? a)%js = false.
Proof.
  destruct a as [| | |x], b as [| | |y]; try reflexivity; try discriminate.
  rewrite lt_Fin. intros Hlt. apply Qltb_ge. lra.
Qed.

Lemma lt_irrefl (a : JSNum) : (a <? a)%js = false.
Proof.
  destruct a as [| | |x]; try reflexivity. apply Qltb_ge. lra.
Qed.

(** On numbers other than [NaN], "not less than" is transitive. *)
Lemma not_lt_trans (a b c : JSNum) :
  isNaN b = false ->
  (b <? a)%js = false -> (c <? b)%js = false -> (c <? a)%js = false.
Proof.
  destruct a as [| | |x], b as [| | |y], c as [| | |z];
    try reflexivity; try discriminate.
  intros _. unfold Num.lt. rewrite !Qltb_ge. intros; lra.
Qed.

Lemma not_lt_le (a b : JSNum) :
  isNaN a = false -> isNaN b = false -> (b <? a)%js = false -> (a <=? b)%js = true.
Proof.
  destruct a as [| | |x], b as [| | |y]; try reflexivity; try discriminate.
  intros _ _. unfold Num.lt. rewrite Qltb_ge. apply le_Fin.
Qed.

Lemma Sorted_impl {A : Type} (R R' : A -> A -> Prop) (l : list A) :
  (forall a b, R a b -> R' a b) -> Sorted R l -> Sorted R' l.
Proof.
  intros Himp. induction 1 as [|x l Hs IH Hhd]; constructor; [exact IH|].
  destruct Hhd; constructor. now apply Himp.
Qed.

Lemma StronglySorted_impl {A : Type} (R R' : A -> A -> Prop) (l : list A) :
  (forall a b, R a b -> R' a b) -> StronglySorted R l -> StronglySorted R' l.
Proof.
  intros Himp. induction 1 as [|x l Hs IH Hall]; constructor; [exact IH|].
  eapply Forall_impl; [exact Hall|]. intros y. apply Himp.
Qed.

Section SortFacts.
Context {A : Type} (cmp : A -> A -> JSNum).

Lemma sort_insert_perm (x : A) (l : list A) : sort_insert cmp x l ≡ₚ x :: l.
Proof.
  induction l as [|y l IH]; cbn [sort_insert]; [reflexivity|].
  destruct (cmp x y >? num 0)%js; [|reflexivity].
  rewrite IH. apply perm_swap.
Qed.

Lemma Array_sort_perm (l : list A) : Array_sort cmp l ≡ₚ l.
Proof.
  induction l as [|x l IH]; [reflexivity|].
  unfold Array_sort in *. cbn [foldr]. rewrite sort_insert_perm. now rewrite IH.
Qed.

Lemma Array_sort_length (l : list A) : length (Array_sort cmp l) = length l.
Proof. now rewrite Array_sort_perm. Qed.

Lemma Array_sort_elem (x : A) (l : list A) : x ∈ Array_sort cmp l <-> x ∈ l.
Proof. now rewrite Array_sort_perm. Qed.

(** The comparator never puts each of two elements after the other. *)
Hypothesis cmp_asym : forall x y, (cmp x y >? num 0)%js = true -> may_precede cmp y x.

Lemma sort_insert_sorted (x : A) (l : list A) :
  Sorted (may_precede cmp) l -> Sorted (may_precede cmp) (sort_insert cmp x l).
Proof.
  induction 1 as [|y l Hs IH Hhd]; cbn [sort_insert]; [repeat constructor|].
  destruct (cmp x y >? num 0)%js eqn:E.
  - constructor; [exact IH|].
    destruct Hhd as [|z l Hyz]; cbn [sort_insert].
    + constructor. now apply cmp_asym.
    + destruct (cmp x z >? num 0)%js; constructor; [exact Hyz | now apply cmp_asym].
  - constructor; [now constructor | now constructor].
Qed.

Lemma Array_sort_sorted (l : list A) : Sorted (may_precede cmp) (Array_sort cmp l).
Proof.
  induction l as [|x l IH]; [constructor|].
  unfold Array_sort in *. cbn [foldr]. now apply sort_insert_sorted.
Qed.

(** Where the comparator is transitive on the elements of the list, every
    element may precede all those behind it. *)
Lemma Sorted_strongly (P : A -> Prop) (l : list A) :
  (forall x y z, P y -> may_precede cmp x y -> may_precede cmp y z -> may_precede cmp x z) ->
  Forall P l -> Sorted (may_precede cmp) l -> StronglySorted (may_precede cmp) l.
Proof.
  intros Htrans HP Hs. induction Hs as [|x l Hs IH Hhd]; [constructor|].
  apply Forall_cons in HP as [_ HPl]. specialize (IH HPl).
  constructor; [exact IH|].
  destruct Hhd as [|y l Hxy]; [constructor|].
  apply StronglySorted_inv in IH as [_ Hall]. apply Forall_cons in HPl as [Py _].
  constructor; [exact Hxy|].
  eapply Forall_impl; [exact Hall|]. intros z Hyz. now apply (Htrans x y z).
Qed.

End SortFacts.


(* ================================================================== *)
(** ** Dictionaries *)

Section DictFacts.
Context {A : Type}.
Implicit Types (d : Dict A) (k : string) (a : A).




Lemma dict_get_Some_elem d k a : dict_get d k = Some a -> (k, a) ∈ d.
Proof.
  induction d as [|[k0 a0] d IH]; cbn [dict_get]; [discriminate|].
  destruct (String.eqb_spec k0 k) as [->|Hne].
  - intros [= ->]. apply list_elem_of_here.
  - intros Hk. apply list_elem_of_further. now apply IH.
Qed.


Lemma dict_set_keys d k a :
  (dict_set d k a).*1 = if decide (k ∈ d.*1) then d.*1 else d.*1 ++ [k].
Proof.
  induction d as [|[k0 a0] d IH]; cbn [dict_set].
  - rewrite decide_False by apply not_elem_of_nil. reflexivity.
  - rewrite !fmap_cons. cbn [fst].
    destruct (String.eqb_spec k0 k) as [->|Hne].
    + rewrite decide_True by apply list_elem_of_here. reflexivity.
    + rewrite fmap_cons, IH. cbn [fst].
      destruct (decide (k ∈ d.*1)) as [Hin|Hnin].
      * rewrite decide_True by now apply list_elem_of_further. reflexivity.
      * rewrite decide_False; [reflexivity|].
        rewrite elem_of_cons. intros [->|Hin]; congruence.
Qed.


Lemma dict_set_elem_key d k a k' :
  k' ∈ (dict_set d k a).*1 <-> k' = k \/ k' ∈ d.*1.
Proof.
  rewrite dict_set_keys. case_decide as Hin.
  - split; [now right | intros [->|Hk]; assumption].
  - rewrite elem_of_app, list_elem_of_singleton. tauto.
Qed.

End DictFacts.

Lemma index_insert_perm {A : Type} (e : N * (string * A)) (l : list (N * (string * A))) :
  index_insert e l ≡ₚ e :: l.
Proof.
  induction l as [|e' l IH]; cbn [index_insert]; [reflexivity|].
  destruct (e'.1 <? e.1)%N; [|reflexivity].
  rewrite IH. apply perm_swap.
Qed.

(** [Object.entries] lists every own property once. *)
Lemma Object_entries_perm {A : Type} (d : Dict A) : Object_entries d ≡ₚ d.
Proof.
  unfold Object_entries. induction d as [|e d IH]; [reflexivity|].
  cbn [omap list_omap]. rewrite filter_cons.
  destruct (array_index e.1) as [i|] eqn:E.
  - rewrite decide_False by discriminate. cbn [foldr].
    rewrite index_insert_perm, fmap_cons. cbn [snd app]. now rewrite IH.
  - rewrite decide_True by reflexivity.
    rewrite <- Permutation_middle. now rewrite IH.
Qed.

Lemma filter_none {A : Type} (P : A -> Prop) `{!forall x, Decision (P x)} (l : list A) :
  (forall x, x ∈ l -> ~ P x) -> filter P l = [].
Proof.
  induction l as [|x l IH]; intros Hl; [reflexivity|].
  rewrite filter_cons_False by (apply Hl, list_elem_of_here).
  apply IH. intros y Hy. now apply Hl, list_elem_of_further.
Qed.

(* ================================================================== *)
(** ** The aggregation engine (C3) *)

Section AggregationFacts.
Context `{Host}.
Variables (groupBy aggregateColumn : string).






End AggregationFacts.


Section AggregationTheorem.
Context `{Host}.


End AggregationTheorem.


(** Scenario 1 of the specification. *)
Example aggregateData_scenario_1 :
  aggregateData
    [ [("R", VStr "A"); ("V", VNum (num 10))];
      [("R", VStr "A"); ("V", VNum (num 20))];
      [("R", VStr "B"); ("V", VNum (num 5))] ]
    "R" "V" AggSum
  = [ {| Point.name := "A"; Point.value := num 30 |};
      {| Point.name := "B"; Point.value := num 5 |} ].
Proof. vm_compute. reflexivity. Qed.

(* ================================================================== *)
(** ** Pearson correlation (C2, C9) *)

Lemma mul_comm (a b : JSNum) : (a * b)%js = (b * a)%js.
Proof.
  destruct a as [| | |x], b as [| | |y]; try reflexivity.
  unfold Num.mul, Num.fin. f_equal. apply Qred_complete. ring.
Qed.


Section Correlation.
Context `{Host}.



(** Fewer than three pairs give 0. *)
Lemma calculatePearsonCorrelation_short (x y : list JSNum) :
  (Nat.min (length x) (length y) < 3)%nat -> calculatePearsonCorrelation x y = num 0.
Proof.
  intros Hn. unfold calculatePearsonCorrelation.
  destruct (Nat.ltb_spec (Nat.min (length x) (length y)) 3); [reflexivity | lia].
Qed.

Lemma pearson_step_swap (x y : list JSNum) (mx my : JSNum)
    (acc : JSNum * JSNum * JSNum) (i : nat) :
  pearson_step y x my mx (swap_sums acc) i = swap_sums (pearson_step x y mx my acc i).
Proof.
  destruct acc as [[numerator denomX] denomY]. cbn [swap_sums pearson_step].
  now rewrite (mul_comm (nth i y NaN - my)%js).
Qed.

Lemma pearson_fold_swap (x y : list JSNum) (mx my : JSNum) (l : list nat)
    (acc : JSNum * JSNum * JSNum) :
  fold_left (pearson_step y x my mx) l (swap_sums acc)
  = swap_sums (fold_left (pearson_step x y mx my) l acc).
Proof.
  revert acc. induction l as [|i l IH]; intros acc; [reflexivity|].
  cbn [fold_left]. now rewrite pearson_step_swap, IH.
Qed.

(** C9: the Pearson computation is symmetric in its two arguments, truncation
    to the shorter length included. *)
Theorem calculatePearsonCorrelation_sym (x y : list JSNum) :
  calculatePearsonCorrelation x y = calculatePearsonCorrelation y x.
Proof.
  unfold calculatePearsonCorrelation.
  rewrite (Nat.min_comm (length y) (length x)).
  destruct (Nat.min (length x) (length y) <? 3)%nat; [reflexivity|].
  change (num 0, num 0, num 0) with (swap_sums (num 0, num 0, num 0)) at 2.
  rewrite pearson_fold_swap.
  destruct (fold_left _ _ _) as [[numerator denomX] denomY]. cbn [swap_sums].
  now rewrite (mul_comm denomY denomX).
Qed.

End Correlation.



Section CorrelationPairs.
Context `{Host}.






End CorrelationPairs.

Example scenario4_correlations :
  correlations_of scenario4
  = [ {| CorrelationPair.column1 := "x";
         CorrelationPair.column2 := "y";
         CorrelationPair.correlation := num 1;
         CorrelationPair.strength := StrVeryStrong |} ].
Proof. vm_compute. reflexivity. Qed.


(* ================================================================== *)
(** ** The data-quality engine: the three checks of a column *)

Lemma gt_weaken (a : JSNum) (x y : Z) :
  (y <= x)%Z -> (a >? num x)%js = true -> (a >? num y)%js = true.
Proof.
  intros Hyx. destruct a as [| | |q]; try discriminate; [reflexivity|].
  unfold num, Num.of_Z. rewrite !gt_Fin. intros Hq.
  eapply Qle_lt_trans; [|exact Hq]. now rewrite <- Zle_Qle.
Qed.


Lemma sub_Fin (q t : Q) : (Fin q - Fin t)%js = Fin (Qred (q - t)).
Proof. reflexivity. Qed.

Section ColumnChecks.
Context `{Host}.

Lemma check_missing_emits (sheet : ParsedData.t) (col : ColumnInfo.t) (acc : Acc.t) :
  (missingPercentage sheet col >? num 5)%js = true ->
  exists i,
    Acc.issues (check_missing sheet col acc) = Acc.issues acc ++ [i]
    /\ Acc.issueId (check_missing sheet col acc) = S (Acc.issueId acc)
    /\ Acc.columnScore (check_missing sheet col acc)
       = (Acc.columnScore acc - Num.min (missingPercentage sheet col) (num 50))%js
    /\ Issue.type i = Missing
    /\ Issue.column i = Some (ColumnInfo.name col)
    /\ Issue.affectedRows i = ColumnInfo.nullCount col
    /\ Issue.percentage i = missingPercentage sheet col
    /\ missing_grade (missingPercentage sheet col) (Issue.severity i).
Proof.
  intros H5. unfold check_missing. fold (missingPercentage sheet col).
  rewrite (gt_weaken _ 5 0 ltac:(lia) H5), H5.
  eexists. repeat split; cbn [Issue.severity].
  - intros ->. reflexivity.
  - intros -> ->. reflexivity.
  - intros H25 H10. rewrite H25, H10.
    destruct (missingPercentage sheet col >? num 50)%js eqn:H50; [|reflexivity].
    now rewrite (gt_weaken _ 50 25 ltac:(lia) H50) in H25.
  - intros H10.
    destruct (missingPercentage sheet col >? num 50)%js eqn:H50;
      [now rewrite (gt_weaken _ 50 10 ltac:(lia) H50) in H10|].
    destruct (missingPercentage sheet col >? num 25)%js eqn:H25;
      [now rewrite (gt_weaken _ 25 10 ltac:(lia) H25) in H10|].
    now rewrite H10.
Qed.

Lemma check_missing_silent (sheet : ParsedData.t) (col : ColumnInfo.t) (acc : Acc.t) :
  (missingPercentage sheet col >? num 5)%js = false ->
  check_missing sheet col acc = acc.
Proof.
  intros H5. unfold check_missing. fold (missingPercentage sheet col).
  rewrite H5. now destruct (missingPercentage sheet col >? num 0)%js.
Qed.

Lemma check_outliers_emits (col : ColumnInfo.t) (values : list Value) (acc : Acc.t) :
  outliers_reported col values = true ->
  exists i,
    Acc.issues (check_outliers col values acc) = Acc.issues acc ++ [i]
    /\ Acc.issueId (check_outliers col values acc) = S (Acc.issueId acc)
    /\ Acc.columnScore (check_outliers col values acc)
       = (Acc.columnScore acc - Num.min (outlierPercentage values * num 2) (num 30))%js
    /\ Issue.type i = Outlier
    /\ Issue.column i = Some (ColumnInfo.name col)
    /\ Issue.affectedRows i = (detectOutliers (quality_numeric_values values)).2
    /\ Issue.percentage i = outlierPercentage values
    /\ Issue.severity i
       = (if (outlierPercentage values >? num 15)%js then High
          else if (outlierPercentage values >? num 5)%js then Medium else Low).
Proof.
  unfold outliers_reported. intros [Ht H1]%andb_true_iff.
  unfold check_outliers. fold (outlierPercentage values). rewrite Ht, H1.
  eexists. repeat split.
Qed.

Lemma check_outliers_silent (col : ColumnInfo.t) (values : list Value) (acc : Acc.t) :
  outliers_reported col values = false -> check_outliers col values acc = acc.
Proof.
  unfold outliers_reported, check_outliers. fold (outlierPercentage values).
  destruct (is_number_type _); [|reflexivity]. cbn [andb]. now intros ->.
Qed.

Lemma check_mixed_emits (sheet : ParsedData.t) (col : ColumnInfo.t) (values : list Value)
    (acc : Acc.t) (types : list ColumnType) :
  detectMixedTypes values = Ok (true, types) ->
  exists i,
    check_mixed sheet col values acc
    = Ok {| Acc.issues := Acc.issues acc ++ [i];
            Acc.issueId := S (Acc.issueId acc);
            Acc.columnScore := (Acc.columnScore acc - num 20)%js |}
    /\ Issue.type i = MixedType
    /\ Issue.column i = Some (ColumnInfo.name col)
    /\ Issue.severity i = Medium
    /\ Issue.affectedRows i = ParsedData.rowCount sheet
    /\ Issue.percentage i = num 100.
Proof.
  intros Hm. unfold check_mixed. rewrite Hm. cbn [bind].
  eexists. repeat split.
Qed.

Lemma check_mixed_silent (sheet : ParsedData.t) (col : ColumnInfo.t) (values : list Value)
    (acc : Acc.t) (types : list ColumnType) :
  detectMixedTypes values = Ok (false, types) ->
  check_mixed sheet col values acc = Ok acc.
Proof. intros Hm. unfold check_mixed. now rewrite Hm. Qed.

End ColumnChecks.

(* ================================================================== *)
(** ** The data-quality engine: one column, then all of them *)

Lemma foldM_inv {A S : Type} (f : A -> S -> result S) (I : S -> Prop) (l : list A) :
  (forall x s s', x ∈ l -> I s -> f x s = Ok s' -> I s') ->
  forall st st', I st -> foldM f l st = Ok st' -> I st'.
Proof.
  induction l as [|x l IH]; intros Hstep st st' Hst; cbn [foldM].
  - now intros [= <-].
  - destruct (f x st) as [s|e] eqn:E; cbn [bind]; [|discriminate].
    apply IH.
    + intros y s0 s1 Hy. apply Hstep. now apply list_elem_of_further.
    + apply (Hstep x st s); [apply list_elem_of_here | exact Hst | exact E].
Qed.

Lemma foldM_split {A S : Type} (f : A -> S -> result S) (l1 l2 : list A) (x : A)
    (st st' : S) :
  foldM f (l1 ++ x :: l2) st = Ok st' ->
  exists s1 s2, foldM f l1 st = Ok s1 /\ f x s1 = Ok s2 /\ foldM f l2 s2 = Ok st'.
Proof.
  revert st. induction l1 as [|y l1 IH]; intros st; cbn [app foldM].
  - destruct (f x st) as [s|e] eqn:E; cbn [bind]; [|discriminate].
    intros Hf. now exists st, s.
  - destruct (f y st) as [s|e] eqn:E; cbn [bind]; [|discriminate].
    intros Hf. destruct (IH s Hf) as (s1 & s2 & H1 & H2 & H3).
    exists s1, s2. now rewrite H1.
Qed.

Section ColumnStep.
Context `{Host}.

Lemma analyze_column_inv (sheet : ParsedData.t) (col : ColumnInfo.t) (st st' : QState.t) :
  analyze_column sheet col st = Ok st' ->
  exists hasMixed types ms os xs,
    detectMixedTypes (column_values sheet col) = Ok (hasMixed, types)
    /\ QState.issues st' = QState.issues st ++ ms ++ os ++ xs
    /\ emitted (missing_reported sheet col) (is_missing_issue sheet col) ms
    /\ emitted (outliers_reported col (column_values sheet col)) (is_outlier_issue sheet col) os
    /\ emitted hasMixed (is_mixed_issue sheet col) xs
    /\ QState.columnHealth st'
       = <[ColumnInfo.name col := Num.max (num 0) (Num.round (column_score sheet col hasMixed))]>
           (QState.columnHealth st).
Proof.
  unfold analyze_column. fold (column_values sheet col).
  set (acc0 := {| Acc.issues := QState.issues st;
                  Acc.issueId := QState.issueId st;
                  Acc.columnScore := num 100 |}).
  set (acc1 := check_missing sheet col acc0).
  set (acc2 := check_outliers col (column_values sheet col) acc1).
  assert (H1 : exists ms,
             Acc.issues acc1 = QState.issues st ++ ms
             /\ emitted (missing_reported sheet col) (is_missing_issue sheet col) ms
             /\ Acc.columnScore acc1
                = (if missing_reported sheet col
                   then (num 100 - Num.min (missingPercentage sheet col) (num 50))%js
                   else num 100)).
  { unfold acc1, missing_reported, emitted.
    destruct (missingPercentage sheet col >? num 5)%js eqn:E.
    - destruct (check_missing_emits sheet col acc0 E)
        as (i & Hi & _ & Hs & Ht & Hc & Ha & Hp & Hg).
      exists [i]. split; [exact Hi|]. split; [|exact Hs].
      exists i. split; [reflexivity|].
      exact (conj Ht (conj Hc (conj Ha (conj Hp Hg)))).
    - rewrite (check_missing_silent sheet col acc0 E). exists [].
      split; [now rewrite app_nil_r|]. split; reflexivity. }
  destruct H1 as (ms & Hms & Hem & Hs1).
  assert (H2 : exists os,
             Acc.issues acc2 = Acc.issues acc1 ++ os
             /\ emitted (outliers_reported col (column_values sheet col))
                        (is_outlier_issue sheet col) os
             /\ Acc.columnScore acc2
                = (if outliers_reported col (column_values sheet col)
                   then (Acc.columnScore acc1
                         - Num.min (outlierPercentage (column_values sheet col) * num 2)
                                   (num 30))%js
                   else Acc.columnScore acc1)).
  { unfold acc2, emitted.
    destruct (outliers_reported col (column_values sheet col)) eqn:E.
    - destruct (check_outliers_emits col (column_values sheet col) acc1 E)
        as (i & Hi & _ & Hs & Ht & Hc & Ha & Hp & Hsev).
      exists [i]. split; [exact Hi|]. split; [|exact Hs].
      exists i. split; [reflexivity|]. repeat split; assumption.
    - rewrite (check_outliers_silent col (column_values sheet col) acc1 E). exists [].
      split; [now rewrite app_nil_r|]. split; reflexivity. }
  destruct H2 as (os & Hos & Heo & Hs2).
  destruct (detectMixedTypes (column_values sheet col)) as [[hasMixed types]|e] eqn:Em.
  2:{ unfold check_mixed. rewrite Em. cbn [bind]. discriminate. }
  assert (Hscore : forall acc3, Acc.columnScore acc3
                     = (if hasMixed then (Acc.columnScore acc2 - num 20)%js
                        else Acc.columnScore acc2) ->
                   Acc.columnScore acc3 = column_score sheet col hasMixed).
  { intros acc3 ->. unfold column_score. cbn zeta. now rewrite Hs2, Hs1. }
  destruct hasMixed.
  - destruct (check_mixed_emits sheet col (column_values sheet col) acc2 types Em)
      as (i & Hi & Ht & Hc & Hsev & Ha & Hp).
    rewrite Hi. cbn [bind]. intros [= <-].
    exists true, types, ms, os, [i]. cbn [QState.issues QState.columnHealth Acc.issues
                                         Acc.columnScore].
    split; [reflexivity|]. split; [now rewrite Hos, Hms, <- !app_assoc|].
    split; [exact Hem|]. split; [exact Heo|].
    split; [exists i; split; [reflexivity|]; repeat split; assumption|].
    now rewrite <- (Hscore {| Acc.issues := []; Acc.issueId := 0;
                              Acc.columnScore := (Acc.columnScore acc2 - num 20)%js |}
                           eq_refl).
  - rewrite (check_mixed_silent sheet col (column_values sheet col) acc2 types Em).
    cbn [bind]. intros [= <-].
    exists false, types, ms, os, []. cbn [QState.issues QState.columnHealth].
    split; [reflexivity|]. split; [now rewrite Hos, Hms, app_nil_r, <- !app_assoc|].
    split; [exact Hem|]. split; [exact Heo|]. split; [reflexivity|].
    now rewrite <- (Hscore acc2 eq_refl).
Qed.

End ColumnStep.

Section ColumnLoop.
Context `{Host}.
Variable sheet : ParsedData.t.

Lemma emitted_elem (reports : bool) (P : Issue.t -> Prop) (l : list Issue.t) (i : Issue.t) :
  emitted reports P l -> i ∈ l -> reports = true /\ P i.
Proof.
  destruct reports; cbn [emitted].
  - intros (i' & -> & Hi') ->%list_elem_of_singleton. auto.
  - intros -> Hi. now apply elem_of_nil in Hi.
Qed.

Lemma emitted_true (P : Issue.t -> Prop) (l : list Issue.t) :
  emitted true P l -> exists i, i ∈ l /\ P i.
Proof. intros (i & -> & Hi). exists i. split; [apply list_elem_of_here | exact Hi]. Qed.

Lemma analyze_column_issues (col : ColumnInfo.t) (st st' : QState.t) (i : Issue.t) :
  analyze_column sheet col st = Ok st' ->
  i ∈ QState.issues st' -> i ∈ QState.issues st \/ column_issue sheet col i.
Proof.
  intros (hasMixed & types & ms & os & xs & Hm & Hi & Hem & Heo & Hex & _)%analyze_column_inv.
  rewrite Hi, !elem_of_app. intros [Hin|[Hin|[Hin|Hin]]]; [now left|right..].
  - left. exact (emitted_elem _ _ _ _ Hem Hin).
  - right; left. exact (emitted_elem _ _ _ _ Heo Hin).
  - right; right. destruct (emitted_elem _ _ _ _ Hex Hin) as [-> Hx].
    split; [now exists types | exact Hx].
Qed.

Lemma analyze_column_mono (col : ColumnInfo.t) (st st' : QState.t) (i : Issue.t) :
  analyze_column sheet col st = Ok st' -> i ∈ QState.issues st -> i ∈ QState.issues st'.
Proof.
  intros (hasMixed & types & ms & os & xs & _ & Hi & _)%analyze_column_inv Hin.
  rewrite Hi. apply elem_of_app. now left.
Qed.

Lemma columns_issues (cols : list ColumnInfo.t) (st st' : QState.t) :
  foldM (analyze_column sheet) cols st = Ok st' ->
  forall i, i ∈ QState.issues st' ->
            i ∈ QState.issues st \/ exists col, col ∈ cols /\ column_issue sheet col i.
Proof.
  apply (foldM_inv (analyze_column sheet)
           (fun s => forall i, i ∈ QState.issues s ->
                      i ∈ QState.issues st
                      \/ exists col, col ∈ cols /\ column_issue sheet col i)).
  - intros col s s' Hcol Hs Hstep i Hi.
    destruct (analyze_column_issues col s s' i Hstep Hi) as [Hin|Hnew].
    + now apply Hs.
    + right. now exists col.
  - intros i Hi. now left.
Qed.

Lemma columns_mono (cols : list ColumnInfo.t) (st st' : QState.t) :
  foldM (analyze_column sheet) cols st = Ok st' ->
  forall i, i ∈ QState.issues st -> i ∈ QState.issues st'.
Proof.
  apply (foldM_inv (analyze_column sheet)
           (fun s => forall i, i ∈ QState.issues st -> i ∈ QState.issues s)).
  - intros col s s' _ Hs Hstep i Hi. eapply analyze_column_mono; [exact Hstep|]. now apply Hs.
  - auto.
Qed.

(** Every check that reports on a column leaves its issue in the list. *)
Lemma columns_issues_complete (cols : list ColumnInfo.t) (st st' : QState.t)
    (col : ColumnInfo.t) :
  foldM (analyze_column sheet) cols st = Ok st' ->
  col ∈ cols ->
  (missing_reported sheet col = true ->
   exists i, i ∈ QState.issues st' /\ is_missing_issue sheet col i)
  /\ (outliers_reported col (column_values sheet col) = true ->
      exists i, i ∈ QState.issues st' /\ is_outlier_issue sheet col i)
  /\ (forall types, detectMixedTypes (column_values sheet col) = Ok (true, types) ->
      exists i, i ∈ QState.issues st' /\ is_mixed_issue sheet col i).
Proof.
  intros Hfold (l1 & l2 & ->)%list_elem_of_split.
  apply foldM_split in Hfold as (s1 & s2 & _ & Hstep & Hrest).
  pose proof (columns_mono l2 s2 st' Hrest) as Hmono.
  apply analyze_column_inv in Hstep
    as (hasMixed & types & ms & os & xs & Hm & Hi & Hem & Heo & Hex & _).
  assert (Hsub : forall i, i ∈ ms ++ os ++ xs -> i ∈ QState.issues st').
  { intros i Hin. apply Hmono. rewrite Hi. apply elem_of_app. now right. }
  repeat split.
  - intros E. rewrite E in Hem. destruct (emitted_true _ _ Hem) as (i & Hin & Pi).
    exists i. split; [|exact Pi]. apply Hsub. rewrite !elem_of_app. auto.
  - intros E. rewrite E in Heo. destruct (emitted_true _ _ Heo) as (i & Hin & Pi).
    exists i. split; [|exact Pi]. apply Hsub. rewrite !elem_of_app. auto.
  - intros types' E. rewrite E in Hm. injection Hm as <- _.
    destruct (emitted_true _ _ Hex) as (i & Hin & Pi).
    exists i. split; [|exact Pi]. apply Hsub. rewrite !elem_of_app. auto.
Qed.



End ColumnLoop.

(* ================================================================== *)
(** ** Score bounds *)







Section ScoreBounds.
Context `{Host}.



End ScoreBounds.

(* ================================================================== *)
(** ** The report (C8) *)


Lemma between_in_range (v : JSNum) : between 0 100 v -> in_range v.
Proof.
  intros (q & -> & H0 & H100). unfold in_range, num, Num.of_Z. rewrite !le_Fin.
  change (inject_Z 0) with 0. change (inject_Z 100) with 100. auto.
Qed.

Section Report.
Context `{Host}.

Lemma analyzeDataQuality_inv (sheet : ParsedData.t) (report : DataQualityReport.t) :
  analyzeDataQuality sheet = Ok report ->
  exists st,
    foldM (analyze_column sheet) (ParsedData.columns sheet) initial_state = Ok st
    /\ DataQualityReport.issues report
       = Array_sort by_severity
           (QState.issues st ++ check_duplicates sheet (QState.issueId st))
    /\ DataQualityReport.columnHealth report = QState.columnHealth st
    /\ DataQualityReport.overallScore report
       = Num.max (num 0)
           (Num.round
              (Num.sum (map_to_list (QState.columnHealth st)).*2
               / Num.of_nat (size (QState.columnHealth st))
               - Num.min (Num.of_nat (length (DataQualityReport.issues report)) * num 5)
                         (num 30))%js).
Proof.
  unfold analyzeDataQuality. fold initial_state.
  destruct (foldM _ _ _) as [st|e]; cbn [bind]; [|discriminate].
  intros [= <-]. exists st. repeat split.
Qed.






End Report.

(* ================================================================== *)
(** ** Where the issues of a report come from *)

Section ReportIssues.
Context `{Host}.

Lemma check_duplicates_elem (sheet : ParsedData.t) (issueId : nat) (i : Issue.t) :
  i ∈ check_duplicates sheet issueId ->
  Issue.type i = Duplicate /\ Issue.column i = None.
Proof.
  unfold check_duplicates. destruct (findDuplicates _) as [duplicateRows duplicateGroups].
  destruct (0 <? duplicateRows)%nat.
  - intros ->%list_elem_of_singleton. split; reflexivity.
  - intros Hi. now apply elem_of_nil in Hi.
Qed.

Lemma column_issue_type (sheet : ParsedData.t) (col : ColumnInfo.t) (i : Issue.t) :
  column_issue sheet col i ->
  Issue.column i = Some (ColumnInfo.name col) /\ Issue.type i <> Duplicate.
Proof.
  intros [[_ (Ht & Hc & _)]|[[_ (Ht & Hc & _)]|[_ (Ht & Hc & _)]]];
    (split; [exact Hc | rewrite Ht; discriminate]).
Qed.

(** Every issue of a report is an issue of one of the columns or the
    duplicate-rows issue. *)
Lemma analyzeDataQuality_issue (sheet : ParsedData.t) (report : DataQualityReport.t)
    (i : Issue.t) :
  analyzeDataQuality sheet = Ok report ->
  i ∈ DataQualityReport.issues report ->
  (exists col, col ∈ ParsedData.columns sheet /\ column_issue sheet col i)
  \/ (Issue.type i = Duplicate /\ Issue.column i = None).
Proof.
  intros (st & Hfold & -> & _)%analyzeDataQuality_inv.
  rewrite Array_sort_elem, elem_of_app. intros [Hi|Hi].
  - destruct (columns_issues sheet _ _ _ Hfold i Hi) as [Hinit|Hcol]; [|now left].
    now apply elem_of_nil in Hinit.
  - right. exact (check_duplicates_elem _ _ _ Hi).
Qed.

(** Every check that reports on a column has its issue in the report. *)
Lemma analyzeDataQuality_issue_complete (sheet : ParsedData.t)
    (report : DataQualityReport.t) (col : ColumnInfo.t) :
  analyzeDataQuality sheet = Ok report ->
  col ∈ ParsedData.columns sheet ->
  (missing_reported sheet col = true ->
   exists i, i ∈ DataQualityReport.issues report /\ is_missing_issue sheet col i)
  /\ (outliers_reported col (column_values sheet col) = true ->
      exists i, i ∈ DataQualityReport.issues report /\ is_outlier_issue sheet col i)
  /\ (forall types, detectMixedTypes (column_values sheet col) = Ok (true, types) ->
      exists i, i ∈ DataQualityReport.issues report /\ is_mixed_issue sheet col i).
Proof.
  intros (st & Hfold & -> & _)%analyzeDataQuality_inv Hcol.
  destruct (columns_issues_complete sheet _ _ _ col Hfold Hcol) as (Hm & Ho & Hx).
  assert (Hsub : forall i, i ∈ QState.issues st ->
            i ∈ Array_sort by_severity
                  (QState.issues st ++ check_duplicates sheet (QState.issueId st))).
  { intros i Hi. rewrite Array_sort_elem, elem_of_app. now left. }
  repeat split.
  - intros E. destruct (Hm E) as (i & Hi & Pi). exists i. auto.
  - intros E. destruct (Ho E) as (i & Hi & Pi). exists i. auto.
  - intros types E. destruct (Hx types E) as (i & Hi & Pi). exists i. auto.
Qed.

Lemma column_of_name (columns : list ColumnInfo.t) (col col' : ColumnInfo.t) :
  NoDup (ColumnInfo.name <$> columns) ->
  col ∈ columns -> col' ∈ columns ->
  ColumnInfo.name col' = ColumnInfo.name col -> col' = col.
Proof.
  intros Hnd [a Ha]%list_elem_of_lookup [b Hb]%list_elem_of_lookup Hname.
  assert (a = b) as ->; [|congruence].
  eapply NoDup_lookup; [exact Hnd| |].
  - rewrite list_lookup_fmap, Ha. reflexivity.
  - rewrite list_lookup_fmap, Hb. cbn. now rewrite Hname.
Qed.


End ReportIssues.

(* ================================================================== *)
(** ** Missing values (C5) and mixed types (C10) *)

Example defect_sheet_report :
  exists report,
    analyzeDataQuality defect_sheet = Ok report
    /\ map issue_digest (DataQualityReport.issues report)
       = [ (Missing, Some "m", Critical, 3%nat, num 60);
           (Outlier, Some "v", High, 1%nat, num 20);
           (Duplicate, None, High, 2%nat, num 40);
           (MixedType, Some "m", Medium, 5%nat, num 100) ]
    /\ DataQualityReport.columnHealth report !! "v" = Some (num 70)
    /\ DataQualityReport.columnHealth report !! "m" = Some (num 30)
    /\ DataQualityReport.overallScore report = num 30.
Proof. eexists. split; [vm_compute; reflexivity|]. repeat split; vm_compute; reflexivity. Qed.

Section MissingAndMixed.
Context `{Host}.





End MissingAndMixed.




(* ================================================================== *)
(** ** Outliers (C6) *)


Section Outliers.
Context `{Host}.


End Outliers.


(* ================================================================== *)
(** ** Duplicate rows (C7) *)

Section Duplicates.
Context `{Host}.

Lemma see_rows (rows : list Row) (seen : gmap string nat) (duplicateRows : nat) :
  map_Forall (fun _ count => (0 < count)%nat) seen ->
  (fold_left see_row rows (seen, duplicateRows)).2
  = (duplicateRows + repeated_rows (dom seen) rows)%nat.
Proof.
  revert seen duplicateRows.
  induction rows as [|row rows IH]; intros seen duplicateRows Hpos;
    cbn [fold_left repeated_rows]; [cbn; lia|].
  unfold see_row at 2. rewrite IH.
  - rewrite dom_insert_L.
    destruct (seen !! JSON_stringify row) as [count|] eqn:E.
    + change (default 0%nat (Some count)) with count.
      specialize (Hpos _ _ E). cbn in Hpos.
      destruct (Nat.ltb_spec 0 count); [|lia].
      rewrite decide_True by (apply elem_of_dom; eauto). lia.
    + change (default 0%nat (@None nat)) with 0%nat.
      rewrite decide_False by (now apply not_elem_of_dom). cbn. lia.
  - apply map_Forall_insert_2; [lia | exact Hpos].
Qed.

(** [findDuplicates] counts the rows that repeat an earlier one. *)
Lemma findDuplicates_repeated (rows : list Row) :
  (findDuplicates rows).1 = repeated_rows ∅ rows.
Proof.
  unfold findDuplicates.
  pose proof (see_rows rows ∅ 0 (map_Forall_empty _)) as E.
  destruct (fold_left see_row rows (∅, 0%nat)) as [seen duplicateRows].
  cbn [fst snd] in *. now rewrite E, dom_empty_L.
Qed.

(** C7 (amended): in a sheet of row count 20 in which 5 rows repeat an earlier
    row, the report has exactly one duplicate issue; it names no column, its
    affected rows are 5, its percentage is 25 and its severity is high. *)
Theorem analyzeDataQuality_duplicates (sheet : ParsedData.t) (report : DataQualityReport.t) :
  analyzeDataQuality sheet = Ok report ->
  ParsedData.rowCount sheet = 20%nat ->
  repeated_rows ∅ (ParsedData.rows sheet) = 5%nat ->
  exists i,
    filter (fun i => Issue.type i = Duplicate) (DataQualityReport.issues report) = [i]
    /\ Issue.column i = None
    /\ Issue.affectedRows i = 5%nat
    /\ Issue.percentage i = num 25
    /\ Issue.severity i = High.
Proof.
  intros (st & Hfold & -> & _)%analyzeDataQuality_inv Hcount Hrep.
  assert (Hcols : filter (fun i => Issue.type i = Duplicate) (QState.issues st) = []).
  { apply filter_none. intros i Hi Ht.
    destruct (columns_issues sheet _ _ _ Hfold i Hi) as [Hinit|(col & _ & Hissue)].
    - now apply elem_of_nil in Hinit.
    - now apply column_issue_type in Hissue as [_ Hne]. }
  assert (Hdup : exists i,
             check_duplicates sheet (QState.issueId st) = [i]
             /\ Issue.type i = Duplicate /\ Issue.column i = None
             /\ Issue.affectedRows i = 5%nat /\ Issue.percentage i = num 25
             /\ Issue.severity i = High).
  { unfold check_duplicates.
    pose proof (findDuplicates_repeated (ParsedData.rows sheet)) as E. rewrite Hrep in E.
    destruct (findDuplicates (ParsedData.rows sheet)) as [duplicateRows duplicateGroups].
    cbn [fst] in E. subst duplicateRows. rewrite Hcount. cbn [Nat.ltb Nat.leb].
    eexists. split; [reflexivity|]. repeat split. }
  destruct Hdup as (i & Hi & Ht & Hc & Ha & Hp & Hs).
  exists i. split; [|auto].
  apply Permutation_singleton_r.
  rewrite Array_sort_perm, filter_app, Hcols, Hi, filter_cons_True by exact Ht.
  reflexivity.
Qed.

End Duplicates.

(** C7 as stated fails on its own scenario: with 5 duplicates among 20 rows
    the percentage is 25, which is above 20, and the one issue of the report is
    graded high, not medium. *)
Lemma analyzeDataQuality_duplicates_severity :
  length (ParsedData.rows duplicated_sheet) = 20%nat
  /\ repeated_rows ∅ (ParsedData.rows duplicated_sheet) = 5%nat
  /\ exists report,
       analyzeDataQuality duplicated_sheet = Ok report
       /\ map issue_digest (DataQualityReport.issues report)
          = [ (Duplicate, None, High, 5%nat, num 25) ]
       /\ High <> Medium.
Proof.
  split; [reflexivity|]. split; [vm_compute; reflexivity|].
  eexists. split; [vm_compute; reflexivity|]. split; [vm_compute; reflexivity | discriminate].
Qed.

Lemma analyzeDataQuality_duplicates_witness :
  exists report,
    analyzeDataQuality duplicated_sheet = Ok report
    /\ exists i,
         filter (fun i => Issue.type i = Duplicate) (DataQualityReport.issues report) = [i]
         /\ Issue.column i = None
         /\ Issue.affectedRows i = 5%nat
         /\ Issue.percentage i = num 25
         /\ Issue.severity i = High.
Proof.
  assert (E : exists report, analyzeDataQuality duplicated_sheet = Ok report)
    by (eexists; vm_compute; reflexivity).
  destruct E as [report E]. exists report. split; [exact E|].
  apply (analyzeDataQuality_duplicates duplicated_sheet report E eq_refl).
  vm_compute. reflexivity.
Defined.

(* ================================================================== *)
(** ** The histogram of a constant column (C4) *)

Section Histogram.
Context `{Host}.

(** With a range of 0 the bin width is 0 or [NaN], every bin index is [NaN],
    and no bin is incremented: the histogram of a column whose numeric values
    all equal its minimum counts none of them. *)
Lemma histogram_of_constant (col : ColumnInfo.t) (m : Q) (numericValues : list JSNum)
    (bins : list Bin.t) :
  or_zero (ColumnInfo.min col) = Fin m ->
  Forall (fun v => v = Fin m) numericValues ->
  histogram_of col (num 0) numericValues = Ok bins ->
  Forall (fun b => Bin.count b = num 0) bins.
Proof.
  intros Hmin Hvalues. unfold histogram_of. rewrite Hmin.
  set (binCount := Num.min (num 10) _). clearbody binCount.
  destruct (Array_zeros binCount) as [zeros|e] eqn:Ez; cbn [bind]; [|discriminate].
  assert (Hzeros : Forall (fun c => c = num 0) zeros).
  { unfold Array_zeros in Ez. destruct binCount as [| | |c]; try discriminate.
    destruct (_ && _); [|discriminate]. injection Ez as <-.
    apply Forall_forall. intros c' Hc'. apply list_elem_of_In in Hc'.
    now apply repeat_spec in Hc'. }
  assert (Hwidth : forall v, v = Fin m ->
            Num.min (binCount - num 1)%js
                    (Num.floor ((v - Fin m) / (num 0 / binCount))%js) = NaN).
  { intros v ->. rewrite sub_Fin.
    assert (E0 : Qred (m - m) = 0) by (apply (Qred_complete (m - m) 0); ring).
    rewrite E0.
    assert (Ew : (Fin 0 / (num 0 / binCount))%js = NaN).
    { unfold Array_zeros in Ez. destruct binCount as [| | |c]; try discriminate.
      unfold num, Num.of_Z, Num.div.
      destruct (Num.sgn c) eqn:Ec; cbn; reflexivity. }
    rewrite Ew. cbn [Num.floor]. now destruct (binCount - num 1)%js. }
  match goal with
  | |- context [fold_left ?f numericValues zeros] =>
      assert (Hfold : fold_left f numericValues zeros = zeros)
  end.
  { clear Ez Hzeros. induction Hvalues as [|v l Hv _ IH]; [reflexivity|].
    cbn [fold_left]. rewrite (Hwidth v Hv). cbn [bin_increment]. exact IH. }
  rewrite Hfold. intros [= <-].
  apply Forall_forall. intros b Hb.
  apply elem_of_lookup_imap in Hb as (i & c & -> & Hc). cbn [Bin.count].
  eapply Forall_forall in Hzeros; [exact Hzeros|]. eapply list_elem_of_lookup_2, Hc.
Qed.

End Histogram.

(** C4, the code at the failing input: the profile of the constant column has
    a histogram of two bins, and neither bin counts any of the three values. *)
Lemma profileColumn_constant_column :
  exists profile,
    profileColumn constant_column [VNum (num 5); VNum (num 5); VNum (num 5)] = Ok profile
    /\ ColumnProfile.range profile = Some (num 0)
    /\ ColumnProfile.histogram profile
       = Some [ {| Bin.bin := "5.0-5.0"; Bin.count := num 0 |};
                {| Bin.bin := "5.0-5.0"; Bin.count := num 0 |} ].
Proof. eexists. split; [vm_compute; reflexivity|]. split; vm_compute; reflexivity. Qed.

(* ================================================================== *)
(** * Further properties of the code *)

(* ================================================================== *)
(** ** The report as a whole: summary, order, identifiers *)

Lemma severity_eqb_eq (a b : SeverityLevel) : severity_eqb a b = true <-> a = b.
Proof. destruct a, b; cbn; split; congruence. Qed.

Lemma count_severity_filter (s : SeverityLevel) (issues : list Issue.t) :
  count_severity s issues = length (filter (fun i => Issue.severity i = s) issues).
Proof.
  unfold count_severity. induction issues as [|i issues IH]; [reflexivity|].
  rewrite !filter_cons.
  destruct (severity_eqb (Issue.severity i) s) eqn:E.
  - rewrite decide_True by reflexivity.
    rewrite decide_True by (now apply severity_eqb_eq). cbn [length]. now rewrite IH.
  - rewrite decide_False by discriminate.
    rewrite decide_False; [exact IH|].
    intros Hs. apply severity_eqb_eq in Hs. congruence.
Qed.

Lemma count_severity_total (issues : list Issue.t) :
  (count_severity Critical issues + count_severity High issues
   + count_severity Medium issues + count_severity Low issues)%nat = length issues.
Proof.
  rewrite !count_severity_filter.
  induction issues as [|i issues IH]; [reflexivity|].
  rewrite !filter_cons. cbn [length]. rewrite <- IH.
  destruct (Issue.severity i); repeat case_decide; try congruence; cbn [length]; lia.
Qed.

Section ReportShape.
Context `{Host}.

(** X1: the summary of a report counts its issues: [totalIssues] is the
    length of the list, each of the four counts is the number of issues of its
    severity, and the four add up to [totalIssues]. *)
Theorem analyzeDataQuality_summary (sheet : ParsedData.t) (report : DataQualityReport.t) :
  analyzeDataQuality sheet = Ok report ->
  let s := DataQualityReport.summary report in
  let issues := DataQualityReport.issues report in
  Summary.totalIssues s = length issues
  /\ (forall severity,
        summary_count s severity
        = length (filter (fun i => Issue.severity i = severity) issues))
  /\ (Summary.criticalCount s + Summary.highCount s
      + Summary.mediumCount s + Summary.lowCount s)%nat = Summary.totalIssues s.
Proof.
  unfold analyzeDataQuality.
  destruct (foldM _ _ _) as [st|e]; cbn [bind]; [|discriminate].
  intros [= <-]. cbn zeta.
  cbn [DataQualityReport.summary DataQualityReport.issues Summary.totalIssues
       Summary.criticalCount Summary.highCount Summary.mediumCount Summary.lowCount].
  split; [reflexivity|]. split.
  - intros [| | |]; cbn [summary_count Summary.criticalCount Summary.highCount
                          Summary.mediumCount Summary.lowCount];
      apply count_severity_filter.
  - apply count_severity_total.
Qed.

Lemma severityOrder_finite (s : SeverityLevel) : isNaN (severityOrder s) = false.
Proof. now destruct s. Qed.

(** X2: the issues of a report are in severity order: critical before high
    before medium before low, every issue standing before all those of a
    lower severity. *)
Theorem analyzeDataQuality_issues_sorted (sheet : ParsedData.t)
    (report : DataQualityReport.t) :
  analyzeDataQuality sheet = Ok report ->
  StronglySorted severity_precedes (DataQualityReport.issues report).
Proof.
  intros (st & _ & -> & _)%analyzeDataQuality_inv.
  set (l := QState.issues st ++ _).
  apply (StronglySorted_impl (may_precede by_severity)).
  - intros a b. unfold may_precede, by_severity, severity_precedes.
    rewrite sub_gt0. apply not_lt_le; apply severityOrder_finite.
  - apply (Sorted_strongly by_severity (fun _ => True)).
    + intros x y z _. unfold may_precede, by_severity. rewrite !sub_gt0.
      intros Hxy Hyz. exact (not_lt_trans _ _ _ (severityOrder_finite _) Hxy Hyz).
    + apply Forall_forall. auto.
    + apply Array_sort_sorted. intros x y. unfold may_precede, by_severity.
      rewrite !sub_gt0. apply lt_asym.
Qed.

Lemma numbered_push (issues : list Issue.t) (issueId : nat) (i : Issue.t) :
  numbered issues issueId -> Issue.id i = issue_id issueId ->
  numbered (issues ++ [i]) (S issueId).
Proof.
  unfold numbered, issue_ids. intros Hn Hi.
  rewrite fmap_app, Hn, seq_S, map_app. cbn. now rewrite Hi.
Qed.

Lemma check_missing_numbered (sheet : ParsedData.t) (col : ColumnInfo.t) (acc : Acc.t) :
  numbered (Acc.issues acc) (Acc.issueId acc) ->
  numbered (Acc.issues (check_missing sheet col acc))
           (Acc.issueId (check_missing sheet col acc)).
Proof.
  intros Hn. unfold check_missing.
  destruct (_ >? num 0)%js; [|exact Hn].
  destruct (_ >? num 5)%js; [|exact Hn].
  cbn [Acc.issues Acc.issueId]. now apply numbered_push.
Qed.

Lemma check_outliers_numbered (col : ColumnInfo.t) (values : list Value) (acc : Acc.t) :
  numbered (Acc.issues acc) (Acc.issueId acc) ->
  numbered (Acc.issues (check_outliers col values acc))
           (Acc.issueId (check_outliers col values acc)).
Proof.
  intros Hn. unfold check_outliers.
  destruct (is_number_type _); [|exact Hn].
  destruct (_ >? num 1)%js; [|exact Hn].
  cbn [Acc.issues Acc.issueId]. now apply numbered_push.
Qed.

Lemma check_mixed_numbered (sheet : ParsedData.t) (col : ColumnInfo.t) (values : list Value)
    (acc acc' : Acc.t) :
  check_mixed sheet col values acc = Ok acc' ->
  numbered (Acc.issues acc) (Acc.issueId acc) ->
  numbered (Acc.issues acc') (Acc.issueId acc').
Proof.
  unfold check_mixed.
  destruct (detectMixedTypes values) as [[hasMixed types]|e]; cbn [bind]; [|discriminate].
  destruct hasMixed; intros [= <-] Hn; [|exact Hn].
  cbn [Acc.issues Acc.issueId]. now apply numbered_push.
Qed.

Lemma analyze_column_numbered (sheet : ParsedData.t) (col : ColumnInfo.t)
    (st st' : QState.t) :
  analyze_column sheet col st = Ok st' ->
  numbered (QState.issues st) (QState.issueId st) ->
  numbered (QState.issues st') (QState.issueId st').
Proof.
  unfold analyze_column. intros Hstep Hn.
  destruct (check_mixed _ _ _ _) as [acc|e] eqn:E; cbn [bind] in Hstep; [|discriminate].
  injection Hstep as <-. cbn [QState.issues QState.issueId].
  apply (check_mixed_numbered _ _ _ _ _ E).
  apply check_outliers_numbered, check_missing_numbered. exact Hn.
Qed.

(** X3: the identifiers of the issues of a report are [issue-0], [issue-1],
    ..., one for each issue: the list of identifiers is a rearrangement of the
    first [n] identifiers, [n] being the number of issues. *)
Theorem analyzeDataQuality_issue_ids (sheet : ParsedData.t) (report : DataQualityReport.t) :
  analyzeDataQuality sheet = Ok report ->
  Issue.id <$> DataQualityReport.issues report
  ≡ₚ issue_ids (length (DataQualityReport.issues report)).
Proof.
  intros (st & Hfold & -> & _)%analyzeDataQuality_inv.
  assert (Hn : numbered (QState.issues st) (QState.issueId st)).
  { refine (foldM_inv (analyze_column sheet)
              (fun s => numbered (QState.issues s) (QState.issueId s)) _ _ _ _ _ Hfold);
      [|reflexivity].
    intros col s s' _ Hs Hstep. exact (analyze_column_numbered _ _ _ _ Hstep Hs). }
  assert (Hlen : length (QState.issues st) = QState.issueId st).
  { rewrite <- (length_fmap Issue.id), Hn. unfold issue_ids.
    now rewrite length_map, length_seq. }
  rewrite Array_sort_length, Array_sort_perm, length_app, fmap_app, Hn, Hlen.
  unfold check_duplicates.
  destruct (findDuplicates _) as [duplicateRows duplicateGroups].
  destruct (0 <? duplicateRows)%nat; cbn [length fmap list_fmap Issue.id].
  - rewrite Nat.add_1_r. unfold issue_ids. now rewrite seq_S, map_app.
  - now rewrite Nat.add_0_r, app_nil_r.
Qed.

End ReportShape.

(* ================================================================== *)
(** ** The overall score at its ends *)






Section ScoreEnds.
Context `{Host}.



(** X5: a sheet without columns gets no score: the overall score of its
    report is [NaN], which is neither at least 0 nor at most 100; no health is
    recorded, and the only issue the report can hold is the one about duplicate
    rows. *)
Theorem analyzeDataQuality_no_columns (sheet : ParsedData.t) :
  ParsedData.columns sheet = [] ->
  exists report,
    analyzeDataQuality sheet = Ok report
    /\ DataQualityReport.overallScore report = NaN
    /\ (num 0 <=? DataQualityReport.overallScore report)%js = false
    /\ DataQualityReport.columnHealth report = ∅
    /\ DataQualityReport.issues report = check_duplicates sheet 0
    /\ (length (DataQualityReport.issues report) <= 1)%nat.
Proof.
  intros Hcols. unfold analyzeDataQuality. rewrite Hcols. cbn [foldM bind].
  eexists. split; [reflexivity|].
  cbn [DataQualityReport.overallScore DataQualityReport.columnHealth
       DataQualityReport.issues QState.issues QState.columnHealth QState.issueId app].
  rewrite map_to_list_empty, map_size_empty.
  assert (Hd : (length (check_duplicates sheet 0) <= 1)%nat
               /\ Array_sort
                    (fun a b => (severityOrder (Issue.severity a)
                                 - severityOrder (Issue.severity b))%js)
                    (check_duplicates sheet 0)
                  = check_duplicates sheet 0).
  { unfold check_duplicates. destruct (findDuplicates _) as [duplicateRows duplicateGroups].
    destruct (0 <? duplicateRows)%nat; split; cbn; (reflexivity || lia). }
  destruct Hd as [Hd1 Hd2]. rewrite Hd2.
  repeat split; try reflexivity; exact Hd1.
Qed.

End ScoreEnds.

(* ================================================================== *)
(** ** The outlier check of a column *)

Section OutlierCheck.
Context `{Host}.



End OutlierCheck.

(* ================================================================== *)
(** ** Counting duplicate rows *)

Lemma size_list_to_set_le (l : list string) :
  (size (list_to_set (C := gset string) l) <= length l)%nat.
Proof.
  induction l as [|x l IH]; [now rewrite list_to_set_nil, size_empty|].
  rewrite list_to_set_cons. cbn [length].
  rewrite size_union_alt, size_singleton.
  pose proof (subseteq_size _ _
                (subseteq_difference_l (list_to_set (C := gset string) l) {[x]} _
                   (reflexivity _))).
  lia.
Qed.

Lemma size_list_to_set_NoDup (l : list string) :
  size (list_to_set (C := gset string) l) = length l <-> NoDup l.
Proof.
  split; [|apply size_list_to_set].
  induction l as [|x l IH]; [constructor|].
  rewrite list_to_set_cons. cbn [length]. intros Hs.
  pose proof (size_list_to_set_le l) as Hle.
  destruct (decide (x ∈ l)) as [Hin|Hnin].
  - assert (E : {[x]} ∪ list_to_set l = list_to_set (C := gset string) l).
    { apply subseteq_union_1_L, singleton_subseteq_l, elem_of_list_to_set, Hin. }
    rewrite E in Hs. lia.
  - rewrite size_union in Hs
      by (apply disjoint_singleton_l; now rewrite elem_of_list_to_set).
    rewrite size_singleton in Hs.
    constructor; [exact Hnin | apply IH; lia].
Qed.

(** The groups of a counting map: the keys met more than once. *)
Lemma groups_insert_fresh (seen : gmap string nat) (key : string) :
  seen !! key = None ->
  length (filter (fun c => (1 < c)%nat) (map_to_list (<[key := 1%nat]> seen)).*2)
  = length (filter (fun c => (1 < c)%nat) (map_to_list seen).*2).
Proof.
  intros Hk. rewrite (map_to_list_insert seen key 1%nat Hk), fmap_cons. cbn [snd].
  rewrite filter_cons_False by lia. reflexivity.
Qed.

Lemma groups_insert_seen (seen : gmap string nat) (key : string) (count : nat) :
  seen !! key = Some count -> (0 < count)%nat ->
  length (filter (fun c => (1 < c)%nat) (map_to_list (<[key := (count + 1)%nat]> seen)).*2)
  = ((if (count =? 1)%nat then 1 else 0)
     + length (filter (fun c => (1 < c)%nat) (map_to_list seen).*2))%nat.
Proof.
  intros Hk Hpos.
  rewrite <- (insert_delete_eq seen key (count + 1)%nat).
  rewrite (map_to_list_insert (delete key seen) key (count + 1)%nat)
    by apply lookup_delete_eq.
  rewrite <- (map_to_list_delete seen key count Hk).
  rewrite !fmap_cons. cbn [snd]. rewrite filter_cons_True by lia.
  rewrite filter_cons. cbn [length].
  destruct (Nat.eqb_spec count 1) as [->|Hne].
  - rewrite decide_False by lia. reflexivity.
  - rewrite decide_True by lia. reflexivity.
Qed.

Section DuplicateCounts.
Context `{Host}.

Lemma see_rows_counts (rows : list Row) (seen seen' : gmap string nat)
    (duplicateRows duplicateRows' : nat) :
  map_Forall (fun _ count => (0 < count)%nat) seen ->
  let groups (m : gmap string nat) :=
    length (filter (fun c => (1 < c)%nat) (map_to_list m).*2) in
  (groups seen <= duplicateRows)%nat ->
  ((0 < duplicateRows)%nat -> (0 < groups seen)%nat) ->
  fold_left see_row rows (seen, duplicateRows) = (seen', duplicateRows') ->
  dom seen' = dom seen ∪ list_to_set (map JSON_stringify rows)
  /\ (duplicateRows' + size seen' = duplicateRows + size seen + length rows)%nat
  /\ (groups seen' <= duplicateRows')%nat
  /\ ((0 < duplicateRows')%nat -> (0 < groups seen')%nat).
Proof.
  intros Hpos groups. revert seen duplicateRows Hpos.
  induction rows as [|row rows IH]; intros seen duplicateRows Hpos Hle Hsome.
  - cbn [fold_left]. intros [= <- <-]. cbn [map length list_to_set].
    split; [now rewrite union_empty_r_L|]. split; [lia|]. split; assumption.
  - cbn [fold_left]. unfold see_row at 2.
    set (key := JSON_stringify row).
    destruct (seen !! key) as [count|] eqn:E.
    + change (default 0%nat (Some count)) with count.
      pose proof (Hpos _ _ E) as Hc. cbn in Hc.
      destruct (Nat.ltb_spec 0 count); [|lia].
      intros Hfold. eapply IH in Hfold.
      * destruct Hfold as (Hdom & Hsize & Hg).
        split; [|split; [|exact Hg]].
        -- rewrite Hdom, dom_insert_L. cbn [map list_to_set]. fold key.
           now rewrite (union_comm_L {[key]} (dom seen)), <- union_assoc_L.
        -- rewrite Hsize. cbn [length].
           rewrite map_size_insert_Some by eauto. lia.
      * apply map_Forall_insert_2; [lia | exact Hpos].
      * unfold groups. rewrite (groups_insert_seen seen key count E Hc).
        fold (groups seen). destruct (count =? 1)%nat; lia.
      * intros _. unfold groups. rewrite (groups_insert_seen seen key count E Hc).
        fold (groups seen). destruct (Nat.eqb_spec count 1) as [->|Hne]; [lia|].
        assert (Hin : (1 < count)%nat) by lia.
        assert (Hg : (0 < groups seen)%nat).
        { unfold groups. rewrite <- (map_to_list_delete seen key count E), fmap_cons. cbn [snd].
          rewrite filter_cons_True by exact Hin. cbn [length]. lia. }
        lia.
    + change (default 0%nat (@None nat)) with 0%nat. cbn [Nat.ltb Nat.leb Nat.add].
      intros Hfold. eapply IH in Hfold.
      * destruct Hfold as (Hdom & Hsize & Hg).
        split; [|split; [|exact Hg]].
        -- rewrite Hdom, dom_insert_L. cbn [map list_to_set]. fold key.
           now rewrite (union_comm_L {[key]} (dom seen)), <- union_assoc_L.
        -- rewrite Hsize. cbn [length]. rewrite map_size_insert_None by exact E. lia.
      * apply map_Forall_insert_2; [lia | exact Hpos].
      * unfold groups. rewrite (groups_insert_fresh seen key E). exact Hle.
      * unfold groups. rewrite (groups_insert_fresh seen key E). exact Hsome.
Qed.

(** X7: [findDuplicates] counts by serialisation.  The duplicate rows and
    the distinct serialisations add up to the number of rows; there are no
    more groups than duplicate rows; no row is a duplicate exactly when all
    serialisations differ; and there is a group exactly when there is a
    duplicate row. *)
Theorem findDuplicates_counts (rows : list Row) :
  let keys := map JSON_stringify rows in
  ((findDuplicates rows).1 + size (list_to_set (C := gset string) keys) = length rows)%nat
  /\ ((findDuplicates rows).2 <= (findDuplicates rows).1)%nat
  /\ ((findDuplicates rows).1 = 0%nat <-> NoDup keys)
  /\ ((findDuplicates rows).2 = 0%nat <-> (findDuplicates rows).1 = 0%nat).
Proof.
  intros keys. unfold findDuplicates.
  destruct (fold_left see_row rows (∅, 0%nat)) as [seen duplicateRows] eqn:E.
  apply see_rows_counts in E.
  - cbn [fst snd]. destruct E as (Hdom & Hsize & Hle & Hsome).
    rewrite dom_empty_L, union_empty_l_L in Hdom. rewrite map_size_empty in Hsize.
    fold keys in Hdom.
    assert (Hs : size seen = size (list_to_set (C := gset string) keys)).
    { now rewrite <- Hdom, size_dom. }
    pose proof (size_list_to_set_le keys) as Hk.
    assert (Hlen : length keys = length rows) by apply length_map.
    split; [lia|]. split; [exact Hle|]. split.
    + rewrite <- size_list_to_set_NoDup. lia.
    + lia.
  - apply map_Forall_empty.
  - rewrite map_to_list_empty. cbn. lia.
  - lia.
Qed.

End DuplicateCounts.

(* ================================================================== *)
(** ** Mixed types *)

Lemma ColumnType_eqb_eq (a b : ColumnType) : ColumnType_eqb a b = true <-> a = b.
Proof. destruct a, b; cbn; split; congruence. Qed.

Lemma set_add_elem (types : list ColumnType) (t t' : ColumnType) :
  t' ∈ set_add types t <-> t' ∈ types \/ t' = t.
Proof.
  unfold set_add. destruct (existsb (ColumnType_eqb t) types) eqn:E.
  - apply existsb_exists in E as (u & Hu & Eu). apply ColumnType_eqb_eq in Eu as <-.
    apply list_elem_of_In in Hu. split; [now left | intros [Hin| ->]; assumption].
  - rewrite elem_of_app, list_elem_of_singleton. reflexivity.
Qed.

Lemma set_add_NoDup (types : list ColumnType) (t : ColumnType) :
  NoDup types -> NoDup (set_add types t).
Proof.
  intros Hnd. unfold set_add. destruct (existsb (ColumnType_eqb t) types) eqn:E; [exact Hnd|].
  apply NoDup_app. split; [exact Hnd|]. split; [|apply NoDup_singleton].
  intros u Hu ->%list_elem_of_singleton.
  assert (Hex : existsb (ColumnType_eqb t) types = true); [|congruence].
  apply existsb_exists. exists t. split; [now apply list_elem_of_In|].
  now apply ColumnType_eqb_eq.
Qed.

Section MixedTypes.
Context `{Host}.

(** What a cell adds to the set of types does not depend on the set. *)
Lemma classify_value_class (types types' : list ColumnType) (v : Value) :
  classify_value types v = Ok types' ->
  cell_class v = Ok None /\ types' = types
  \/ exists t, cell_class v = Ok (Some t) /\ types' = set_add types t.
Proof.
  unfold cell_class, classify_value.
  destruct (negb (nonNull v)); [intros [= <-]; now left|].
  destruct (negb (isNaN (Number v)) && negb (is_boolean v));
    [intros [= <-]; right; now eexists|].
  destruct (boolean_like v); [intros [= <-]; right; now eexists|].
  destruct (if is_Date v then _ else _) as [date|e]; cbn [bind]; [|discriminate].
  intros [= <-]. right. now eexists.
Qed.

Lemma classify_values (values : list Value) (types0 types : list ColumnType) :
  foldM (fun v types => classify_value types v) values types0 = Ok types ->
  NoDup types0 ->
  NoDup types
  /\ forall t, t ∈ types <-> t ∈ types0 \/ exists v, v ∈ values /\ cell_class v = Ok (Some t).
Proof.
  revert types0. induction values as [|v values IH]; intros types0; cbn [foldM].
  - intros [= <-] Hnd. split; [exact Hnd|]. intros t. split; [now left|].
    intros [Ht|(v & Hv & _)]; [exact Ht | now apply elem_of_nil in Hv].
  - destruct (classify_value types0 v) as [types1|e] eqn:E; cbn [bind]; [|discriminate].
    intros Hfold Hnd.
    destruct (classify_value_class _ _ _ E) as [[Hc ->]|(t1 & Hc & ->)].
    + destruct (IH _ Hfold Hnd) as [Hnd' Hin]. split; [exact Hnd'|].
      intros t. rewrite Hin. split; (intros [Ht|(w & Hw & Et)]; [now left|right]).
      * exists w. split; [now apply list_elem_of_further | exact Et].
      * apply elem_of_cons in Hw as [->|Hw]; [congruence|]. now exists w.
    + destruct (IH _ Hfold (set_add_NoDup _ _ Hnd)) as [Hnd' Hin]. split; [exact Hnd'|].
      intros t. rewrite Hin, set_add_elem. split.
      * intros [[Ht| ->]|(w & Hw & Et)]; [now left|right..].
        -- exists v. split; [apply list_elem_of_here | exact Hc].
        -- exists w. split; [now apply list_elem_of_further | exact Et].
      * intros [Ht|(w & Hw & Et)]; [now left; left|].
        apply elem_of_cons in Hw as [->|Hw]; [left; right; congruence|].
        right. now exists w.
Qed.

(** X8: a column is flagged as mixed exactly when two of its cells fall in
    different classes.  The types [detectMixedTypes] returns are the classes of
    the cells, each once, empty cells having none; a Date with a valid time
    counts as a number, and an invalid Date as a date. *)
Theorem detectMixedTypes_classes (values : list Value) (hasMixed : bool)
    (types : list ColumnType) :
  detectMixedTypes values = Ok (hasMixed, types) ->
  NoDup types
  /\ (forall t, t ∈ types <-> exists v, v ∈ values /\ cell_class v = Ok (Some t))
  /\ (hasMixed = true
      <-> exists v w t u, v ∈ values /\ w ∈ values /\ t <> u
                          /\ cell_class v = Ok (Some t) /\ cell_class w = Ok (Some u))
  /\ (forall v, nonNull v = false -> cell_class v = Ok None)
  /\ (forall t, cell_class (VDate t) = Ok (Some (if isNaN t then TDate else TNumber))).
Proof.
  unfold detectMixedTypes.
  destruct (foldM _ values []) as [types'|e] eqn:E; cbn [bind]; [|discriminate].
  intros [= <- <-].
  destruct (classify_values values [] types' E NoDup_nil_2) as [Hnd Hin].
  assert (Hin' : forall t, t ∈ types'
                   <-> exists v, v ∈ values /\ cell_class v = Ok (Some t)).
  { intros t. rewrite Hin. split; [|now right].
    intros [Ht|Hv]; [now apply elem_of_nil in Ht | exact Hv]. }
  split; [exact Hnd|]. split; [exact Hin'|]. split; [|split].
  - rewrite Nat.ltb_lt. split.
    + intros Hlen. destruct types' as [|t [|u types']]; cbn in Hlen; try lia.
      destruct (proj1 (Hin' t) ltac:(apply list_elem_of_here)) as (v & Hv & Ev).
      destruct (proj1 (Hin' u) ltac:(apply list_elem_of_further, list_elem_of_here))
        as (w & Hw & Ew).
      exists v, w, t, u. repeat split; try assumption.
      apply NoDup_cons in Hnd as [Hnt _]. intros ->. apply Hnt, list_elem_of_here.
    + intros (v & w & t & u & Hv & Hw & Hne & Ev & Ew).
      assert (Ht : t ∈ types') by (apply Hin'; now exists v).
      assert (Hu : u ∈ types') by (apply Hin'; now exists w).
      destruct types' as [|a [|b types']]; cbn [length]; [| |lia].
      * now apply elem_of_nil in Ht.
      * apply list_elem_of_singleton in Ht, Hu. congruence.
  - intros v Hv. unfold cell_class, classify_value. now rewrite Hv.
  - intros t. unfold cell_class, classify_value. cbn [nonNull negb Number is_boolean].
    destruct (isNaN t); cbn [negb andb]; [|reflexivity].
    cbn [boolean_like is_boolean is_str orb is_Date bind]. reflexivity.
Qed.

End MixedTypes.

(* ================================================================== *)
(** ** Correlation strength *)

Lemma abs_neg (r : JSNum) : Num.abs (Num.neg r) = Num.abs r.
Proof.
  destruct r as [| | |q]; try reflexivity. unfold Num.neg, Num.abs, Num.fin.
  f_equal. apply Qred_complete. rewrite Qred_correct. apply Qabs_opp.
Qed.

Lemma le_lt_trans (a b t : JSNum) :
  (a <=? b)%js = true -> (b <? t)%js = true -> (a <? t)%js = true.
Proof.
  destruct a as [| | |x], b as [| | |y], t as [| | |z]; try reflexivity; try discriminate.
  rewrite le_Fin, !lt_Fin. intros; lra.
Qed.

(** X9: the strength of a correlation depends on its absolute value only and
    grows with it: [r] and [-r] get the same class, and a coefficient of larger
    absolute value never gets a weaker class.  [NaN] passes every threshold and
    is classed very strong. *)
Theorem getCorrelationStrength_monotone :
  (forall r, getCorrelationStrength (Num.neg r) = getCorrelationStrength r)
  /\ (forall r1 r2,
        (Num.abs r1 <=? Num.abs r2)%js = true ->
        (strength_rank (getCorrelationStrength r1)
         <= strength_rank (getCorrelationStrength r2))%nat)
  /\ getCorrelationStrength NaN = StrVeryStrong.
Proof.
  split; [|split; [|reflexivity]].
  - intros r. unfold getCorrelationStrength. now rewrite abs_neg.
  - intros r1 r2 Hle. unfold getCorrelationStrength.
    pose proof (le_lt_trans _ _ (dec 1 10) Hle) as H1.
    pose proof (le_lt_trans _ _ (dec 3 10) Hle) as H3.
    pose proof (le_lt_trans _ _ (dec 5 10) Hle) as H5.
    pose proof (le_lt_trans _ _ (dec 7 10) Hle) as H7.
    destruct (Num.abs r2 <? dec 1 10)%js; [rewrite H1 by reflexivity; cbn; lia|].
    destruct (Num.abs r2 <? dec 3 10)%js;
      [rewrite H3 by reflexivity; destruct (_ <? _)%js; cbn; lia|].
    destruct (Num.abs r2 <? dec 5 10)%js;
      [rewrite H5 by reflexivity; repeat (destruct (_ <? _)%js; cbn; try lia)|].
    destruct (Num.abs r2 <? dec 7 10)%js;
      [rewrite H7 by reflexivity; repeat (destruct (_ <? _)%js; cbn; try lia)|].
    repeat (destruct (_ <? _)%js; cbn; try lia).
Qed.

(* ================================================================== *)
(** ** Integers as numbers *)







(* ================================================================== *)
(** ** The histogram of a column with a range *)




Section HistogramTotal.
Context `{Host}.





End HistogramTotal.

Section ProfileHistogram.
Context `{Host}.


End ProfileHistogram.

(* ================================================================== *)
(** ** The value distribution of a column *)

Lemma lt_of_nat (a b : nat) : (Num.of_nat a <? Num.of_nat b)%js = (a <? b)%nat.
Proof.
  apply eq_true_iff_eq. unfold Num.of_nat, Num.of_Z. rewrite lt_Fin, <- Zlt_Qlt, Nat.ltb_lt.
  lia.
Qed.

Lemma StronglySorted_take {A : Type} (R : A -> A -> Prop) (n : nat) (l : list A) :
  StronglySorted R l -> StronglySorted R (take n l).
Proof.
  intros Hs. revert n. induction Hs as [|x l Hs IH Hall]; intros [|n]; cbn [take];
    try constructor.
  - apply IH.
  - apply Forall_forall. intros y Hy. eapply Forall_forall in Hall; [exact Hall|].
    eapply (subseteq_take n l), Hy.
Qed.

Lemma sum_list_with_take {A : Type} (f : A -> nat) (n : nat) (l : list A) :
  (sum_list_with f (take n l) <= sum_list_with f l)%nat.
Proof.
  revert n. induction l as [|x l IH]; intros [|n]; cbn [take sum_list_with]; try lia.
  specialize (IH n). lia.
Qed.

Lemma length_substring_le (n : nat) (s : string) :
  (String.length (String.substring 0 n s) <= n)%nat.
Proof.
  revert s. induction n as [|n IH]; intros [|c s]; cbn [String.substring String.length]; try lia.
  specialize (IH s). lia.
Qed.

Lemma length_append (s t : string) :
  String.length (s +:+ t) = (String.length s + String.length t)%nat.
Proof.
  induction s as [|c s IH]; [reflexivity|].
  change (String c s +:+ t) with (String c (s +:+ t)). cbn [String.length]. now rewrite IH.
Qed.

Lemma display_value_length (value : string) : (String.length (display_value value) <= 33)%nat.
Proof.
  unfold display_value. destruct (Nat.ltb_spec 30 (String.length value)); [|lia].
  rewrite length_append. pose proof (length_substring_le 30 value). cbn [String.length]. lia.
Qed.

(** Counting a key adds one to the total and keeps the counts positive. *)
Lemma count_value_sum (valueCounts : list (string * nat)) (key : string) :
  sum_list (count_value valueCounts key).*2 = S (sum_list valueCounts.*2).
Proof.
  unfold count_value. induction valueCounts as [|[k c] m IH]; [reflexivity|].
  cbn [dict_get dict_set]. destruct (String.eqb k key).
  - change (default 0%nat (Some c)) with c. rewrite !fmap_cons. cbn [snd].
    change (sum_list ((c + 1)%nat :: m.*2)) with (c + 1 + sum_list m.*2)%nat.
    change (sum_list (c :: m.*2)) with (c + sum_list m.*2)%nat. lia.
  - rewrite !fmap_cons. cbn [snd].
    match goal with
    | |- sum_list (c :: ?l) = _ => change (sum_list (c :: l)) with (c + sum_list l)%nat
    end.
    change (sum_list (c :: m.*2)) with (c + sum_list m.*2)%nat. rewrite IH. lia.
Qed.

Lemma count_value_positive (valueCounts : list (string * nat)) (key : string) :
  Forall (fun c => (1 <= c)%nat) valueCounts.*2 ->
  Forall (fun c => (1 <= c)%nat) (count_value valueCounts key).*2.
Proof.
  unfold count_value. induction valueCounts as [|[k c] m IH]; intros Hm.
  - cbn. repeat constructor.
  - cbn [dict_get dict_set]. rewrite fmap_cons in Hm. apply Forall_cons in Hm as [Hc Hm].
    destruct (String.eqb k key).
    + rewrite fmap_cons. constructor; [cbn [snd]; lia | exact Hm].
    + rewrite fmap_cons. constructor; [exact Hc | exact (IH Hm)].
Qed.

Lemma count_values (keys : list string) (valueCounts : list (string * nat)) :
  Forall (fun c => (1 <= c)%nat) valueCounts.*2 ->
  let counted := fold_left count_value keys valueCounts in
  Forall (fun c => (1 <= c)%nat) counted.*2
  /\ sum_list counted.*2 = (sum_list valueCounts.*2 + length keys)%nat.
Proof.
  revert valueCounts. induction keys as [|key keys IH]; intros m Hm; cbn [fold_left length].
  - split; [exact Hm | lia].
  - destruct (IH _ (count_value_positive m key Hm)) as [Hpos Hsum].
    split; [exact Hpos|]. rewrite Hsum, count_value_sum. lia.
Qed.

Section Distribution.
Context `{Host}.

Lemma profileColumn_distribution_eq (col : ColumnInfo.t) (values : list Value)
    (profile : ColumnProfile.t) :
  profileColumn col values = Ok profile ->
  ColumnProfile.distribution profile
  = slice0 10
      (Array_sort
         (fun a b => (Num.of_nat (DistEntry.count b) - Num.of_nat (DistEntry.count a))%js)
         (map (fun e : string * nat =>
                 {| DistEntry.value := display_value e.1;
                    DistEntry.count := e.2;
                    DistEntry.percentage :=
                      (Num.of_nat e.2 / Num.of_nat (length values) * num 100)%js |})
              (fold_left count_value
                 (map ToString (filter (fun v => nonNull v = true) values)) []))).
Proof.
  assert (Efold : forall (l : list Value) m,
            fold_left (fun m v => count_value m (ToString v)) l m
            = fold_left count_value (map ToString l) m).
  { induction l as [|v l IH]; intros m; [reflexivity | apply IH]. }
  unfold profileColumn. rewrite Efold.
  destruct (ColumnInfo.type col);
    try (intros [= <-]; reflexivity).
  destruct (0 <? _)%nat; [|intros [= <-]; reflexivity].
  destruct (histogram_of _ _ _); cbn [bind]; [|discriminate].
  intros [= <-]. reflexivity.
Qed.

(** X11: the distribution of a profile lists at most ten values, most
    frequent first; each entry counts at least one cell, shows at most 33
    characters and gives its share of all the cells of the column, empty ones
    included; and the counts together do not exceed the non-empty cells. *)
Theorem profileColumn_distribution (col : ColumnInfo.t) (values : list Value)
    (profile : ColumnProfile.t) :
  profileColumn col values = Ok profile ->
  let distribution := ColumnProfile.distribution profile in
  (length distribution <= 10)%nat
  /\ StronglySorted (fun a b => (DistEntry.count b <= DistEntry.count a)%nat) distribution
  /\ Forall (fun e =>
               (1 <= DistEntry.count e)%nat
               /\ (String.length (DistEntry.value e) <= 33)%nat
               /\ DistEntry.percentage e
                  = (Num.of_nat (DistEntry.count e) / Num.of_nat (length values)
                     * num 100)%js)
            distribution
  /\ (sum_list_with DistEntry.count distribution
      <= length (filter (fun v => nonNull v = true) values))%nat.
Proof.
  intros Hprofile. cbn zeta. rewrite (profileColumn_distribution_eq _ _ _ Hprofile).
  set (keys := map ToString _).
  set (mk := fun e : string * nat => _).
  set (cmp := fun a b : DistEntry.t => _).
  destruct (count_values keys [] ltac:(constructor)) as [Hpos Hsum].
  cbn zeta in Hpos, Hsum. set (counted := fold_left count_value keys []) in *.
  assert (Hcounts : DistEntry.count <$> (map mk counted) = counted.*2).
  { unfold mk. now rewrite <- list_fmap_compose. }
  unfold slice0. split; [rewrite length_take; lia|]. split; [|split].
  - apply StronglySorted_take.
    apply (StronglySorted_impl (may_precede cmp)).
    + intros a b. unfold may_precede, cmp. rewrite sub_gt0, lt_of_nat, Nat.ltb_ge. auto.
    + apply (Sorted_strongly cmp (fun _ => True)).
      * intros x y z _. unfold may_precede, cmp. rewrite !sub_gt0, !lt_of_nat, !Nat.ltb_ge. lia.
      * apply Forall_forall. auto.
      * apply Array_sort_sorted. intros x y. unfold may_precede, cmp.
        rewrite !sub_gt0. apply lt_asym.
  - apply Forall_forall. intros e He.
    apply (subseteq_take 10), Array_sort_elem, list_elem_of_In, in_map_iff in He
      as ([k c] & <- & Hkc).
    cbn [mk DistEntry.count DistEntry.value DistEntry.percentage fst snd].
    split; [|split; [apply display_value_length | reflexivity]].
    eapply Forall_forall in Hpos; [exact Hpos|].
    apply list_elem_of_fmap. exists (k, c). split; [reflexivity | now apply list_elem_of_In].
  - etransitivity; [apply sum_list_with_take|].
    rewrite (Array_sort_perm cmp).
    assert (E : forall l, sum_list_with DistEntry.count (map mk l) = sum_list l.*2).
    { induction l as [|e l IH]; [reflexivity|].
      cbn [map sum_list_with]. rewrite IH. reflexivity. }
    rewrite E, Hsum. unfold keys. rewrite length_map. cbn. lia.
Qed.

End Distribution.

(* ================================================================== *)
(** ** The profile of a sheet *)

Lemma length_flat_map_le {A B : Type} (f : A -> list B) (g : A -> nat) (l : list A) :
  (forall x, x ∈ l -> (length (f x) <= g x)%nat) ->
  (length (flat_map f l) <= sum_list_with g l)%nat.
Proof.
  induction l as [|x l IH]; intros Hl; [reflexivity|].
  cbn [flat_map sum_list_with]. rewrite length_app.
  pose proof (Hl x ltac:(apply list_elem_of_here)).
  pose proof (IH (fun y Hy => Hl y (list_elem_of_further _ _ _ Hy))). lia.
Qed.

Lemma sum_list_with_one {A : Type} (l : list A) :
  sum_list_with (fun _ => 1%nat) l = length l.
Proof. induction l as [|x l IH]; [reflexivity|]. cbn [sum_list_with length]. now rewrite IH. Qed.

Lemma sum_pairs (n a len : nat) :
  (a + len = n)%nat ->
  (2 * sum_list_with (fun i => n - (i + 1)) (seq a len) = len * (len - 1))%nat.
Proof.
  revert a. induction len as [|len IH]; intros a Hn; [reflexivity|].
  cbn [seq sum_list_with]. specialize (IH (S a) ltac:(lia)). nia.
Qed.

Section SheetProfile.
Context `{Host}.

Lemma profileColumn_fields (col : ColumnInfo.t) (values : list Value)
    (profile : ColumnProfile.t) :
  profileColumn col values = Ok profile ->
  ColumnProfile.name profile = ColumnInfo.name col
  /\ ColumnProfile.type profile = ColumnInfo.type col
  /\ ColumnProfile.totalCount profile = length values
  /\ ColumnProfile.uniqueCount profile = ColumnInfo.uniqueValues col
  /\ ColumnProfile.nullCount profile = ColumnInfo.nullCount col.
Proof.
  unfold profileColumn.
  destruct (ColumnInfo.type col) eqn:Et;
    try (intros [= <-]; cbn; rewrite ?Et; repeat split; reflexivity).
  destruct (0 <? _)%nat; [|intros [= <-]; cbn; rewrite ?Et; repeat split; reflexivity].
  destruct (histogram_of _ _ _); cbn [bind]; [|discriminate].
  intros [= <-]. cbn. rewrite ?Et. repeat split; reflexivity.
Qed.

Lemma profile_columns (sheet : ParsedData.t) (cols : list ColumnInfo.t)
    (acc profiles : list ColumnProfile.t) :
  foldM (fun col columns =>
           let values := map (fun row => row_get row (ColumnInfo.name col))
                             (ParsedData.rows sheet) in
           let! p := profileColumn col values in
           Ok (columns ++ [p]))
        cols acc = Ok profiles ->
  exists ps, profiles = acc ++ ps
             /\ Forall2 (fun col p => profileColumn col (column_values sheet col) = Ok p)
                        cols ps.
Proof.
  revert acc. induction cols as [|col cols IH]; intros acc; cbn [foldM].
  - intros [= <-]. exists []. split; [now rewrite app_nil_r | constructor].
  - fold (column_values sheet col).
    destruct (profileColumn col (column_values sheet col)) as [p|e] eqn:E; cbn [bind];
      [|discriminate].
    intros (ps & -> & Hps)%IH. exists (p :: ps). split; [now rewrite <- app_assoc|].
    now constructor.
Qed.

Lemma correlate_length (sheet : ParsedData.t) (col1 col2 : ColumnInfo.t) :
  (length (correlate sheet col1 col2) <= 1)%nat.
Proof. unfold correlate. destruct (_ && _); cbn; lia. Qed.

(** X12: the profile of a sheet has one column profile for each column, in
    column order, with the column's name and type and the number of rows as
    total count; its correlation pairs are listed by falling absolute
    correlation, no pair being followed by one of larger absolute value; and
    [n] numeric columns give at most [n (n - 1) / 2] pairs. *)
Theorem generateDataProfile_shape (sheet : ParsedData.t) (profile : DataProfile.t) :
  generateDataProfile sheet = Ok profile ->
  Forall2 (fun col p =>
             profileColumn col (column_values sheet col) = Ok p
             /\ ColumnProfile.name p = ColumnInfo.name col
             /\ ColumnProfile.type p = ColumnInfo.type col
             /\ ColumnProfile.totalCount p = length (ParsedData.rows sheet))
          (ParsedData.columns sheet) (DataProfile.columns profile)
  /\ Sorted (fun a b => (Num.abs (CorrelationPair.correlation a)
                         <? Num.abs (CorrelationPair.correlation b))%js = false)
            (DataProfile.correlations profile)
  /\ (2 * length (DataProfile.correlations profile)
      <= length (numeric_columns sheet) * (length (numeric_columns sheet) - 1))%nat.
Proof.
  unfold generateDataProfile.
  destruct (foldM _ _ _) as [columns|e] eqn:E; cbn [bind]; [|discriminate].
  intros [= <-]. cbn [DataProfile.columns DataProfile.correlations].
  apply profile_columns in E as (ps & -> & Hps). rewrite app_nil_l.
  split; [|split].
  - eapply Forall2_impl; [exact Hps|]. intros col p Hp. split; [exact Hp|].
    destruct (profileColumn_fields _ _ _ Hp) as (Hn & Ht & Hc & _).
    split; [exact Hn|]. split; [exact Ht|].
    rewrite Hc. unfold column_values. apply length_map.
  - unfold correlations_of.
    eapply Sorted_impl; [|apply Array_sort_sorted].
    + intros a b. unfold may_precede. now rewrite sub_gt0.
    + intros x y. unfold may_precede. rewrite !sub_gt0. apply lt_asym.
  - unfold correlations_of. rewrite Array_sort_length. fold (numeric_columns sheet).
    unfold correlation_loop. set (n := length (numeric_columns sheet)).
    rewrite <- (sum_pairs n 0 n eq_refl).
    apply Nat.mul_le_mono_l. apply length_flat_map_le. intros i _.
    etransitivity; [apply (length_flat_map_le _ (fun _ => 1%nat))|].
    + intros j _. destruct (_ !! i); [|cbn; lia]. destruct (_ !! j); [|cbn; lia].
      apply correlate_length.
    + now rewrite sum_list_with_one, length_seq.
Qed.

End SheetProfile.

(* ================================================================== *)
(** ** The least and the largest of a list of numbers *)

Lemma le_refl (a : JSNum) : isNaN a = false -> (a <=? a)%js = true.
Proof. destruct a as [| | |q]; try reflexivity; [discriminate|]. intros _. apply le_Fin. lra. Qed.

Lemma le_trans (a b c : JSNum) :
  (a <=? b)%js = true -> (b <=? c)%js = true -> (a <=? c)%js = true.
Proof.
  destruct a as [| | |x], b as [| | |y], c as [| | |z]; try reflexivity; try discriminate.
  rewrite !le_Fin. intros; lra.
Qed.

Lemma lt_le (a b : JSNum) : (a <? b)%js = true -> (a <=? b)%js = true.
Proof.
  destruct a as [| | |x], b as [| | |y]; try reflexivity; try discriminate.
  rewrite lt_Fin, le_Fin. intros; lra.
Qed.

Lemma le_PInf (a : JSNum) : (PInf <=? a)%js = true -> a = PInf.
Proof. destruct a; try discriminate. reflexivity. Qed.

Lemma le_NInf (a : JSNum) : (a <=? NInf)%js = true -> a = NInf.
Proof. destruct a; try discriminate. reflexivity. Qed.

Lemma min_spec (a b : JSNum) :
  isNaN a = false -> isNaN b = false ->
  isNaN (Num.min a b) = false
  /\ (Num.min a b = a \/ Num.min a b = b)
  /\ (Num.min a b <=? a)%js = true /\ (Num.min a b <=? b)%js = true.
Proof.
  intros Ha Hb.
  assert (E : Num.min a b = if (b <? a)%js then b else a).
  { destruct a, b; try discriminate; reflexivity. }
  rewrite E. destruct (b <? a)%js eqn:Hlt.
  - repeat split; [exact Hb | now right | now apply lt_le | now apply le_refl].
  - repeat split; [exact Ha | now left | now apply le_refl | now apply not_lt_le].
Qed.

Lemma max_spec (a b : JSNum) :
  isNaN a = false -> isNaN b = false ->
  isNaN (Num.max a b) = false
  /\ (Num.max a b = a \/ Num.max a b = b)
  /\ (a <=? Num.max a b)%js = true /\ (b <=? Num.max a b)%js = true.
Proof.
  intros Ha Hb.
  assert (E : Num.max a b = if (a <? b)%js then b else a).
  { destruct a, b; try discriminate; reflexivity. }
  rewrite E. destruct (a <? b)%js eqn:Hlt.
  - repeat split; [exact Hb | now right | now apply lt_le | now apply le_refl].
  - repeat split; [exact Ha | now left | now apply le_refl | now apply not_lt_le].
Qed.

Lemma fold_min (l : list JSNum) (a : JSNum) :
  isNaN a = false -> Forall (fun v => isNaN v = false) l ->
  let r := fold_left Num.min l a in
  isNaN r = false /\ (r = a \/ r ∈ l) /\ (r <=? a)%js = true
  /\ forall v, v ∈ l -> (r <=? v)%js = true.
Proof.
  intros Ha Hl. revert a Ha. induction Hl as [|x l Hx _ IH]; intros a Ha; cbn [fold_left].
  - repeat split; [exact Ha | now left | now apply le_refl |].
    intros v Hv. now apply elem_of_nil in Hv.
  - destruct (min_spec a x Ha Hx) as (Hm & Hor & Hma & Hmx).
    destruct (IH _ Hm) as (Hr & Hin & Hrm & Hall). cbn zeta in *.
    repeat split; [exact Hr | | exact (le_trans _ _ _ Hrm Hma) |].
    + destruct Hin as [->|Hin]; [|right; now apply list_elem_of_further].
      destruct Hor as [->| ->]; [now left | right; apply list_elem_of_here].
    + intros v [->|Hv]%elem_of_cons; [exact (le_trans _ _ _ Hrm Hmx) | now apply Hall].
Qed.

Lemma fold_max (l : list JSNum) (a : JSNum) :
  isNaN a = false -> Forall (fun v => isNaN v = false) l ->
  let r := fold_left Num.max l a in
  isNaN r = false /\ (r = a \/ r ∈ l) /\ (a <=? r)%js = true
  /\ forall v, v ∈ l -> (v <=? r)%js = true.
Proof.
  intros Ha Hl. revert a Ha. induction Hl as [|x l Hx _ IH]; intros a Ha; cbn [fold_left].
  - repeat split; [exact Ha | now left | now apply le_refl |].
    intros v Hv. now apply elem_of_nil in Hv.
  - destruct (max_spec a x Ha Hx) as (Hm & Hor & Hma & Hmx).
    destruct (IH _ Hm) as (Hr & Hin & Hrm & Hall). cbn zeta in *.
    repeat split; [exact Hr | | exact (le_trans _ _ _ Hma Hrm) |].
    + destruct Hin as [->|Hin]; [|right; now apply list_elem_of_further].
      destruct Hor as [->| ->]; [now left | right; apply list_elem_of_here].
    + intros v [->|Hv]%elem_of_cons; [exact (le_trans _ _ _ Hmx Hrm) | now apply Hall].
Qed.

(** [Math.min(...l)] and [Math.max(...l)] of a list that is not empty and
    holds no [NaN] are elements of the list and bound it. *)
Lemma min_max_list (l : list JSNum) :
  l <> [] -> Forall (fun v => isNaN v = false) l ->
  Num.min_list l ∈ l /\ Num.max_list l ∈ l
  /\ forall v, v ∈ l -> (Num.min_list l <=? v)%js = true /\ (v <=? Num.max_list l)%js = true.
Proof.
  intros Hne Hl. unfold Num.min_list, Num.max_list.
  destruct (fold_min l PInf eq_refl Hl) as (_ & Hmin & _ & Hle).
  destruct (fold_max l NInf eq_refl Hl) as (_ & Hmax & _ & Hge). cbn zeta in *.
  destruct l as [|x l]; [congruence|].
  assert (Hx : x ∈ x :: l) by apply list_elem_of_here.
  split; [|split].
  - destruct Hmin as [E|Hin]; [|exact Hin].
    pose proof (Hle x Hx) as Hpx. rewrite E in Hpx. apply le_PInf in Hpx. rewrite E, <- Hpx.
    exact Hx.
  - destruct Hmax as [E|Hin]; [|exact Hin].
    pose proof (Hge x Hx) as Hpx. rewrite E in Hpx. apply le_NInf in Hpx. rewrite E, <- Hpx.
    exact Hx.
  - intros v Hv. split; [now apply Hle | now apply Hge].
Qed.

(* ================================================================== *)
(** ** The statistics of a column *)

Lemma Set_add_length (set : list Value) (v : Value) :
  (length set <= length (Set_add set v) <= S (length set))%nat.
Proof.
  unfold Set_add. destruct (existsb _ set); [lia|]. rewrite length_app. cbn. lia.
Qed.

Lemma Set_size_bounds (values : list Value) :
  (Set_size values <= length values)%nat /\ (Set_size values = 0%nat <-> values = []).
Proof.
  unfold Set_size.
  assert (Hgen : forall l set,
            (length set <= length (fold_left Set_add l set) <= length set + length l)%nat
            /\ (l <> [] -> (0 < length (fold_left Set_add l set))%nat)).
  { induction l as [|v l IH]; intros set; cbn [fold_left length].
    - split; [lia | congruence].
    - destruct (IH (Set_add set v)) as [Hb _]. pose proof (Set_add_length set v) as Hs.
      split; [lia|]. intros _.
      assert (0 < length (Set_add set v))%nat; [|lia].
      unfold Set_add. destruct (existsb _ set) eqn:E.
      + destruct set; [discriminate | cbn; lia].
      + rewrite length_app. cbn. lia. }
  destruct (Hgen values []) as [Hb Hpos]. cbn [length] in Hb. split; [lia|]. split.
  - intros E. destruct values as [|v l]; [reflexivity|].
    specialize (Hpos ltac:(discriminate)). lia.
  - now intros ->.
Qed.

Section ColumnStatistics.
Context `{Host}.

Lemma detectColumnType_number (values : list Value) :
  detectColumnType values = Ok TNumber ->
  exceeds_80 (numberCount values) (length (nonNullValues values)).
Proof.
  unfold detectColumnType, exceeds_80.
  fold (nonNullValues values). fold (booleanCount values). fold (numberCount values).
  destruct (Nat.eqb_spec (length (nonNullValues values)) 0) as [|Hn]; [discriminate|].
  assert (Hpos : (0 < length (nonNullValues values))%nat) by lia.
  rewrite !(ratio_gt_nat _ _ Hpos).
  destruct (4 * _ <? 5 * booleanCount values)%nat; [discriminate|].
  destruct (Nat.ltb_spec (4 * length (nonNullValues values)) (5 * numberCount values));
    [auto|].
  destruct (filterM _ _); cbn [bind]; [|discriminate].
  rewrite (ratio_gt_nat _ _ Hpos). destruct (_ <? _)%nat; discriminate.
Qed.

(** A column typed number holds a value that converts to a number. *)
Lemma number_column_values (values : list Value) :
  detectColumnType values = Ok TNumber -> profile_numeric_values values <> [].
Proof.
  intros Ht%detectColumnType_number. unfold exceeds_80, numberCount in Ht.
  destruct (filter (fun v => number_like v = true) (nonNullValues values)) as [|v l] eqn:E.
  - cbn in Ht. lia.
  - assert (Hv : v ∈ filter (fun v => number_like v = true) (nonNullValues values)).
    { rewrite E. apply list_elem_of_here. }
    apply list_elem_of_filter in Hv as [Hnum Hv].
    unfold number_like in Hnum. apply andb_true_iff in Hnum as [Hnum _].
    apply negb_true_iff in Hnum.
    intros Hnil.
    assert (Hin : Number v ∈ profile_numeric_values values).
    { unfold profile_numeric_values. apply list_elem_of_filter. split; [exact Hnum|].
      apply list_elem_of_fmap. now exists v. }
    rewrite Hnil in Hin. now apply elem_of_nil in Hin.
Qed.

Lemma analyzeColumn_cells (name : string) (values : list Value) (col : ColumnInfo.t) :
  analyzeColumn name values = Ok col ->
  let nonEmpty := filter (fun v => nonNull v = true) values in
  ColumnInfo.name col = name
  /\ detectColumnType values = Ok (ColumnInfo.type col)
  /\ (ColumnInfo.nullCount col + length nonEmpty = length values)%nat
  /\ (ColumnInfo.uniqueValues col <= length nonEmpty)%nat
  /\ (ColumnInfo.uniqueValues col = 0%nat <-> nonEmpty = []).
Proof.
  intros Hcol nonEmpty. unfold analyzeColumn in Hcol.
  destruct (detectColumnType values) as [type|e]; cbn [bind] in Hcol; [|discriminate].
  fold nonEmpty in Hcol.
  pose proof (length_filter (fun v => nonNull v = true) values) as Hlen.
  destruct (Set_size_bounds nonEmpty) as [Hle Hzero].
  assert (Hfields : ColumnInfo.name col = name /\ ColumnInfo.type col = type
                    /\ ColumnInfo.uniqueValues col = Set_size nonEmpty
                    /\ ColumnInfo.nullCount col = (length values - length nonEmpty)%nat).
  { destruct type; try (injection Hcol as <-; repeat split; reflexivity).
    destruct (0 <? _)%nat; injection Hcol as <-; repeat split; reflexivity. }
  destruct Hfields as (-> & -> & -> & ->).
  split; [reflexivity|]. split; [reflexivity|]. split; [fold nonEmpty in Hlen; lia|].
  split; [exact Hle | exact Hzero].
Qed.

(** X13: what [analyzeColumn] counts.  The column gets the name passed and the
    type [detectColumnType] infers; its null count and its non-empty cells add
    up to the number of cells; its unique values are at most the non-empty
    cells, and there are none exactly when every cell is empty. *)
Theorem analyzeColumn_counts (name : string) (values : list Value) (col : ColumnInfo.t) :
  analyzeColumn name values = Ok col ->
  let nonEmpty := filter (fun v => nonNull v = true) values in
  ColumnInfo.name col = name
  /\ detectColumnType values = Ok (ColumnInfo.type col)
  /\ (ColumnInfo.nullCount col + length nonEmpty = length values)%nat
  /\ (ColumnInfo.uniqueValues col <= length nonEmpty)%nat
  /\ (ColumnInfo.uniqueValues col = 0%nat <-> nonEmpty = []).
Proof. apply analyzeColumn_cells. Qed.

Lemma analyzeColumn_numbers (name : string) (values : list Value) (col : ColumnInfo.t) :
  analyzeColumn name values = Ok col ->
  let numbers := profile_numeric_values values in
  (ColumnInfo.type col = TNumber ->
   numbers <> []
   /\ exists lo hi,
        ColumnInfo.min col = Some lo /\ ColumnInfo.max col = Some hi
        /\ lo ∈ numbers /\ hi ∈ numbers
        /\ (forall v, v ∈ numbers -> (lo <=? v)%js = true /\ (v <=? hi)%js = true)
        /\ ColumnInfo.sum col = Some (Num.sum numbers)
        /\ ColumnInfo.avg col = Some (Num.sum numbers / Num.of_nat (length numbers))%js)
  /\ (ColumnInfo.type col <> TNumber ->
      ColumnInfo.min col = None /\ ColumnInfo.max col = None
      /\ ColumnInfo.sum col = None /\ ColumnInfo.avg col = None).
Proof.
  intros Hcol numbers. unfold analyzeColumn in Hcol.
  destruct (detectColumnType values) as [type|e] eqn:Et; cbn [bind] in Hcol; [|discriminate].
  fold (profile_numeric_values values) in Hcol. fold numbers in Hcol.
  destruct type; try (injection Hcol as <-; split; [discriminate | repeat split; reflexivity]).
  pose proof (number_column_values values Et) as Hne. fold numbers in Hne.
  destruct (Nat.ltb_spec 0 (length numbers)) as [_|Hempty].
  2:{ destruct numbers; [congruence | cbn in Hempty; lia]. }
  injection Hcol as <-. split; [|now intros []]. intros _. split; [exact Hne|].
  assert (Hnan : Forall (fun v => isNaN v = false) numbers).
  { apply Forall_forall. intros v Hv. unfold numbers, profile_numeric_values in Hv.
    now apply list_elem_of_filter in Hv as [Hv _]. }
  destruct (min_max_list numbers Hne Hnan) as (Hmin & Hmax & Hb).
  exists (Num.min_list numbers), (Num.max_list numbers).
  cbn [ColumnInfo.min ColumnInfo.max ColumnInfo.sum ColumnInfo.avg].
  repeat split; try reflexivity; try assumption; now apply Hb.
Qed.


(** X14: a column gets numeric statistics exactly when it is typed number.
    Its minimum and maximum are then two of its numeric values and bound all
    of them, its sum is their sum and its average the sum over their number;
    a column of another type has none of the four. *)
Theorem analyzeColumn_statistics (name : string) (values : list Value) (col : ColumnInfo.t) :
  analyzeColumn name values = Ok col ->
  let numbers := profile_numeric_values values in
  (ColumnInfo.type col = TNumber ->
   numbers <> []
   /\ exists lo hi,
        ColumnInfo.min col = Some lo /\ ColumnInfo.max col = Some hi
        /\ lo ∈ numbers /\ hi ∈ numbers
        /\ (forall v, v ∈ numbers -> (lo <=? v)%js = true /\ (v <=? hi)%js = true)
        /\ ColumnInfo.sum col = Some (Num.sum numbers)
        /\ ColumnInfo.avg col = Some (Num.sum numbers / Num.of_nat (length numbers))%js)
  /\ (ColumnInfo.type col <> TNumber ->
      ColumnInfo.min col = None /\ ColumnInfo.max col = None
      /\ ColumnInfo.sum col = None /\ ColumnInfo.avg col = None).
Proof. apply analyzeColumn_numbers. Qed.

End ColumnStatistics.

(* ================================================================== *)
(** ** From the parsed column to its histogram *)

Section ParsedHistogram.
Context `{Host}.


End ParsedHistogram.

(* ================================================================== *)
(** ** Parsing a workbook *)

Lemma mapM_Ok {A B : Type} (f : A -> result B) (l : list A) (r : list B) :
  mapM f l = Ok r -> Forall2 (fun x y => f x = Ok y) l r.
Proof.
  revert r. induction l as [|x l IH]; intros r; cbn [mapM].
  - intros [= <-]. constructor.
  - destruct (f x) as [y|e] eqn:E; cbn [bind]; [|discriminate].
    destruct (mapM f l) as [r'|e]; cbn [bind]; [|discriminate].
    intros [= <-]. constructor; [exact E | now apply IH].
Qed.

Lemma mapM_total {A B : Type} (f : A -> result B) (l : list A) :
  (forall x, x ∈ l -> exists y, f x = Ok y) -> exists r, mapM f l = Ok r.
Proof.
  induction l as [|x l IH]; intros Hl; cbn [mapM]; [now eexists|].
  destruct (Hl x ltac:(apply list_elem_of_here)) as [y ->]. cbn [bind].
  destruct (IH (fun z Hz => Hl z (list_elem_of_further _ _ _ Hz))) as [r ->].
  cbn [bind]. now eexists.
Qed.

Lemma mapM_throw {A B : Type} (f : A -> result B) (l : list A) (x : A) (e : error) :
  x ∈ l -> f x = Throw e -> exists e', mapM f l = Throw e'.
Proof.
  intros Hx Hf. induction l as [|z l IH]; [now apply elem_of_nil in Hx|].
  cbn [mapM]. apply elem_of_cons in Hx as [<-|Hx].
  - rewrite Hf. cbn [bind]. now eexists.
  - destruct (f z); cbn [bind]; [|now eexists].
    destruct (IH Hx) as [e' ->]. cbn [bind]. now eexists.
Qed.

Lemma Object_keys_perm {A : Type} (d : list (string * A)) : Object_keys d ≡ₚ d.*1.
Proof. unfold Object_keys. now rewrite Object_entries_perm. Qed.

Section Workbook.
Context `{Host}.

(** [analyzeColumn] returns exactly when the type inference does. *)
Lemma analyzeColumn_returns (name : string) (values : list Value) :
  (exists col, analyzeColumn name values = Ok col)
  <-> exists t, detectColumnType values = Ok t.
Proof.
  unfold analyzeColumn. destruct (detectColumnType values) as [t|e]; cbn [bind].
  - split; [now eexists|]. intros _.
    destruct t; try (now eexists). destruct (0 <? _)%nat; now eexists.
  - split; intros [x Hx]; discriminate.
Qed.

Lemma parse_sheet_inv (sheetName : string) (jsonData : list Row) (sheet : ParsedData.t) :
  parse_sheet sheetName jsonData = Ok sheet ->
  ParsedData.sheetName sheet = sheetName
  /\ ParsedData.rows sheet = jsonData
  /\ ParsedData.rowCount sheet = length jsonData
  /\ ParsedData.headers sheet = sheet_headers jsonData
  /\ ParsedData.columnCount sheet = length (sheet_headers jsonData)
  /\ Forall2 (fun header col => analyzeColumn header (sheet_column jsonData header) = Ok col)
             (sheet_headers jsonData) (ParsedData.columns sheet).
Proof.
  unfold parse_sheet. destruct jsonData as [|first rest].
  - intros [= <-]. repeat split. constructor.
  - destruct (mapM _ _) as [columns|e] eqn:E; cbn [bind]; [|discriminate].
    intros [= <-]. repeat split. exact (mapM_Ok _ _ _ E).
Qed.

(** X16: the sheet the parser builds from the rows of a worksheet.  It keeps
    the rows, counts them, takes its headers from the keys of the first row
    and has one column for each header, in order and under its name, which is
    the analysis of the cells the rows hold under that name; no column has
    more empty cells than the sheet has rows; and the column names are
    distinct, as the keys of the first row are. *)
Theorem parse_sheet_shape (sheetName : string) (jsonData : list Row) (sheet : ParsedData.t) :
  parse_sheet sheetName jsonData = Ok sheet ->
  ParsedData.rows sheet = jsonData
  /\ ParsedData.rowCount sheet = length jsonData
  /\ ParsedData.headers sheet = sheet_headers jsonData
  /\ ParsedData.columnCount sheet = length (ParsedData.headers sheet)
  /\ ColumnInfo.name <$> ParsedData.columns sheet = ParsedData.headers sheet
  /\ (forall col, col ∈ ParsedData.columns sheet ->
        analyzeColumn (ColumnInfo.name col) (column_values sheet col) = Ok col
        /\ (ColumnInfo.nullCount col <= ParsedData.rowCount sheet)%nat)
  /\ (forall first rest, jsonData = first :: rest -> NoDup first.*1 ->
        NoDup (ColumnInfo.name <$> ParsedData.columns sheet)).
Proof.
  intros (_ & Hrows & Hcount & Hheaders & Hcc & Hcols)%parse_sheet_inv.
  assert (Hnames : ColumnInfo.name <$> ParsedData.columns sheet = sheet_headers jsonData).
  { clear -Hcols. induction Hcols as [|header col headers cols Hc _ IH]; [reflexivity|].
    rewrite fmap_cons, IH. f_equal.
    now destruct (analyzeColumn_cells _ _ _ Hc) as (-> & _). }
  split; [exact Hrows|]. split; [exact Hcount|]. split; [exact Hheaders|].
  split; [now rewrite Hheaders|]. split; [now rewrite Hheaders|]. split.
  - intros col Hcol.
    assert (Hc : analyzeColumn (ColumnInfo.name col) (column_values sheet col) = Ok col).
    { unfold column_values. rewrite Hrows. fold (sheet_column jsonData (ColumnInfo.name col)).
      clear -Hcols Hcol. induction Hcols as [|header c headers cols Hc _ IH];
        [now apply elem_of_nil in Hcol|].
      apply elem_of_cons in Hcol as [->|Hcol]; [|now apply IH].
      now destruct (analyzeColumn_cells _ _ _ Hc) as (-> & _). }
    split; [exact Hc|].
    destruct (analyzeColumn_cells _ _ _ Hc) as (_ & _ & Hsum & _).
    rewrite Hcount, <- Hrows.
    assert (Hlen : length (column_values sheet col) = length (ParsedData.rows sheet))
      by apply length_map.
    lia.
  - intros first rest -> Hnd. rewrite Hnames. cbn [sheet_headers].
    now rewrite Object_keys_perm.
Qed.

Lemma parse_sheet_returns (sheetName : string) (jsonData : list Row) :
  (exists sheet, parse_sheet sheetName jsonData = Ok sheet)
  <-> forall header, header ∈ sheet_headers jsonData ->
        exists t, detectColumnType (sheet_column jsonData header) = Ok t.
Proof.
  unfold parse_sheet. destruct jsonData as [|first rest].
  - split; [|now eexists]. intros _ header Hh. now apply elem_of_nil in Hh.
  - cbn [sheet_headers]. fold (sheet_column (first :: rest)). split.
    + intros [sheet Hs] header Hh.
      destruct (mapM _ _) as [columns|e] eqn:E; cbn [bind] in Hs; [|discriminate].
      apply mapM_Ok in E. apply list_elem_of_lookup in Hh as [i Hi].
      destruct (Forall2_lookup_l _ _ _ _ _ E Hi) as (col & _ & Hc).
      exact (proj1 (analyzeColumn_returns header _) (ex_intro _ col Hc)).
    + intros Hall.
      destruct (mapM_total
                  (fun header => analyzeColumn header (sheet_column (first :: rest) header))
                  (Object_keys first)) as [columns E].
      { intros header Hh. exact (proj2 (analyzeColumn_returns header _) (Hall header Hh)). }
      unfold sheet_column in E. rewrite E. cbn [bind]. now eexists.
Qed.

(** X17: how [parseExcelFile] settles.  It resolves exactly when the type
    inference returns on every column of every sheet; the file it resolves with
    carries the name and the time given and the sheets that have rows, each
    the parse of a worksheet; whatever fails, the rejection carries the one
    message; and a column that reaches the date stage while holding a number or
    a boolean is enough to reject the whole file. *)
Theorem parseExcelFile_outcome (fileName : string) (workbook : list (string * list Row))
    (now : JSNum) :
  ((exists file, parseExcelFile fileName workbook now = Resolved file)
   <-> forall name jsonData header,
         (name, jsonData) ∈ workbook -> header ∈ sheet_headers jsonData ->
         exists t, detectColumnType (sheet_column jsonData header) = Ok t)
  /\ (forall file,
        parseExcelFile fileName workbook now = Resolved file ->
        ExcelFile.fileName file = fileName
        /\ ExcelFile.uploadedAt file = now
        /\ forall sheet,
             sheet ∈ ExcelFile.sheets file
             <-> (0 < ParsedData.rowCount sheet)%nat
                 /\ exists name jsonData,
                      (name, jsonData) ∈ workbook
                      /\ parse_sheet name jsonData = Ok sheet)
  /\ (forall message,
        parseExcelFile fileName workbook now = Rejected message -> message = parse_failure)
  /\ (forall name jsonData header,
        (name, jsonData) ∈ workbook -> header ∈ sheet_headers jsonData ->
        let values := sheet_column jsonData header in
        let n := length (nonNullValues values) in
        n <> 0%nat ->
        ~ exceeds_80 (booleanCount values) n ->
        ~ exceeds_80 (numberCount values) n ->
        Exists (fun v => string_or_Date v = false) (nonNullValues values) ->
        parseExcelFile fileName workbook now = Rejected parse_failure).
Proof.
  assert (Hres : (exists file, parseExcelFile fileName workbook now = Resolved file)
            <-> forall name jsonData header,
                  (name, jsonData) ∈ workbook -> header ∈ sheet_headers jsonData ->
                  exists t, detectColumnType (sheet_column jsonData header) = Ok t).
  { unfold parseExcelFile. split.
    - intros [file Hfile] name jsonData header Hin Hh.
      destruct (mapM _ workbook) as [sheets|e] eqn:E; [|discriminate].
      apply mapM_Ok in E. apply list_elem_of_lookup in Hin as [i Hi].
      destruct (Forall2_lookup_l _ _ _ _ _ E Hi) as (sheet & _ & Hs). cbn [fst snd] in Hs.
      exact (proj1 (parse_sheet_returns name jsonData) (ex_intro _ sheet Hs) header Hh).
    - intros Hall.
      destruct (mapM_total (fun sheet : string * list Row => parse_sheet sheet.1 sheet.2)
                  workbook) as [sheets ->]; [|now eexists].
      intros [name jsonData] Hin. apply parse_sheet_returns. intros header Hh.
      exact (Hall name jsonData header Hin Hh). }
  split; [exact Hres|]. split; [|split].
  - unfold parseExcelFile. intros file.
    destruct (mapM _ workbook) as [sheets|e] eqn:E; [|discriminate].
    intros [= <-]. cbn [ExcelFile.fileName ExcelFile.uploadedAt ExcelFile.sheets].
    split; [reflexivity|]. split; [reflexivity|].
    apply mapM_Ok in E. intros sheet. rewrite list_elem_of_filter. split.
    + intros [Hpos Hin]. split; [exact Hpos|].
      apply list_elem_of_lookup in Hin as [i Hi].
      destruct (Forall2_lookup_r _ _ _ _ _ E Hi) as ([name jsonData] & Hw & Hs).
      exists name, jsonData. split; [|exact Hs]. eapply list_elem_of_lookup_2, Hw.
    + intros [Hpos (name & jsonData & Hin & Hs)]. split; [exact Hpos|].
      apply list_elem_of_lookup in Hin as [i Hi].
      destruct (Forall2_lookup_l _ _ _ _ _ E Hi) as (sheet' & Hs' & Hp).
      cbn [fst snd] in Hp. rewrite Hs in Hp. injection Hp as <-.
      eapply list_elem_of_lookup_2, Hs'.
  - unfold parseExcelFile. intros message.
    destruct (mapM _ workbook); [discriminate|]. now intros [= <-].
  - intros name jsonData header Hin Hh values n Hn Hb Hc Hex.
    pose proof (detectColumnType_raises values Hn Hb Hc Hex) as Hraise.
    destruct (parseExcelFile fileName workbook now) as [file|message] eqn:E.
    + destruct (proj1 Hres (ex_intro _ file eq_refl) name jsonData header Hin Hh) as [t Ht].
      fold values in Ht. congruence.
    + unfold parseExcelFile in E. destruct (mapM _ workbook); [discriminate|].
      now injection E as <-.
Qed.

End Workbook.

(* ================================================================== *)
(** ** Chart suggestions *)

Lemma length_flat_map_const {A B : Type} (f : A -> list B) (k : nat) (l : list A) :
  (forall x, length (f x) = k) -> length (flat_map f l) = (length l * k)%nat.
Proof.
  intros Hf. induction l as [|x l IH]; [reflexivity|].
  cbn [flat_map length]. rewrite length_app, Hf, IH. lia.
Qed.

Lemma Forall_flat_map {A B : Type} (P : B -> Prop) (f : A -> list B) (l : list A) :
  (forall x, x ∈ l -> Forall P (f x)) -> Forall P (flat_map f l).
Proof.
  induction l as [|x l IH]; intros Hl; cbn [flat_map]; [constructor|].
  apply Forall_app. split; [apply Hl, list_elem_of_here|].
  apply IH. intros y Hy. now apply Hl, list_elem_of_further.
Qed.

Lemma Forall_map_elem {A B : Type} (P : B -> Prop) (f : A -> B) (l : list A) :
  (forall x, x ∈ l -> P (f x)) -> Forall P (map f l).
Proof.
  intros Hl. apply Forall_forall. intros y Hy.
  apply list_elem_of_fmap in Hy as (x & -> & Hx). now apply Hl.
Qed.

(** X18: every suggestion is drawn from the columns: at most six are made;
    the value axis is always a column typed number; a bar or a pie chart is
    over a string column of at most 20 unique values, a line or an area chart
    over a date column, and a scatter plot over a second number column. *)
Theorem generateChartSuggestions_axes (columns : list ColumnInfo.t) :
  (length (generateChartSuggestions columns) <= 6)%nat
  /\ Forall (axes_of columns) (generateChartSuggestions columns).
Proof.
  unfold generateChartSuggestions.
  fold (numericColumns columns). fold (categoryColumns columns). fold (dateColumns columns).
  unfold slice0. split; [rewrite length_take; lia|].
  apply Forall_take. rewrite !Forall_app.
  assert (Hnum2 : forall y, y ∈ take 2 (numericColumns columns) -> y ∈ numericColumns columns).
  { intros y. apply subseteq_take. }
  split; [|split; [|split; [|split]]].
  - apply Forall_flat_map. intros cat Hcat. apply Forall_map_elem. intros y Hy.
    exists cat, y. cbn. auto.
  - apply Forall_flat_map. intros date Hdate. apply Forall_map_elem. intros y Hy.
    exists date, y. cbn. auto.
  - apply Forall_flat_map. intros cat Hcat%(subseteq_take 2).
    destruct (numericColumns columns) as [|num0 nums] eqn:E; constructor; [|constructor].
    exists cat, num0. cbn. repeat split; try reflexivity; [|exact Hcat].
    rewrite E. apply list_elem_of_here.
  - destruct (dateColumns columns) as [|date0 dates] eqn:Ed; [constructor|].
    destruct (numericColumns columns) as [|num0 nums] eqn:E; constructor; [|constructor].
    exists date0, num0. cbn. repeat split; try reflexivity;
      [rewrite E | rewrite Ed]; apply list_elem_of_here.
  - destruct (numericColumns columns) as [|num0 [|num1 nums]] eqn:E;
      constructor; [|constructor].
    exists num0, num1. cbn. repeat split; try reflexivity; rewrite E;
      [apply list_elem_of_further, list_elem_of_here | apply list_elem_of_here].
Qed.

(** X19: when nothing is suggested: exactly when there is no number column,
    or there is just one and neither a category nor a date column to set it
    against. *)
Theorem generateChartSuggestions_nil (columns : list ColumnInfo.t) :
  generateChartSuggestions columns = []
  <-> numericColumns columns = []
      \/ (categoryColumns columns = [] /\ dateColumns columns = []
          /\ (length (numericColumns columns) < 2)%nat).
Proof.
  unfold generateChartSuggestions.
  fold (numericColumns columns). fold (categoryColumns columns). fold (dateColumns columns).
  destruct (numericColumns columns) as [|num0 [|num1 nums]];
    destruct (categoryColumns columns) as [|cat0 cats];
    destruct (dateColumns columns) as [|date0 dates];
    cbn [slice0 take flat_map map app length];
    try (split; [intros _; now left | reflexivity]);
    try (split; [discriminate | intros [E|(E1 & E2 & E3)]; (discriminate || (cbn in E3; lia))]).
  all: assert (Enil : forall l : list ColumnInfo.t,
                  flat_map (fun _ : ColumnInfo.t => @nil Suggestion.t) l = [])
         by (induction l as [|c l IH]; [reflexivity | exact IH]).
  - rewrite Enil. split; [intros _; now left | reflexivity].
  - rewrite !Enil. split; [intros _; now left | reflexivity].
  - rewrite !Enil. split; [intros _; now left | reflexivity].
  - split; [intros _; right; repeat split; lia | reflexivity].
Qed.

Lemma take_app_last {A : Type} (P : A -> Prop) (k : nat) (pre : list A) (x : A) :
  Forall (fun y => ~ P y) pre -> P x ->
  (exists s, s ∈ take k (pre ++ [x]) /\ P s) <-> (length pre < k)%nat.
Proof.
  intros Hpre Hx. split.
  - intros (s & Hs & Ps). destruct (Nat.lt_ge_cases (length pre) k) as [|Hge]; [assumption|].
    rewrite take_app_le in Hs by exact Hge.
    apply (subseteq_take k) in Hs. eapply Forall_forall in Hpre; [|exact Hs]. contradiction.
  - intros Hlt. exists x. split; [|exact Hx].
    apply (list_elem_of_lookup_2 _ (length pre)).
    rewrite lookup_take_lt by exact Hlt. now rewrite list_lookup_middle.
Qed.

(** X20: charts are suggested in the order bar, line, pie, area, scatter and
    the list is cut after six.  So the scatter plot of the first two number
    columns is suggested exactly when there are two number columns and fewer
    than six charts before it; and with six bar charts to make, bar charts are
    all that is suggested. *)
Theorem generateChartSuggestions_order (columns : list ColumnInfo.t) :
  let n := length (numericColumns columns) in
  let c := length (categoryColumns columns) in
  let d := length (dateColumns columns) in
  ((exists s, s ∈ generateChartSuggestions columns /\ Suggestion.type s = Scatter)
   <-> (2 <= n)%nat /\ (2 * c + 2 * d + Nat.min 2 c + Nat.min 1 d < 6)%nat)
  /\ ((6 <= c * Nat.min 2 n)%nat ->
      length (generateChartSuggestions columns) = 6%nat
      /\ Forall (fun s => Suggestion.type s = Bar) (generateChartSuggestions columns)).
Proof.
  intros n c d. unfold generateChartSuggestions.
  fold (numericColumns columns). fold (categoryColumns columns). fold (dateColumns columns).
  set (bars := flat_map _ (categoryColumns columns)).
  set (lines := flat_map _ (dateColumns columns)).
  set (pies := flat_map _ (slice0 2 (categoryColumns columns))).
  set (areas := match dateColumns columns with [] => _ | _ => _ end).
  set (scatters := match numericColumns columns with [] => _ | _ => _ end).
  assert (Hbars : length bars = (c * Nat.min 2 n)%nat
                  /\ Forall (fun s => Suggestion.type s = Bar) bars).
  { split.
    - unfold bars. apply length_flat_map_const. intros cat.
      unfold slice0. now rewrite length_map, length_take.
    - apply Forall_flat_map. intros cat _. now apply Forall_map_elem. }
  assert (Hlines : length lines = (d * Nat.min 2 n)%nat
                   /\ Forall (fun s => Suggestion.type s = Line) lines).
  { split.
    - unfold lines. apply length_flat_map_const. intros date.
      unfold slice0. now rewrite length_map, length_take.
    - apply Forall_flat_map. intros date _. now apply Forall_map_elem. }
  assert (Hpies : length pies = (Nat.min 2 c * Nat.min 1 n)%nat
                  /\ Forall (fun s => Suggestion.type s = Pie) pies).
  { unfold pies, slice0, n. destruct (numericColumns columns) as [|num0 nums].
    - split; [|apply Forall_flat_map; constructor].
      rewrite (length_flat_map_const _ 0) by reflexivity. cbn. lia.
    - split; [|apply Forall_flat_map; repeat constructor].
      rewrite (length_flat_map_const _ 1) by reflexivity. rewrite length_take.
      cbn [length]. fold c. lia. }
  assert (Hareas : length areas = (Nat.min 1 d * Nat.min 1 n)%nat
                   /\ Forall (fun s => Suggestion.type s = Area) areas).
  { unfold areas, d, n. destruct (dateColumns columns) as [|date0 dates];
      [split; [reflexivity | constructor]|].
    destruct (numericColumns columns) as [|num0 nums];
      split; cbn; first [reflexivity | repeat constructor]. }
  destruct Hbars as [Lbars Fbars]. destruct Hlines as [Llines Flines].
  destruct Hpies as [Lpies Fpies]. destruct Hareas as [Lareas Fareas].
  split.
  - assert (Hpre : Forall (fun s => ~ Suggestion.type s = Scatter)
                          (bars ++ lines ++ pies ++ areas)).
    { rewrite !Forall_app. repeat split;
        (eapply Forall_impl; [eassumption|]; intros s ->; discriminate). }
    unfold slice0. rewrite !(app_assoc _ _ scatters), <- !app_assoc.
    replace (bars ++ lines ++ pies ++ areas ++ scatters)
      with ((bars ++ lines ++ pies ++ areas) ++ scatters) by now rewrite <- !app_assoc.
    unfold scatters, n. destruct (numericColumns columns) as [|num0 [|num1 nums]] eqn:En.
    + rewrite app_nil_r. split; [|cbn; lia].
      intros (s & Hs%(subseteq_take 6) & Ps).
      eapply Forall_forall in Hpre; [|exact Hs]. contradiction.
    + rewrite app_nil_r. split; [|cbn; lia].
      intros (s & Hs%(subseteq_take 6) & Ps).
      eapply Forall_forall in Hpre; [|exact Hs]. contradiction.
    + cbv beta iota.
      match goal with
      | |- context [take 6 (_ ++ [?x])] =>
          rewrite (take_app_last (fun s => Suggestion.type s = Scatter) 6 _ x Hpre eq_refl)
      end.
      rewrite !length_app, Lbars, Llines, Lpies, Lareas. subst n. cbn [length]. lia.
  - intros Hsix. unfold slice0.
    rewrite take_app_le by lia. split.
    + rewrite length_take. lia.
    + now apply Forall_take.
Qed.

(* ================================================================== *)
(** ** Sample sheets and parsed sheets *)

Lemma length_filter_split (p : Value -> bool) (l : list Value) :
  (length (filter (fun v => p v = true) l) + length (filter (fun v => p v = false) l)
   = length l)%nat.
Proof.
  induction l as [|v l IH]; [reflexivity|].
  rewrite !filter_cons. destruct (p v).
  - rewrite decide_True by reflexivity. rewrite decide_False by discriminate.
    cbn [length]. lia.
  - rewrite decide_False by discriminate. rewrite decide_True by reflexivity.
    cbn [length]. lia.
Qed.

Section SampleSheets.
Context `{Host}.

(** X21: [createParsedData] raises a TypeError on an empty list of rows.
    Otherwise it builds a sheet of the same shape as the parser does: the
    rows, their number, the keys of the first row as headers and one column for
    each under its name, typed number or string by the first cell that is
    neither null nor undefined; and where the parser returns a sheet for the
    same rows, the two agree on headers, counts, column names and the null
    count of every column. *)
Theorem createParsedData_shape (name : string) (rows : list Row) :
  createParsedData name [] = Throw TypeError
  /\ forall sample,
       createParsedData name rows = Ok sample ->
       rows <> []
       /\ ParsedData.rows sample = rows
       /\ ParsedData.rowCount sample = length rows
       /\ ParsedData.headers sample = sheet_headers rows
       /\ ParsedData.columnCount sample = length (sheet_headers rows)
       /\ ColumnInfo.name <$> ParsedData.columns sample = sheet_headers rows
       /\ Forall (fun col =>
                    (ColumnInfo.type col = TNumber
                     <-> exists n, find (fun v => defined v) (column_values sample col)
                                   = Some (VNum n))
                    /\ (ColumnInfo.type col = TNumber \/ ColumnInfo.type col = TString)
                    /\ (ColumnInfo.nullCount col <= ParsedData.rowCount sample)%nat)
                 (ParsedData.columns sample)
       /\ forall parsed,
            parse_sheet name rows = Ok parsed ->
            ParsedData.headers parsed = ParsedData.headers sample
            /\ ParsedData.rowCount parsed = ParsedData.rowCount sample
            /\ ParsedData.columnCount parsed = ParsedData.columnCount sample
            /\ Forall2 (fun a b =>
                          ColumnInfo.name a = ColumnInfo.name b
                          /\ ColumnInfo.nullCount a = ColumnInfo.nullCount b)
                       (ParsedData.columns parsed) (ParsedData.columns sample).
Proof.
  split; [reflexivity|]. intros sample. unfold createParsedData.
  destruct rows as [|first rest]; [discriminate|].
  assert (Hheaders : sheet_headers (first :: rest) = Object_keys first) by reflexivity.
  remember (first :: rest) as rows eqn:Erows.
  intros [= <-].
  cbn [ParsedData.rows ParsedData.rowCount ParsedData.headers ParsedData.columnCount
       ParsedData.columns].
  split; [rewrite Erows; discriminate|]. split; [reflexivity|]. split; [reflexivity|].
  split; [now rewrite Hheaders|]. split; [now rewrite Hheaders|]. split; [|split].
  - rewrite <- list_fmap_compose, Hheaders. clear Hheaders.
    induction (Object_keys first) as [|h hs IH]; [reflexivity|].
    rewrite fmap_cons. cbn. f_equal. exact IH.
  - apply Forall_map_elem. intros header _.
    unfold column_values. cbn [ParsedData.rows createColumn ColumnInfo.name ColumnInfo.type
                               ColumnInfo.nullCount].
    set (values := map (fun row => row_get row header) rows).
    split; [|split].
    + destruct (find (fun v => defined v) values) as [[| |b|n|s|t]|];
        split; try discriminate; try (intros [n' Hn']; discriminate); eauto.
    + destruct (find (fun v => defined v) values) as [[| |b|n|s|t]|]; auto.
    + pose proof (length_filter (fun v => nonNull v = false) values) as Hle.
      unfold values in Hle at 2. rewrite length_map in Hle. exact Hle.
  - intros parsed (_ & _ & Hcount & Hheaders' & Hcc & Hcols)%parse_sheet_inv.
    rewrite Hheaders in Hcols, Hcc, Hheaders'.
    split; [exact Hheaders'|]. split; [exact Hcount|]. split; [exact Hcc|].
    clear Hheaders Hheaders' Hcc. revert Hcols. generalize (ParsedData.columns parsed).
    induction (Object_keys first) as [|h hs IH]; intros cols Hcols.
    + apply Forall2_nil_inv_l in Hcols as ->. constructor.
    + apply Forall2_cons_inv_l in Hcols as (col & cols' & Hcol & Hcols & ->).
      cbn [map]. constructor; [|now apply IH].
      destruct (analyzeColumn_cells _ _ _ Hcol) as (Hname & _ & Hsum & _).
      cbn [createColumn ColumnInfo.name ColumnInfo.nullCount]. split; [exact Hname|].
      pose proof (length_filter_split nonNull (sheet_column rows h)) as Hsplit.
      unfold sheet_column in *. lia.
Qed.

End SampleSheets.

(* ================================================================== *)
(** ** Validation of an upload *)

Example formatFileSize_examples :
  map formatFileSize [num 0; num 512; num 1024; num 1536; num 10485760; num 1073741824]
  = ["0 Bytes"; "512 Bytes"; "1 KB"; "1.5 KB"; "10 MB"; "1 GB"].
Proof. vm_compute. reflexivity. Qed.

Example toLocaleString_examples :
  map toLocaleString [num 0; num 999; num 1000; num 100000; num (-1234567)]
  = ["0"; "999"; "1,000"; "100,000"; "-1,234,567"].
Proof. vm_compute. reflexivity. Qed.

Lemma gt_of_Z (a b : Z) : (Num.of_Z a >? Num.of_Z b)%js = (b <? a)%Z.
Proof.
  apply eq_true_iff_eq. unfold Num.of_Z. rewrite gt_Fin, <- Zlt_Qlt, Z.ltb_lt. reflexivity.
Qed.

Lemma MAX_FILE_SIZE_BYTES_eq : FILE_LIMITS.MAX_FILE_SIZE_BYTES = Num.of_Z 10485760.
Proof. reflexivity. Qed.

Lemma warning_size_eq : (FILE_LIMITS.MAX_FILE_SIZE_BYTES * dec 7 10)%js = Num.of_Z 7340032.
Proof. reflexivity. Qed.

(** The form of a name without the separator: one segment. *)
Lemma String_split_none (sep : Ascii.ascii) (s : string) :
  ~ In sep (String.list_ascii_of_string s) -> String_split sep s = [s].
Proof.
  induction s as [|a s IH]; [reflexivity|]. cbn [String.list_ascii_of_string In String_split].
  intros Hn. destruct (Ascii.eqb_spec a sep) as [->|_]; [tauto|].
  rewrite IH by tauto. reflexivity.
Qed.

Lemma Array_includes_In (l : list string) (s : string) :
  Array_includes l s = true <-> s ∈ l.
Proof.
  unfold Array_includes. rewrite existsb_exists. split.
  - intros (t & Ht & ->%String.eqb_eq). now apply list_elem_of_In.
  - intros Hs. exists s. split; [now apply list_elem_of_In | apply String.eqb_refl].
Qed.

Section UploadValidation.
Context `{Host} `{Builtins}.

Lemma validateFileSize_cases (file : File.t) :
  let r := validateFileSize file in
  (FileValidationResult.isValid r = true <-> (File.size file <= 10485760)%N)
  /\ consistent r
  /\ (FileValidationResult.warnings r <> [] <-> (7340032 < File.size file <= 10485760)%N)
  /\ (length (FileValidationResult.errors r) + length (FileValidationResult.warnings r)
      <= 1)%nat.
Proof.
  unfold validateFileSize, consistent.
  rewrite warning_size_eq, MAX_FILE_SIZE_BYTES_eq, !gt_of_Z.
  destruct (Z.ltb_spec 10485760 (Z.of_N (File.size file))) as [Hbig|Hmax].
  - cbn. repeat split; try discriminate; try congruence; try lia.
  - destruct (Z.ltb_spec 7340032 (Z.of_N (File.size file))) as [Hwarn|Hsmall].
    + cbn. repeat split; try discriminate; try congruence; try lia.
    + cbn. repeat split; try discriminate; try congruence; try lia.
Qed.

Lemma validateFileType_cases (file : File.t) :
  let r := validateFileType file in
  (FileValidationResult.isValid r = true
   <-> toLowerCase (last_segment (File.name file)) ∈ ["xlsx"; "xls"; "csv"]
       \/ File.type file ∈ FILE_LIMITS.SUPPORTED_MIME_TYPES)
  /\ consistent r
  /\ FileValidationResult.warnings r = []
  /\ (length (FileValidationResult.errors r) <= 1)%nat.
Proof.
  unfold validateFileType, consistent. fold (last_segment (File.name file)).
  set (segment := toLowerCase (last_segment (File.name file))).
  assert (Eext : Array_includes FILE_LIMITS.SUPPORTED_EXTENSIONS ("." +:+ segment) = true
                 <-> segment ∈ ["xlsx"; "xls"; "csv"]).
  { rewrite Array_includes_In. unfold FILE_LIMITS.SUPPORTED_EXTENSIONS.
    rewrite !elem_of_cons, !elem_of_nil.
    change ("." +:+ segment) with (String dot segment).
    split; (intros [E|[E|[E|[]]]]; [left|right; left|right; right; left]);
      first [ now injection E | now rewrite E ]. }
  pose proof (Array_includes_In FILE_LIMITS.SUPPORTED_MIME_TYPES (File.type file)) as Emime.
  destruct (Array_includes FILE_LIMITS.SUPPORTED_EXTENSIONS ("." +:+ segment));
    destruct (Array_includes FILE_LIMITS.SUPPORTED_MIME_TYPES (File.type file)); cbn;
    repeat split; try discriminate; try congruence; try lia; try tauto.
Qed.

(** X22: the first validation of an upload, [combineValidationResults] of the
    size and the type check.  It passes exactly when the file has at most
    10 MiB (10485760 bytes) and either its extension, the lower-cased part of
    the name after the last dot, is xlsx, xls or csv, or its MIME type is one
    of the three supported; it passes exactly when it lists no error; it warns
    exactly for a size above 7340032 bytes that is not an error; and a name
    without a dot counts as its own extension. *)
Theorem preValidation_accepts (file : File.t) :
  let r := preValidation file in
  (FileValidationResult.isValid r = true
   <-> (File.size file <= 10485760)%N
       /\ (toLowerCase (last_segment (File.name file)) ∈ ["xlsx"; "xls"; "csv"]
           \/ File.type file ∈ FILE_LIMITS.SUPPORTED_MIME_TYPES))
  /\ consistent r
  /\ (FileValidationResult.warnings r <> [] <-> (7340032 < File.size file <= 10485760)%N)
  /\ (length (FileValidationResult.errors r) <= 2)%nat
  /\ (~ In dot (String.list_ascii_of_string (File.name file)) ->
      last_segment (File.name file) = File.name file).
Proof.
  destruct (validateFileSize_cases file) as (Hs & Hsc & Hsw & Hsl).
  destruct (validateFileType_cases file) as (Ht & Htc & Htw & Htl).
  cbn zeta in *. unfold preValidation, combineValidationResults, consistent in *.
  cbn [forallb flat_map FileValidationResult.isValid FileValidationResult.errors
       FileValidationResult.warnings].
  rewrite Htw, !app_nil_r, andb_true_r.
  split; [|split; [|split; [|split]]].
  - rewrite andb_true_iff, Hs, Ht. reflexivity.
  - rewrite andb_true_iff, Hsc, Htc. split.
    + intros [-> ->]. reflexivity.
    + intros E. now apply app_eq_nil in E.
  - exact Hsw.
  - rewrite length_app. lia.
  - intros Hdot. unfold last_segment. now rewrite String_split_none.
Qed.

(** X23: the limits on the data: the check passes exactly when the row count
    is not above 100000 and the column count not above 100, lists one error
    for each limit passed, rows first, and warns exactly for a row count above
    50000 that is not an error. *)
Theorem validateDataSize_limits (rowCount columnCount : JSNum) :
  let r := validateDataSize rowCount columnCount in
  (FileValidationResult.isValid r = true
   <-> (rowCount >? num 100000)%js = false /\ (columnCount >? num 100)%js = false)
  /\ consistent r
  /\ length (FileValidationResult.errors r)
     = ((if (rowCount >? num 100000)%js then 1 else 0)
        + (if (columnCount >? num 100)%js then 1 else 0))%nat
  /\ (FileValidationResult.warnings r <> []
      <-> (rowCount >? num 50000)%js = true /\ (rowCount >? num 100000)%js = false).
Proof.
  unfold validateDataSize, consistent, FILE_LIMITS.MAX_ROW_COUNT,
    FILE_LIMITS.RECOMMENDED_ROW_COUNT, FILE_LIMITS.MAX_COLUMN_COUNT.
  destruct (rowCount >? num 100000)%js eqn:Er;
    [|destruct (rowCount >? num 50000)%js eqn:Ew];
    destruct (columnCount >? num 100)%js eqn:Ec; cbn;
    repeat split; try discriminate; try congruence; try tauto;
    try (intros [? ?]; discriminate).
Qed.

End UploadValidation.

(** X24: combining validation results keeps them consistent: the combination
    is valid exactly when every result is, its errors and warnings are those of
    the results in order, and where each result is valid exactly when it has
    no error, so is the combination. *)
Theorem combineValidationResults_consistent (results : list FileValidationResult.t) :
  let r := combineValidationResults results in
  (FileValidationResult.isValid r = true
   <-> Forall (fun x => FileValidationResult.isValid x = true) results)
  /\ FileValidationResult.errors r = concat (map FileValidationResult.errors results)
  /\ FileValidationResult.warnings r = concat (map FileValidationResult.warnings results)
  /\ (Forall consistent results -> consistent r).
Proof.
  cbn zeta. unfold combineValidationResults, consistent.
  cbn [FileValidationResult.isValid FileValidationResult.errors FileValidationResult.warnings].
  assert (Hv : forallb FileValidationResult.isValid results = true
               <-> Forall (fun x => FileValidationResult.isValid x = true) results).
  { rewrite forallb_forall, Forall_forall.
    split; intros Hall x Hx; apply Hall; now apply list_elem_of_In. }
  split; [exact Hv|]. split; [apply flat_map_concat_map|].
  split; [apply flat_map_concat_map|].
  intros Hc. rewrite Hv. clear Hv.
  induction Hc as [|x results Hx _ IH]; [split; [reflexivity | constructor]|].
  cbn [flat_map]. rewrite Forall_cons. split.
  - intros [Hvx Hvl]. apply Hx in Hvx. apply IH in Hvl. now rewrite Hvx, Hvl.
  - intros [Ex El]%app_eq_nil. split; [now apply Hx | now apply IH].
Qed.

(* ================================================================== *)
(** ** Truncating a text *)

Lemma length_substring (n : nat) (s : string) :
  String.length (String.substring 0 n s) = Nat.min n (String.length s).
Proof.
  revert s. induction n as [|n IH]; intros [|c s]; cbn [String.substring String.length];
    try reflexivity.
  now rewrite IH.
Qed.

Lemma truncate_floor (q : Q) : 0 <= q -> truncate q = Qfloor q.
Proof.
  intros Hq. unfold truncate. apply Qle_bool_iff in Hq. now rewrite Hq.
Qed.

(** X25: [truncateText] keeps a text within [maxLength] characters when
    [maxLength] is at least 3: a text that fits comes back unchanged, a longer
    one is cut to a prefix followed by three dots, of at most [maxLength]
    characters in all.  Under 3 the limit is not kept: a text longer than
    [maxLength] comes back with the three dots and is longer than
    [maxLength]. *)
Theorem truncateText_length (text : string) (maxLength : JSNum) :
  let result := truncateText text (Some maxLength) in
  ((Num.of_nat (String.length text) <=? maxLength)%js = true -> result = text)
  /\ ((Num.of_nat (String.length text) <=? maxLength)%js = false -> text <> "" ->
      exists n, result = String.substring 0 n text +:+ "...")
  /\ ((num 3 <=? maxLength)%js = true ->
      (Num.of_nat (String.length result) <=? maxLength)%js = true)
  /\ ((maxLength <? num 3)%js = true ->
      (Num.of_nat (String.length text) <=? maxLength)%js = false -> text <> "" ->
      (Num.of_nat (String.length result) <=? maxLength)%js = false).
Proof.
  cbn zeta. unfold truncateText. cbn [default from_option id].
  assert (Hcut : forall n, String.length (String.substring 0 n text +:+ "...")
                           = (Nat.min n (String.length text) + 3)%nat).
  { intros n. now rewrite length_append, length_substring. }
  split; [|split; [|split]].
  - intros ->. now rewrite orb_true_r.
  - intros -> Hne. destruct (String.eqb_spec text ""); [contradiction|]. cbn [orb].
    unfold String_slice0. now eexists.
  - intros H3. destruct (String.eqb text "" || _) eqn:E.
    + apply orb_true_iff in E as [->%String.eqb_eq|E]; [|exact E].
      cbn [String.length]. eapply le_trans; [|exact H3]. reflexivity.
    + unfold String_slice0. destruct maxLength as [| | |m]; try discriminate.
      * rewrite Hcut. reflexivity.
      * apply le_Fin in H3. change (inject_Z 3) with 3 in H3.
        unfold num, Num.of_Z, Num.sub, Num.fin.
        assert (Hq : 0 <= Qred (m - inject_Z 3))
          by (rewrite Qred_correct; unfold inject_Z; lra).
        rewrite (truncate_floor _ Hq).
        set (z := Qfloor (Qred (m - inject_Z 3))).
        assert (Hz : (0 <= z)%Z).
        { unfold z. rewrite <- (Qfloor_Z 0). now apply Qfloor_resp_le. }
        assert (Hfl : inject_Z z <= m - 3).
        { unfold z. eapply Qle_trans; [apply Qfloor_le|]. rewrite Qred_correct.
          unfold inject_Z. lra. }
        destruct (Z.ltb_spec z 0) as [|_]; [lia|].
        rewrite Hcut. unfold Num.of_nat, Num.of_Z. apply le_Fin.
        rewrite Nat2Z.inj_add, inject_Z_plus. change (inject_Z (Z.of_nat 3)) with 3.
        assert (Hmin : inject_Z (Z.of_nat
                         (Nat.min (Z.to_nat (Z.min z (Z.of_nat (String.length text))))
                                  (String.length text)))
                       <= inject_Z z).
        { rewrite <- Zle_Qle. lia. }
        lra.
  - intros Hlt -> Hne. destruct (String.eqb_spec text ""); [contradiction|]. cbn [orb].
    rewrite length_append. cbn [String.length].
    destruct maxLength as [| | |m]; try discriminate; try reflexivity.
    apply lt_Fin in Hlt. change (inject_Z 3) with 3 in Hlt.
    unfold Num.of_nat, Num.of_Z, Num.le.
    destruct (Qle_bool _ m) eqn:E; [|reflexivity].
    apply Qle_bool_iff in E. rewrite Nat2Z.inj_add, inject_Z_plus in E.
    change (inject_Z (Z.of_nat 3)) with 3 in E.
    assert (0 <= inject_Z (Z.of_nat (String.length (String_slice0 text (Fin m - num 3)%js)))).
    { change 0 with (inject_Z 0). rewrite <- Zle_Qle. lia. }
    lra.
Qed.

(* ================================================================== *)
(** ** The quartiles of a profile *)





Section Quartiles.
Context `{Host}.


End Quartiles.

Example formatColumnName_examples :
  map formatColumnName
      ["user_id"; "firstName"; "apiUrl"; "total_revenue"; " _x_ "; "ID"; "idea"; "a1B"; ""]
  = ["User ID"; "First Name"; "API URL"; "Total Revenue"; "X"; "ID"; "Idea"; "A1B"; ""].
Proof. vm_compute. reflexivity. Qed.

(* ================================================================== *)
(** ** Column names: characters *)

Lemma to_upper_idem (c : Ascii.ascii) : to_upper (to_upper c) = to_upper c.
Proof. each_char c. Qed.

Lemma is_word_to_upper (c : Ascii.ascii) : is_word (to_upper c) = is_word c.
Proof. each_char c. Qed.

Lemma is_lower_to_upper (c : Ascii.ascii) : is_lower (to_upper c) = false.
Proof. each_char c. Qed.

Lemma is_space_to_upper (c : Ascii.ascii) : is_space (to_upper c) = is_space c.
Proof. each_char c. Qed.

Lemma underscore_to_upper (c : Ascii.ascii) :
  (Ascii.N_of_ascii (to_upper c) =? 95)%N = (Ascii.N_of_ascii c =? 95)%N.
Proof. each_char c. Qed.

Lemma to_upper_fixed (c : Ascii.ascii) : to_upper c = c -> is_lower c = false.
Proof. intros E. rewrite <- E. apply is_lower_to_upper. Qed.

Lemma is_lower_word (c : Ascii.ascii) : is_lower c = true -> is_word c = true.
Proof. unfold is_word. now intros ->. Qed.

Lemma is_space_word (c : Ascii.ascii) : is_space c = true -> is_word c = false.
Proof. each_char c. Qed.

Lemma is_lower_upper (c : Ascii.ascii) : is_lower c = true -> is_upper c = false.
Proof. each_char c. Qed.

(** Induction on strings, two characters at a time. *)
Lemma string_pair_ind (P : string -> Prop) :
  P "" -> (forall a, P (String a "")) ->
  (forall a b s, P s -> P (String b s) -> P (String a (String b s))) ->
  forall s, P s.
Proof.
  intros H0 H1 H2 s.
  assert (Hboth : P s /\ forall a, P (String a s)).
  { induction s as [|b s [IH IHa]]; [split; [exact H0 | exact H1]|].
    split; [apply IHa|]. intros a. apply H2; [exact IH | apply IHa]. }
  exact (proj1 Hboth).
Qed.

(* ================================================================== *)
(** ** Column names: no underscore is left *)

Lemma snake_to_spaces_clean (s : string) : no_underscore (snake_to_spaces s) = true.
Proof.
  induction s as [|c s IH]; [reflexivity|]. cbn [snake_to_spaces no_underscore].
  rewrite IH, andb_true_r. destruct (Ascii.N_of_ascii c =? 95)%N eqn:E; [reflexivity|].
  now rewrite E.
Qed.

Lemma snake_to_spaces_fixed (s : string) : no_underscore s = true -> snake_to_spaces s = s.
Proof.
  induction s as [|c s IH]; [reflexivity|]. cbn [snake_to_spaces no_underscore].
  intros [Hc Hs]%andb_true_iff. apply negb_true_iff in Hc. rewrite Hc. now rewrite IH.
Qed.

Lemma split_camel_clean (s : string) :
  no_underscore s = true -> no_underscore (split_camel s) = true.
Proof.
  induction s as [| |a b s IH IHb] using string_pair_ind; [reflexivity | intros H; exact H|].
  intros Hs. cbn [split_camel].
  cbn [no_underscore] in Hs. apply andb_true_iff in Hs as [Ha Hs].
  pose proof Hs as Hbs. apply andb_true_iff in Hs as [Hb Hs].
  destruct (is_lower a && is_upper b); cbn [no_underscore].
  - rewrite Ha, Hb, (IH Hs). reflexivity.
  - rewrite Ha. cbn [andb]. apply IHb. cbn [no_underscore]. exact Hbs.
Qed.

Lemma upper_abbreviations_clean (s : string) (prev : bool) (pending : nat) :
  no_underscore s = true -> no_underscore (upper_abbreviations prev pending s) = true.
Proof.
  revert prev pending. induction s as [|c s IH]; intros prev pending; [reflexivity|].
  cbn [no_underscore]. intros [Hc Hs]%andb_true_iff.
  assert (Hup : forall k,
             no_underscore (String (to_upper c) (upper_abbreviations true k s)) = true).
  { intros k. cbn [no_underscore]. now rewrite underscore_to_upper, Hc, IH. }
  assert (Hsame : no_underscore (String c (upper_abbreviations (is_word c) 0 s)) = true).
  { cbn [no_underscore]. now rewrite Hc, IH. }
  cbn [upper_abbreviations]. destruct pending as [|k]; [|apply Hup].
  destruct (if prev then None else abbreviation_at (String c s)) as [[|k]|];
    [exact Hsame | apply Hup | exact Hsame].
Qed.

Lemma capitalize_words_clean (s : string) (prev : bool) :
  no_underscore s = true -> no_underscore (capitalize_words prev s) = true.
Proof.
  revert prev. induction s as [|c s IH]; intros prev; [reflexivity|].
  cbn [no_underscore capitalize_words]. intros [Hc Hs]%andb_true_iff.
  rewrite (IH _ Hs), andb_true_r.
  destruct (negb prev && is_word c); [now rewrite underscore_to_upper | exact Hc].
Qed.

Lemma trim_start_clean (s : string) :
  no_underscore s = true -> no_underscore (trim_start s) = true.
Proof.
  induction s as [|c s IH]; [reflexivity|]. cbn [trim_start].
  destruct (is_space c); [|auto]. cbn [no_underscore]. intros [_ Hs]%andb_true_iff. auto.
Qed.

Lemma trim_end_clean (s : string) :
  no_underscore s = true -> no_underscore (trim_end s) = true.
Proof.
  induction s as [|c s IH]; [reflexivity|]. cbn [trim_end no_underscore].
  intros [Hc Hs]%andb_true_iff. specialize (IH Hs).
  destruct (trim_end s) as [|d t].
  - destruct (is_space c); [reflexivity|]. cbn [no_underscore]. now rewrite Hc.
  - cbn [no_underscore] in *. now rewrite Hc, IH.
Qed.

(* ================================================================== *)
(** ** Column names: no camel case is left *)

Lemma no_camel_weaken (s : string) (prev : bool) :
  no_camel prev s = true -> no_camel false s = true.
Proof.
  destruct s as [|c s]; [reflexivity|]. cbn [no_camel].
  intros [_ Hs]%andb_true_iff. exact Hs.
Qed.

Lemma split_camel_no_camel (s : string) (prev : bool) :
  (prev = true -> forall c, first_char s = Some c -> is_upper c = false) ->
  no_camel prev (split_camel s) = true.
Proof.
  revert prev.
  induction s as [|a|a b s IH IHb] using string_pair_ind; intros prev Hprev; [reflexivity| |].
  - cbn [split_camel no_camel]. rewrite andb_true_r. destruct prev; [|reflexivity].
    cbn [andb]. now rewrite (Hprev eq_refl a eq_refl).
  - assert (Ha : negb (prev && is_upper a) = true).
    { destruct prev; [|reflexivity]. cbn [andb]. now rewrite (Hprev eq_refl a eq_refl). }
    cbn [split_camel]. destruct (is_lower a && is_upper b) eqn:E; cbn [no_camel].
    + rewrite Ha. cbn [andb].
      replace (is_upper space) with false by reflexivity.
      replace (is_lower space) with false by reflexivity.
      rewrite andb_false_r. cbn [negb andb]. apply IH.
      apply andb_true_iff in E as [_ Eb]. intros Hl.
      assert (Hb : is_lower b = false).
      { destruct (is_lower b) eqn:El; [|reflexivity].
        apply is_lower_upper in El. congruence. }
      congruence.
    + rewrite Ha. cbn [andb]. apply IHb. intros Hl c [= <-].
      rewrite Hl in E. cbn [andb] in E. exact E.
Qed.

Lemma split_camel_fixed (s : string) (prev : bool) :
  no_camel prev s = true -> split_camel s = s.
Proof.
  revert prev.
  induction s as [|a|a b s IH IHb] using string_pair_ind; intros prev; [reflexivity..|].
  intros Hs. cbn [no_camel] in Hs. apply andb_true_iff in Hs as [_ Hs].
  pose proof Hs as Hbs. cbn [no_camel] in Hs. apply andb_true_iff in Hs as [Hab _].
  cbn [split_camel]. apply negb_true_iff in Hab. rewrite Hab.
  f_equal. exact (IHb _ Hbs).
Qed.

Lemma upper_abbreviations_no_camel (s : string) (prev : bool) (pending : nat)
    (before after : bool) :
  no_camel before s = true ->
  (after = true -> before = true /\ pending = 0%nat /\ prev = true) ->
  no_camel after (upper_abbreviations prev pending s) = true.
Proof.
  revert prev pending before after.
  induction s as [|c s IH]; intros prev pending before after; [reflexivity|].
  cbn [no_camel]. intros [Hc Hs]%andb_true_iff Hafter.
  assert (Hup : forall k, after = false ->
             no_camel after (String (to_upper c) (upper_abbreviations true k s)) = true).
  { intros k ->. cbn [no_camel andb negb]. rewrite is_lower_to_upper.
    apply (IH _ _ (is_lower c)); [exact Hs | discriminate]. }
  assert (Hsame : pending = 0%nat ->
             no_camel after (String c (upper_abbreviations (is_word c) 0 s)) = true).
  { intros _. cbn [no_camel]. apply andb_true_iff. split.
    - destruct after; [|reflexivity]. destruct (Hafter eq_refl) as (-> & _). exact Hc.
    - apply (IH _ _ (is_lower c)); [exact Hs|].
      intros Hl. split; [exact Hl|]. split; [reflexivity | now apply is_lower_word]. }
  cbn [upper_abbreviations]. destruct pending as [|k].
  - destruct prev.
    + now apply Hsame.
    + destruct (abbreviation_at (String c s)) as [[|k]|]; [now apply Hsame| |now apply Hsame].
      apply Hup. destruct after; [|reflexivity]. now destruct (Hafter eq_refl) as (_ & _ & ?).
  - apply Hup. destruct after; [|reflexivity]. now destruct (Hafter eq_refl) as (_ & ? & _).
Qed.

Lemma capitalize_words_no_camel (s : string) (prev before after : bool) :
  no_camel before s = true ->
  (after = true -> before = true /\ prev = true) ->
  no_camel after (capitalize_words prev s) = true.
Proof.
  revert prev before after.
  induction s as [|c s IH]; intros prev before after; [reflexivity|].
  cbn [no_camel capitalize_words]. intros [Hc Hs]%andb_true_iff Hafter.
  apply andb_true_iff. split.
  - destruct after; [|reflexivity]. destruct (Hafter eq_refl) as (-> & ->). exact Hc.
  - apply (IH _ (is_lower c)); [exact Hs|].
    destruct (negb prev && is_word c).
    + rewrite is_lower_to_upper. discriminate.
    + intros Hl. split; [exact Hl | now apply is_lower_word].
Qed.

Lemma trim_start_no_camel (s : string) (prev : bool) :
  no_camel prev s = true -> no_camel false (trim_start s) = true.
Proof.
  revert prev. induction s as [|c s IH]; intros prev; [reflexivity|]. cbn [trim_start].
  destruct (is_space c); [|apply no_camel_weaken].
  cbn [no_camel]. intros [_ Hs]%andb_true_iff. exact (IH _ Hs).
Qed.

Lemma trim_end_no_camel (s : string) (prev : bool) :
  no_camel prev s = true -> no_camel prev (trim_end s) = true.
Proof.
  revert prev. induction s as [|c s IH]; intros prev; [reflexivity|].
  cbn [trim_end no_camel]. intros [Hc Hs]%andb_true_iff. specialize (IH _ Hs).
  destruct (trim_end s) as [|d t].
  - destruct (is_space c); [reflexivity|]. cbn [no_camel]. now rewrite Hc.
  - cbn [no_camel] in *. now rewrite Hc, IH.
Qed.

(* ================================================================== *)
(** ** Column names: abbreviations and capitals stay *)

(** The matches of the abbreviations do not depend on the case of the
    letters. *)
Lemma matches_word_upcase (p s t : string) :
  upcase s = upcase t -> matches_word p s = matches_word p t.
Proof.
  revert s t. induction p as [|a p IH]; intros [|b s] [|d t]; cbn [upcase matches_word];
    try discriminate; try reflexivity.
  - intros [= E _]. now rewrite <- (is_word_to_upper b), E, is_word_to_upper.
  - intros [= E Est]. now rewrite E, (IH s t Est).
Qed.

Lemma abbreviation_at_upcase (s t : string) :
  upcase s = upcase t -> abbreviation_at s = abbreviation_at t.
Proof.
  intros E. unfold abbreviation_at. cbn [find].
  now rewrite !(matches_word_upcase _ s t E).
Qed.

Lemma upper_abbreviations_upcase (s : string) (prev : bool) (pending : nat) :
  upcase (upper_abbreviations prev pending s) = upcase s.
Proof.
  revert prev pending. induction s as [|c s IH]; intros prev pending; [reflexivity|].
  cbn [upper_abbreviations]. destruct pending as [|k].
  - destruct (if prev then None else abbreviation_at (String c s)) as [[|k]|];
      cbn [upcase]; now rewrite ?to_upper_idem, IH.
  - cbn [upcase]. now rewrite to_upper_idem, IH.
Qed.

Lemma capitalize_words_upcase (s : string) (prev : bool) :
  upcase (capitalize_words prev s) = upcase s.
Proof.
  revert prev. induction s as [|c s IH]; intros prev; [reflexivity|].
  cbn [capitalize_words upcase]. rewrite IH.
  destruct (negb prev && is_word c); now rewrite ?to_upper_idem.
Qed.

Lemma upper_abbreviations_idem (s : string) (prev : bool) (pending : nat) :
  upper_abbreviations prev pending (upper_abbreviations prev pending s)
  = upper_abbreviations prev pending s.
Proof.
  revert prev pending. induction s as [|c s IH]; intros prev pending; [reflexivity|].
  assert (Hup : forall k,
             upper_abbreviations true k (upper_abbreviations true k s)
             = upper_abbreviations true k s) by (intros; apply IH).
  destruct pending as [|k].
  - destruct prev.
    + cbn [upper_abbreviations]. now rewrite IH.
    + pose proof (abbreviation_at_upcase _ _
                    (upper_abbreviations_upcase (String c s) false 0)) as E.
      cbn [upper_abbreviations] in *.
      destruct (abbreviation_at (String c s)) as [[|k]|] eqn:Eat;
        cbn [upper_abbreviations]; rewrite E;
        now rewrite ?to_upper_idem, ?is_word_to_upper, ?IH.
  - cbn [upper_abbreviations]. now rewrite to_upper_idem, IH.
Qed.

(** A string the abbreviations leave as it is stays so when its words are
    capitalized. *)
Lemma capitalize_words_keeps (s : string) (prev : bool) (pending : nat) (prev' : bool) :
  upper_abbreviations prev pending s = s ->
  upper_abbreviations prev pending (capitalize_words prev' s) = capitalize_words prev' s.
Proof.
  revert prev pending prev'. induction s as [|c s IH]; intros prev pending prev';
    [reflexivity|].
  intros Hs.
  pose proof (abbreviation_at_upcase _ _ (capitalize_words_upcase (String c s) prev')) as E.
  cbn [capitalize_words] in *.
  set (c' := if negb prev' && is_word c then to_upper c else c) in *.
  assert (Hw : is_word c' = is_word c).
  { unfold c'. destruct (negb prev' && is_word c); [apply is_word_to_upper | reflexivity]. }
  assert (Hc' : to_upper c = c -> to_upper c' = c').
  { unfold c'. intros Hc. destruct (negb prev' && is_word c); now rewrite ?to_upper_idem. }
  cbn [upper_abbreviations] in *. destruct pending as [|k].
  - rewrite E. destruct (if prev then None else abbreviation_at (String c s)) as [[|k]|].
    + injection Hs as Hs. now rewrite Hw, (IH _ _ _ Hs).
    + injection Hs as Hc Hs. now rewrite (Hc' Hc), (IH _ _ _ Hs).
    + injection Hs as Hs. now rewrite Hw, (IH _ _ _ Hs).
  - injection Hs as Hc Hs. now rewrite (Hc' Hc), (IH _ _ _ Hs).
Qed.

Lemma abbreviation_at_space (c : Ascii.ascii) (s : string) :
  is_space c = true -> abbreviation_at (String c s) = None.
Proof.
  intros Hc. destruct c as [[] [] [] [] [] [] [] []];
    try (vm_compute in Hc; discriminate Hc); reflexivity.
Qed.

Lemma trim_start_keeps_abbreviations (s : string) :
  upper_abbreviations false 0 s = s ->
  upper_abbreviations false 0 (trim_start s) = trim_start s.
Proof.
  induction s as [|c s IH]; [reflexivity|]. intros Hs. cbn [trim_start].
  destruct (is_space c) eqn:Ec; [|exact Hs].
  cbn [upper_abbreviations] in Hs. rewrite (abbreviation_at_space c s Ec) in Hs.
  rewrite (is_space_word c Ec) in Hs. injection Hs as Hs. exact (IH Hs).
Qed.

Lemma trim_end_head (s : string) :
  match trim_end s with
  | EmptyString => forall c, first_char s = Some c -> is_space c = true
  | String c _ => first_char s = Some c
  end.
Proof.
  destruct s as [|c s]; [intros c; discriminate|]. cbn [trim_end].
  destruct (trim_end s); [|reflexivity].
  destruct (is_space c) eqn:E; [|reflexivity]. now intros d [= <-].
Qed.

Lemma trim_end_cons (c : Ascii.ascii) (s : string) :
  is_space c = false -> trim_end (String c s) = String c (trim_end s).
Proof. intros Hc. cbn [trim_end]. rewrite Hc. now destruct (trim_end s). Qed.

Lemma matches_word_trim_end (p s : string) :
  Forall (fun a => is_space a = false) (String.list_ascii_of_string p) ->
  matches_word p (trim_end s) = matches_word p s.
Proof.
  revert s. induction p as [|a p IH]; intros s Hp.
  - cbn [matches_word]. pose proof (trim_end_head s) as Hh.
    destruct (trim_end s) as [|c t], s as [|d s]; try reflexivity; try discriminate.
    + symmetry. apply negb_true_iff, is_space_word. now apply Hh.
    + now injection Hh as ->.
  - cbn [String.list_ascii_of_string] in Hp. apply Forall_cons in Hp as [Ha Hp].
    destruct s as [|b s]; [reflexivity|].
    destruct (Ascii.eqb (to_upper a) (to_upper b)) eqn:E.
    + apply Ascii.eqb_eq in E.
      assert (Hb : is_space b = false)
        by now rewrite <- is_space_to_upper, <- E, is_space_to_upper.
      rewrite (trim_end_cons b s Hb). cbn [matches_word].
      now rewrite (IH s Hp).
    + cbn [matches_word]. rewrite E. cbn [andb].
      pose proof (trim_end_head (String b s)) as Hh.
      destruct (trim_end (String b s)) as [|d t]; [reflexivity|].
      injection Hh as <-. cbn [matches_word]. now rewrite E.
Qed.

Lemma abbreviation_at_trim_end (s : string) :
  abbreviation_at (trim_end s) = abbreviation_at s.
Proof.
  unfold abbreviation_at. cbn [find].
  rewrite !matches_word_trim_end; [reflexivity|..]; repeat constructor.
Qed.

Lemma trim_end_keeps_abbreviations (s : string) (prev : bool) (pending : nat) :
  upper_abbreviations prev pending s = s ->
  upper_abbreviations prev pending (trim_end s) = trim_end s.
Proof.
  revert prev pending. induction s as [|c s IH]; intros prev pending; [reflexivity|].
  intros Hs. pose proof (abbreviation_at_trim_end (String c s)) as E.
  destruct (is_space c) eqn:Ec.
  - cbn [trim_end] in *. destruct (trim_end s) as [|d t] eqn:Et; [now rewrite Ec|].
    rewrite <- Et in *. clear Et.
    cbn [upper_abbreviations] in *. destruct pending as [|k].
    + rewrite E. destruct (if prev then None else abbreviation_at (String c s)) as [[|k]|].
      * injection Hs as Hs. now rewrite (IH _ _ Hs).
      * injection Hs as Hc Hs. now rewrite Hc, (IH _ _ Hs).
      * injection Hs as Hs. now rewrite (IH _ _ Hs).
    + injection Hs as Hc Hs. now rewrite Hc, (IH _ _ Hs).
  - rewrite (trim_end_cons c s Ec) in *.
    cbn [upper_abbreviations] in *. destruct pending as [|k].
    + rewrite E. destruct (if prev then None else abbreviation_at (String c s)) as [[|k]|].
      * injection Hs as Hs. now rewrite (IH _ _ Hs).
      * injection Hs as Hc Hs. now rewrite Hc, (IH _ _ Hs).
      * injection Hs as Hs. now rewrite (IH _ _ Hs).
    + injection Hs as Hc Hs. now rewrite Hc, (IH _ _ Hs).
Qed.

Lemma capitalize_words_idem (s : string) (prev : bool) :
  capitalize_words prev (capitalize_words prev s) = capitalize_words prev s.
Proof.
  revert prev. induction s as [|c s IH]; intros prev; [reflexivity|].
  cbn [capitalize_words].
  destruct (negb prev && is_word c) eqn:E.
  - now rewrite is_word_to_upper, E, to_upper_idem, IH.
  - now rewrite E, IH.
Qed.

Lemma trim_start_keeps_capitals (s : string) :
  capitalize_words false s = s -> capitalize_words false (trim_start s) = trim_start s.
Proof.
  induction s as [|c s IH]; [reflexivity|]. intros Hs. cbn [trim_start].
  destruct (is_space c) eqn:Ec; [|exact Hs].
  cbn [capitalize_words] in Hs. rewrite (is_space_word c Ec) in Hs.
  injection Hs as Hs. exact (IH Hs).
Qed.

Lemma trim_end_keeps_capitals (s : string) (prev : bool) :
  capitalize_words prev s = s -> capitalize_words prev (trim_end s) = trim_end s.
Proof.
  revert prev. induction s as [|c s IH]; intros prev; [reflexivity|].
  cbn [capitalize_words trim_end]. intros [= Hc Hs]. specialize (IH _ Hs).
  destruct (trim_end s) as [|d t].
  - destruct (is_space c); [reflexivity|]. cbn [capitalize_words]. now rewrite Hc.
  - cbn [capitalize_words] in *. now rewrite Hc, IH.
Qed.

Lemma capitalize_words_fixed (s : string) (prev : bool) :
  capitalize_words prev s = s -> words_capitalized prev s = true.
Proof.
  revert prev. induction s as [|c s IH]; intros prev; [reflexivity|].
  cbn [capitalize_words words_capitalized]. intros [= Hc Hs].
  rewrite (IH _ Hs), andb_true_r. apply negb_true_iff.
  destruct (negb prev) eqn:Ep; [|reflexivity]. cbn [andb] in *.
  destruct (is_lower c) eqn:El; [|reflexivity].
  rewrite (is_lower_word c El) in Hc. apply to_upper_fixed in Hc. congruence.
Qed.

(* ================================================================== *)
(** ** Column names: the ends *)

Lemma trim_start_head (s : string) (c : Ascii.ascii) :
  first_char (trim_start s) = Some c -> is_space c = false.
Proof.
  induction s as [|d s IH]; [discriminate|]. cbn [trim_start].
  destruct (is_space d) eqn:E; [exact IH|]. now intros [= <-].
Qed.

Lemma trim_start_fixed (s : string) :
  (forall c, first_char s = Some c -> is_space c = false) -> trim_start s = s.
Proof.
  destruct s as [|c s]; [reflexivity|]. intros Hc. cbn [trim_start].
  now rewrite (Hc c eq_refl).
Qed.

Lemma trim_end_last (s : string) (c : Ascii.ascii) :
  last_char (trim_end s) = Some c -> is_space c = false.
Proof.
  induction s as [|d s IH]; [discriminate|]. cbn [trim_end].
  destruct (trim_end s) as [|e t].
  - destruct (is_space d) eqn:E; [discriminate|]. now intros [= <-].
  - cbn [last_char] in *. destruct (last_char t); exact IH.
Qed.

Lemma trim_end_idem (s : string) : trim_end (trim_end s) = trim_end s.
Proof.
  induction s as [|c s IH]; [reflexivity|]. cbn [trim_end].
  destruct (trim_end s) as [|d t] eqn:E.
  - destruct (is_space c) eqn:Ec; [reflexivity|]. cbn [trim_end]. now rewrite Ec.
  - change (trim_end (String c (String d t)))
      with (match trim_end (String d t) with
            | EmptyString => if is_space c then EmptyString else String c EmptyString
            | String e u => String c (String e u)
            end).
    now rewrite IH.
Qed.

Lemma String_trim_trimmed (s : string) : trimmed (String_trim s).
Proof.
  unfold String_trim. split; [|apply trim_end_last].
  intros c Hc. pose proof (trim_end_head (trim_start s)) as Hh.
  destruct (trim_end (trim_start s)) as [|d t]; [discriminate|].
  injection Hc as ->. now apply (trim_start_head s).
Qed.

Lemma String_trim_fixed (s : string) : String_trim (String_trim s) = String_trim s.
Proof.
  unfold String_trim. rewrite trim_start_fixed; [apply trim_end_idem|].
  exact (proj1 (String_trim_trimmed s)).
Qed.

Lemma String_trim_upcase (s : string) : upcase (String_trim s) = String_trim (upcase s).
Proof.
  unfold String_trim.
  assert (Hstart : forall t, upcase (trim_start t) = trim_start (upcase t)).
  { induction t as [|c t IH]; [reflexivity|]. cbn [trim_start upcase].
    rewrite is_space_to_upper. destruct (is_space c); [exact IH | reflexivity]. }
  assert (Hend : forall t, upcase (trim_end t) = trim_end (upcase t)).
  { induction t as [|c t IH]; [reflexivity|]. cbn [trim_end upcase].
    rewrite <- IH, is_space_to_upper. destruct (trim_end t); [|reflexivity].
    now destruct (is_space c). }
  now rewrite Hend, Hstart.
Qed.

(* ================================================================== *)
(** ** Column names: the formatted name *)

(** What the five steps of [formatColumnName] leave behind: each of them
    finds nothing more to do on the result. *)
Lemma formatColumnName_steps (name : string) :
  let formatted := formatColumnName name in
  no_underscore formatted = true
  /\ no_camel false formatted = true
  /\ upper_abbreviations false 0 formatted = formatted
  /\ capitalize_words false formatted = formatted
  /\ trimmed formatted
  /\ String_trim formatted = formatted.
Proof.
  unfold formatColumnName. destruct (String.eqb name "").
  { cbn zeta. repeat split; try reflexivity; intros c; discriminate. }
  cbn zeta. set (s1 := snake_to_spaces name). set (s2 := split_camel s1).
  set (s3 := upper_abbreviations false 0 s2). set (s4 := capitalize_words false s3).
  split; [|split; [|split; [|split; [|split]]]].
  - apply trim_end_clean, trim_start_clean, capitalize_words_clean,
      upper_abbreviations_clean, split_camel_clean, snake_to_spaces_clean.
  - apply trim_end_no_camel, (trim_start_no_camel _ false).
    apply (capitalize_words_no_camel _ _ false); [|discriminate].
    apply (upper_abbreviations_no_camel _ _ _ false); [|discriminate].
    apply split_camel_no_camel. discriminate.
  - apply trim_end_keeps_abbreviations, trim_start_keeps_abbreviations.
    apply capitalize_words_keeps, upper_abbreviations_idem.
  - apply trim_end_keeps_capitals, trim_start_keeps_capitals, capitalize_words_idem.
  - apply String_trim_trimmed.
  - apply String_trim_fixed.
Qed.

(** X27: a formatted column name is in title case.  It holds no underscore,
    no upper-case letter right after a lower-case one and no white space at
    either end; no word of it begins with a lower-case letter; and its letters
    are those of what the first two steps produce, in this or the other
    case. *)
Theorem formatColumnName_title_case (name : string) :
  let formatted := formatColumnName name in
  no_underscore formatted = true
  /\ no_camel false formatted = true
  /\ words_capitalized false formatted = true
  /\ trimmed formatted
  /\ upcase formatted = upcase (String_trim (split_camel (snake_to_spaces name))).
Proof.
  destruct (formatColumnName_steps name) as (H1 & H2 & _ & H4 & H5 & _).
  cbn zeta. split; [exact H1|]. split; [exact H2|].
  split; [now apply capitalize_words_fixed|]. split; [exact H5|].
  unfold formatColumnName. destruct (String.eqb_spec name "") as [->|_]; [reflexivity|].
  now rewrite !String_trim_upcase, capitalize_words_upcase, upper_abbreviations_upcase.
Qed.

(** X28: formatting is idempotent: a formatted name is formatted to itself,
    so that a chart title built from formatted axis names is the title built
    from the names as they are. *)
Theorem formatColumnName_idempotent (name : string) :
  formatColumnName (formatColumnName name) = formatColumnName name
  /\ forall other type,
       formatChartTitle (formatColumnName name) (formatColumnName other) type
       = formatChartTitle name other type
       /\ formatChartTitle (formatColumnName other) (formatColumnName name) type
          = formatChartTitle other name type.
Proof.
  assert (Hidem : forall n, formatColumnName (formatColumnName n) = formatColumnName n).
  { intros n. destruct (formatColumnName_steps n) as (H1 & H2 & H3 & H4 & _ & H6).
    cbn zeta in *. set (formatted := formatColumnName n) in *.
    unfold formatColumnName at 1.
    destruct (String.eqb_spec formatted "") as [E|_]; [now rewrite E|].
    now rewrite (snake_to_spaces_fixed _ H1), (split_camel_fixed _ _ H2), H3, H4, H6. }
  split; [apply Hidem|]. intros other type. unfold formatChartTitle.
  now rewrite !Hidem.
Qed.

(* ================================================================== *)
(** ** From the parser to the profile and the quality report *)

Lemma percentage_in_range (a b : nat) :
  (a <= b)%nat -> (0 < b)%nat ->
  in_range (Num.of_nat a / Num.of_nat b * num 100)%js.
Proof.
  intros Hab Hb. apply between_in_range.
  unfold Num.of_nat, Num.of_Z, Num.div, num, Num.mul, Num.fin.
  rewrite (sgn_pos _ (of_nat_pos _ Hb)). unfold Num.of_Z.
  eexists. split; [reflexivity|]. rewrite !Qred_correct.
  pose proof (of_nat_pos _ Hb) as Hpos.
  assert (Ha : 0 <= inject_Z (Z.of_nat a)).
  { change 0 with (inject_Z 0). rewrite <- Zle_Qle. lia. }
  assert (Hle : inject_Z (Z.of_nat a) <= inject_Z (Z.of_nat b)).
  { rewrite <- Zle_Qle. lia. }
  assert (H0 : 0 <= inject_Z (Z.of_nat a) / inject_Z (Z.of_nat b)).
  { apply Qle_shift_div_l; [exact Hpos | lra]. }
  assert (H1 : inject_Z (Z.of_nat a) / inject_Z (Z.of_nat b) <= 1).
  { apply Qle_shift_div_r; [exact Hpos | lra]. }
  change (inject_Z 100) with 100. split; lra.
Qed.

Section Pipeline.
Context `{Host}.

Lemma profileColumn_nullPercentage (col : ColumnInfo.t) (values : list Value)
    (profile : ColumnProfile.t) :
  profileColumn col values = Ok profile ->
  ColumnProfile.nullPercentage profile
  = (Num.of_nat (length values - length (filter (fun v => nonNull v = true) values))
     / Num.of_nat (length values) * num 100)%js.
Proof.
  unfold profileColumn.
  destruct (ColumnInfo.type col); try (intros [= <-]; reflexivity).
  destruct (0 <? _)%nat; [|intros [= <-]; reflexivity].
  destruct (histogram_of _ _ _); cbn [bind]; [|discriminate].
  intros [= <-]. reflexivity.
Qed.

(** What a sheet built from rows records of a column: the rows, their
    number, and the number of empty cells of the column. *)
Lemma built_from_counts (sheetName : string) (rows : list Row) (sheet : ParsedData.t)
    (col : ColumnInfo.t) :
  built_from sheetName rows sheet ->
  col ∈ ParsedData.columns sheet ->
  rows <> []
  /\ ParsedData.rows sheet = rows
  /\ ParsedData.rowCount sheet = length rows
  /\ ColumnInfo.nullCount col = empty_cells (column_values sheet col).
Proof.
  intros [Hparse|Hsample] Hcol.
  - apply parse_sheet_inv in Hparse as (_ & Hrows & Hcount & _ & _ & Hcols).
    split.
    { intros ->. cbn [sheet_headers] in Hcols. apply Forall2_nil_inv_l in Hcols.
      rewrite Hcols in Hcol. now apply elem_of_nil in Hcol. }
    split; [exact Hrows|]. split; [exact Hcount|].
    unfold column_values. rewrite Hrows. fold (sheet_column rows (ColumnInfo.name col)).
    clear Hrows Hcount. induction Hcols as [|header c headers cols Hc _ IH];
      [now apply elem_of_nil in Hcol|].
    apply elem_of_cons in Hcol as [->|Hcol]; [|now apply IH].
    destruct (analyzeColumn_cells _ _ _ Hc) as (-> & _ & Hsum & _).
    pose proof (length_filter_split nonNull (sheet_column rows header)) as Hsplit.
    unfold empty_cells. lia.
  - unfold createParsedData in Hsample. destruct rows as [|first rest]; [discriminate|].
    remember (first :: rest) as rows eqn:Erows.
    injection Hsample as <-.
    cbn [ParsedData.rows ParsedData.rowCount ParsedData.columns] in *.
    split; [rewrite Erows; discriminate|]. split; [reflexivity|]. split; [reflexivity|].
    apply list_elem_of_fmap in Hcol as (header & -> & _).
    reflexivity.
Qed.

(** X29: parser, profiler and quality engine agree on the missing values of
    a column.  In a sheet built from rows, by the parser or as a sample, the
    null count of a column is the number of its empty cells and its missing
    percentage lies between 0 and 100; the profile of the column has that
    percentage as its null percentage; and, the column names being distinct,
    the quality report holds a missing-values issue for the column exactly when
    the percentage is above 5. *)
Theorem built_sheet_missing_values (sheetName : string) (rows : list Row)
    (sheet : ParsedData.t) (col : ColumnInfo.t) :
  built_from sheetName rows sheet ->
  col ∈ ParsedData.columns sheet ->
  ColumnInfo.nullCount col = empty_cells (column_values sheet col)
  /\ missingPercentage sheet col
     = (Num.of_nat (empty_cells (column_values sheet col)) / Num.of_nat (length rows)
        * num 100)%js
  /\ in_range (missingPercentage sheet col)
  /\ (forall profile,
        profileColumn col (column_values sheet col) = Ok profile ->
        ColumnProfile.nullPercentage profile = missingPercentage sheet col
        /\ ColumnProfile.nullCount profile = empty_cells (column_values sheet col)
        /\ ColumnProfile.totalCount profile = length rows)
  /\ (forall report,
        NoDup (ColumnInfo.name <$> ParsedData.columns sheet) ->
        analyzeDataQuality sheet = Ok report ->
        (exists i, i ∈ DataQualityReport.issues report
                   /\ Issue.type i = Missing
                   /\ Issue.column i = Some (ColumnInfo.name col))
        <-> (missingPercentage sheet col >? num 5)%js = true).
Proof.
  intros Hbuilt Hcol.
  destruct (built_from_counts _ _ _ _ Hbuilt Hcol) as (Hne & Hrows & Hcount & Hnull).
  assert (Hlen : length (column_values sheet col) = length rows).
  { unfold column_values. now rewrite length_map, Hrows. }
  assert (Hpct : missingPercentage sheet col
                 = (Num.of_nat (empty_cells (column_values sheet col))
                    / Num.of_nat (length rows) * num 100)%js).
  { unfold missingPercentage. now rewrite Hnull, Hcount. }
  split; [exact Hnull|]. split; [exact Hpct|]. split; [|split].
  - rewrite Hpct. apply percentage_in_range.
    + unfold empty_cells. rewrite <- Hlen. apply length_filter.
    + destruct rows; [congruence | cbn; lia].
  - intros profile Hp.
    destruct (profileColumn_fields _ _ _ Hp) as (_ & _ & Htotal & _ & Hpc).
    pose proof (profileColumn_nullPercentage _ _ _ Hp) as Hpn.
    split; [|split].
    + rewrite Hpn, Hpct, Hlen. do 2 f_equal.
      pose proof (length_filter_split nonNull (column_values sheet col)) as Hsplit.
      unfold empty_cells. f_equal. lia.
    + now rewrite Hpc.
    + now rewrite Htotal.
  - intros report Hnd Hreport. fold (missing_reported sheet col). split.
    + intros (i & Hi & Ht & Hc).
      destruct (analyzeDataQuality_issue sheet report i Hreport Hi)
        as [(col' & Hcol' & Hissue)|[Hd _]]; [|congruence].
      destruct (column_issue_type _ _ _ Hissue) as [Hc' _].
      assert (col' = col) as ->.
      { apply (column_of_name (ParsedData.columns sheet)); try assumption. congruence. }
      destruct Hissue as [[Hm _]|[[_ (Ht' & _)]|[_ (Ht' & _)]]];
        [exact Hm | congruence | congruence].
    + intros Hm.
      destruct (proj1 (analyzeDataQuality_issue_complete sheet report col Hreport Hcol) Hm)
        as (i & Hi & Ht & Hc & _).
      exists i. auto.
Qed.

End Pipeline.

(* ================================================================== *)
(** ** Processing an upload *)

Section Processing.
Context `{Host} `{Builtins}.

Lemma preValidation_consistent (file : File.t) : consistent (preValidation file).
Proof.
  destruct (validateFileSize_cases file) as (_ & Hs & _).
  destruct (validateFileType_cases file) as (_ & Ht & _).
  cbn zeta in *. unfold preValidation, combineValidationResults, consistent in *.
  cbn [forallb flat_map FileValidationResult.isValid FileValidationResult.errors].
  rewrite app_nil_r, andb_true_r, andb_true_iff, Hs, Ht. split.
  - intros [-> ->]. reflexivity.
  - intros E. now apply app_eq_nil in E.
Qed.

Lemma validateDataSize_consistent (rowCount columnCount : JSNum) :
  consistent (validateDataSize rowCount columnCount).
Proof.
  unfold validateDataSize, consistent.
  destruct (rowCount >? FILE_LIMITS.MAX_ROW_COUNT)%js;
    [|destruct (rowCount >? FILE_LIMITS.RECOMMENDED_ROW_COUNT)%js];
    destruct (columnCount >? FILE_LIMITS.MAX_COLUMN_COUNT)%js; cbn;
    split; congruence.
Qed.

Lemma errors_of_invalid (r : FileValidationResult.t) :
  consistent r -> FileValidationResult.isValid r = false ->
  FileValidationResult.errors r <> [].
Proof. unfold consistent. intros Hc Hv E. apply Hc in E. congruence. Qed.

(** A workbook without rows parses to a file without sheets. *)
Lemma parseExcelFile_empty (fileName : string) (workbook : list (string * list Row))
    (now : JSNum) :
  Forall (fun sheet => sheet.2 = []) workbook ->
  parseExcelFile fileName workbook now
  = Resolved {| ExcelFile.fileName := fileName;
                ExcelFile.sheets := [];
                ExcelFile.uploadedAt := now |}.
Proof.
  intros Hempty. unfold parseExcelFile.
  assert (E : exists sheets,
             mapM (fun sheet : string * list Row => parse_sheet sheet.1 sheet.2) workbook
             = Ok sheets
             /\ Forall (fun s => ParsedData.rowCount s = 0%nat) sheets).
  { induction Hempty as [|[name rows] workbook Hrows _ (sheets & E & Hs)].
    - exists []. split; [reflexivity | constructor].
    - cbn [snd] in Hrows. subst rows. cbn [mapM fst snd parse_sheet bind]. rewrite E.
      cbn [bind]. eexists. split; [reflexivity|]. constructor; [reflexivity | exact Hs]. }
  destruct E as (sheets & -> & Hs). f_equal. f_equal.
  induction Hs as [|s sheets Hs _ IH]; [reflexivity|].
  rewrite filter_cons, decide_False by lia. exact IH.
Qed.

(** X30: what becomes of an upload.  [processFile] passes a file on exactly
    when the size and type checks pass, the parser resolves with at least one
    sheet, and the first sheet is within the data limits: no other sheet is
    checked.  It then selects the file, keeps the warnings of both checks and
    shows one toast, which is no error.  In every other case it passes nothing
    on and shows at least one toast, all of them errors; once the first checks
    have passed it ends with no file selected and never stays in the
    processing state, while a file that fails them leaves selection and
    processing state as they were.  A workbook all of whose sheets are empty is
    answered with the message that no data was found. *)
Theorem processFile_outcome (st : Upload.t) (file : File.t) (parsed : Settled ExcelFile.t) :
  let st' := (processFile st file parsed).1.1 in
  let toasts := (processFile st file parsed).1.2 in
  let processed := (processFile st file parsed).2 in
  (forall data,
     processed = Some data
     <-> FileValidationResult.isValid (preValidation file) = true
         /\ parsed = Resolved data
         /\ exists sheet, head (ExcelFile.sheets data) = Some sheet /\ within_limits sheet)
  /\ (forall data sheet,
        processed = Some data -> head (ExcelFile.sheets data) = Some sheet ->
        Upload.selectedFile st' = Some file
        /\ Upload.warnings st'
           = FileValidationResult.warnings (preValidation file)
             ++ FileValidationResult.warnings
                  (validateDataSize (Num.of_nat (ParsedData.rowCount sheet))
                                    (Num.of_nat (ParsedData.columnCount sheet)))
        /\ exists t, toasts = [t] /\ Toast.destructive t = false)
  /\ (processed = None ->
      toasts <> [] /\ Forall (fun t => Toast.destructive t = true) toasts)
  /\ (FileValidationResult.isValid (preValidation file) = true ->
      Upload.isProcessing st' = false
      /\ (processed = None -> Upload.selectedFile st' = None))
  /\ (FileValidationResult.isValid (preValidation file) = false ->
      Upload.selectedFile st' = Upload.selectedFile st
      /\ Upload.isProcessing st' = Upload.isProcessing st
      /\ Upload.warnings st' = []
      /\ Toast.description <$> toasts = FileValidationResult.errors (preValidation file))
  /\ (forall fileName workbook now,
        FileValidationResult.isValid (preValidation file) = true ->
        parsed = parseExcelFile fileName workbook now ->
        Forall (fun sheet => sheet.2 = []) workbook ->
        Toast.description <$> toasts = ["No data found in the file"]).
Proof.
  cbn zeta. unfold processFile, within_limits. fold (preValidation file).
  pose proof (preValidation_consistent file) as Hpre.
  destruct (FileValidationResult.isValid (preValidation file)) eqn:Ev; cbn [negb].
  2:{ cbn [fst snd Upload.selectedFile Upload.isProcessing Upload.warnings].
      pose proof (errors_of_invalid _ Hpre Ev) as Hne.
      split; [intros data; split; [discriminate | now intros [? _]]|].
      split; [discriminate|]. split.
      { intros _. split.
        - destruct (FileValidationResult.errors (preValidation file)); [congruence|discriminate].
        - apply Forall_map_elem. reflexivity. }
      split; [discriminate|]. split; [|discriminate].
      intros _. repeat split.
      rewrite <- list_fmap_compose. apply list_fmap_id. }
  destruct parsed as [data|message].
  2:{ cbn [fst snd Upload.selectedFile Upload.isProcessing Upload.warnings].
      split; [intros data; split; [discriminate | now intros (_ & ? & _)]|].
      split; [discriminate|]. split; [intros _; split; [discriminate | repeat constructor]|].
      split; [auto|]. split; [discriminate|].
      intros fileName workbook now _ Hparse Hempty.
      rewrite (parseExcelFile_empty _ _ _ Hempty) in Hparse. discriminate. }
  destruct (ExcelFile.sheets data) as [|sheet sheets] eqn:Es.
  { cbn [fst snd Upload.selectedFile Upload.isProcessing Upload.warnings].
    split.
    { intros data'. split; [discriminate|]. intros (_ & [= <-] & sheet & Hs & _).
      rewrite Es in Hs. discriminate. }
    split; [discriminate|]. split; [intros _; split; [discriminate | repeat constructor]|].
    split; [auto|]. split; [discriminate|]. reflexivity. }
  pose proof (validateDataSize_consistent (Num.of_nat (ParsedData.rowCount sheet))
                (Num.of_nat (ParsedData.columnCount sheet))) as Hdata.
  destruct (FileValidationResult.isValid (validateDataSize _ _)) eqn:Ed; cbn [negb].
  - cbn [fst snd Upload.selectedFile Upload.isProcessing Upload.warnings].
    split.
    { intros data'. split.
      - intros [= <-]. split; [reflexivity|]. split; [reflexivity|].
        exists sheet. rewrite Es. split; [reflexivity | exact Ed].
      - intros (_ & [= <-] & _). reflexivity. }
    split.
    { intros data' sheet' [= <-]. rewrite Es. intros [= <-].
      split; [reflexivity|]. split; [reflexivity|]. eexists. split; reflexivity. }
    split; [discriminate|]. split; [split; [reflexivity | discriminate]|].
    split; [discriminate|].
    intros fileName workbook now _ Hparse Hempty.
    rewrite (parseExcelFile_empty _ _ _ Hempty) in Hparse. injection Hparse as ->.
    cbn in Es. discriminate.
  - cbn [fst snd Upload.selectedFile Upload.isProcessing Upload.warnings].
    pose proof (errors_of_invalid _ Hdata Ed) as Hne.
    split.
    { intros data'. split; [discriminate|]. intros (_ & [= <-] & sheet' & Hs & Hv).
      rewrite Es in Hs. injection Hs as <-. congruence. }
    split; [discriminate|]. split.
    { intros _. split.
      - destruct (FileValidationResult.errors (validateDataSize _ _));
          [congruence | discriminate].
      - apply Forall_map_elem. reflexivity. }
    split; [auto|]. split; [discriminate|].
    intros fileName workbook now _ Hparse Hempty.
    rewrite (parseExcelFile_empty _ _ _ Hempty) in Hparse. injection Hparse as ->.
    cbn in Es. discriminate.
Qed.

End Processing.

(* ================================================================== *)
(** ** The properties at concrete inputs *)

Lemma analyzeDataQuality_summary_witness :
  exists report,
    analyzeDataQuality defect_sheet = Ok report
    /\ Summary.totalIssues (DataQualityReport.summary report)
       = length (DataQualityReport.issues report).
Proof.
  assert (E : exists report, analyzeDataQuality defect_sheet = Ok report)
    by (eexists; vm_compute; reflexivity).
  destruct E as [report E]. exists report. split; [exact E|].
  exact (proj1 (analyzeDataQuality_summary defect_sheet report E)).
Defined.

Lemma analyzeDataQuality_issues_sorted_witness :
  exists report,
    analyzeDataQuality defect_sheet = Ok report
    /\ StronglySorted severity_precedes (DataQualityReport.issues report).
Proof.
  assert (E : exists report, analyzeDataQuality defect_sheet = Ok report)
    by (eexists; vm_compute; reflexivity).
  destruct E as [report E]. exists report. split; [exact E|].
  exact (analyzeDataQuality_issues_sorted defect_sheet report E).
Defined.

Lemma analyzeDataQuality_issue_ids_witness :
  exists report,
    analyzeDataQuality defect_sheet = Ok report
    /\ Issue.id <$> DataQualityReport.issues report
       ≡ₚ issue_ids (length (DataQualityReport.issues report)).
Proof.
  assert (E : exists report, analyzeDataQuality defect_sheet = Ok report)
    by (eexists; vm_compute; reflexivity).
  destruct E as [report E]. exists report. split; [exact E|].
  exact (analyzeDataQuality_issue_ids defect_sheet report E).
Defined.


Lemma analyzeDataQuality_no_columns_witness :
  exists report,
    analyzeDataQuality columnless_sheet = Ok report
    /\ DataQualityReport.overallScore report = NaN.
Proof.
  destruct (analyzeDataQuality_no_columns columnless_sheet eq_refl)
    as (report & E & Hscore & _).
  exists report. split; [exact E | exact Hscore].
Defined.


Lemma detectMixedTypes_classes_witness :
  NoDup [TString; TNumber]
  /\ detectMixedTypes defect_m_cells = Ok (true, [TString; TNumber]).
Proof.
  assert (E : detectMixedTypes defect_m_cells = Ok (true, [TString; TNumber]))
    by (vm_compute; reflexivity).
  split; [|exact E].
  exact (proj1 (detectMixedTypes_classes defect_m_cells true [TString; TNumber] E)).
Defined.


Lemma profileColumn_distribution_witness :
  exists profile,
    profileColumn defect_m defect_m_cells = Ok profile
    /\ (length (ColumnProfile.distribution profile) <= 10)%nat.
Proof.
  assert (E : exists profile, profileColumn defect_m defect_m_cells = Ok profile)
    by (eexists; vm_compute; reflexivity).
  destruct E as [profile E]. exists profile. split; [exact E|].
  exact (proj1 (profileColumn_distribution defect_m defect_m_cells profile E)).
Defined.

Lemma generateDataProfile_shape_witness :
  exists profile,
    generateDataProfile scenario4 = Ok profile
    /\ (2 * length (DataProfile.correlations profile) <= 2)%nat.
Proof.
  assert (E : exists profile, generateDataProfile scenario4 = Ok profile)
    by (vm_compute; eexists; reflexivity).
  destruct E as [profile E]. exists profile. split; [exact E|].
  exact (proj2 (proj2 (generateDataProfile_shape scenario4 profile E))).
Defined.

Lemma analyzeColumn_counts_witness :
  exists col,
    analyzeColumn "v" defect_v_cells = Ok col
    /\ (ColumnInfo.nullCount col + 5 = 5)%nat.
Proof.
  assert (E : exists col, analyzeColumn "v" defect_v_cells = Ok col)
    by (eexists; vm_compute; reflexivity).
  destruct E as [col E]. exists col. split; [exact E|].
  exact (proj1 (proj2 (proj2 (analyzeColumn_counts "v" defect_v_cells col E)))).
Defined.

Lemma analyzeColumn_statistics_witness :
  exists col,
    analyzeColumn "v" defect_v_cells = Ok col
    /\ ColumnInfo.type col = TNumber
    /\ profile_numeric_values defect_v_cells <> [].
Proof.
  assert (E : exists col, analyzeColumn "v" defect_v_cells = Ok col
                          /\ ColumnInfo.type col = TNumber)
    by (eexists; vm_compute; split; reflexivity).
  destruct E as (col & E & Ht). exists col. split; [exact E|]. split; [exact Ht|].
  exact (proj1 (proj1 (analyzeColumn_statistics "v" defect_v_cells col E) Ht)).
Defined.


Lemma parse_sheet_shape_witness :
  exists sheet,
    parse_sheet "Sheet1" scenario4_rows = Ok sheet
    /\ ParsedData.rows sheet = scenario4_rows
    /\ ParsedData.rowCount sheet = 10%nat.
Proof.
  assert (E : exists sheet, parse_sheet "Sheet1" scenario4_rows = Ok sheet)
    by (eexists; vm_compute; reflexivity).
  destruct E as [sheet E]. exists sheet. split; [exact E|].
  destruct (parse_sheet_shape "Sheet1" scenario4_rows sheet E) as (Hrows & Hcount & _).
  split; [exact Hrows | exact Hcount].
Defined.


Lemma built_sheet_missing_values_witness :
  exists sheet col,
    parse_sheet "Sheet1" scenario4_rows = Ok sheet
    /\ col ∈ ParsedData.columns sheet
    /\ in_range (missingPercentage sheet col).
Proof.
  assert (E : exists sheet col cols,
             parse_sheet "Sheet1" scenario4_rows = Ok sheet
             /\ ParsedData.columns sheet = col :: cols)
    by (do 3 eexists; vm_compute; split; reflexivity).
  destruct E as (sheet & col & cols & E & Hcols). exists sheet, col.
  assert (Hcol : col ∈ ParsedData.columns sheet)
    by (rewrite Hcols; apply list_elem_of_here).
  split; [exact E|]. split; [exact Hcol|].
  exact (proj1 (proj2 (proj2 (built_sheet_missing_values "Sheet1" scenario4_rows sheet col
                                (or_introl E) Hcol)))).
Defined.
